(** * luna-sysservice: broadcast time, NITZ setting bits and setPreferences

    A shallow embedding of
      - [Src/BroadcastTimeHandler.cpp] (toLocal, toUtc,
        answerEffectiveBroadcastTime, cbSetBroadcastTime,
        cbGetBroadcastTime, cbGetEffectiveBroadcastTime,
        postBroadcastEffectiveTimeChange),
      - the inline predicates of [Inc/TimePrefsHandler.h]
        (isManualTimeUsed and friends),
      - [Src/PrefsFactory.cpp] (getPrefsHandler,
        postPrefChangeValueIsCompleteString, cbSetPreferences),
    followed by the properties proved about them. *)

From Stdlib Require Import ZArith Bool List Lia.
From stdpp Require Import gmap strings list fin_maps pretty.

Local Open Scope Z_scope.

(** ** time_t *)

(** [time_t] is a 64-bit signed integer on the target.  Values are kept in
    [Z]; the additions and subtractions the handlers perform on it are
    wrapped to 64 bits (two's complement). *)
Definition time_t := Z.

Definition wrap64 (x : Z) : Z := (x + 2 ^ 63) mod 2 ^ 64 - 2 ^ 63.

Definition time_add (a b : time_t) : time_t := wrap64 (a + b).
Definition time_sub (a b : time_t) : time_t := wrap64 (a - b).

(** [(time_t)-1], the error value of the C time interfaces. *)
Definition TIME_INVALID : time_t := -1.

(** ** The C library calls used by toLocal and toUtc

    [struct tm], [gmtime_r], [timegm], [localtime_r] and [timelocal]
    belong to the C library.  They are modelled here over the proleptic
    Gregorian calendar and a zone given, as in a compiled zone file, by its
    list of transitions. *)

Record tm := mk_tm {
  tm_sec : Z;
  tm_min : Z;
  tm_hour : Z;
  tm_mday : Z;
  tm_mon : Z;   (* 0..11 *)
  tm_year : Z;  (* years since 1900 *)
  tm_wday : Z;
  tm_yday : Z;
  tm_isdst : Z
}.

Definition set_tm_isdst (v : Z) (t : tm) : tm :=
  mk_tm (tm_sec t) (tm_min t) (tm_hour t) (tm_mday t) (tm_mon t)
        (tm_year t) (tm_wday t) (tm_yday t) v.

(** Day number (days since 1970-01-01) to (year, month 1..12, day 1..31). *)
Definition civil_from_days (z : Z) : Z * Z * Z :=
  let z := z + 719468 in
  let era := z / 146097 in
  let doe := z mod 146097 in
  let yoe := (doe - doe / 1460 + doe / 36524 - doe / 146096) / 365 in
  let y := yoe + era * 400 in
  let doy := doe - (365 * yoe + yoe / 4 - yoe / 100) in
  let mp := (5 * doy + 2) / 153 in
  let d := doy - (153 * mp + 2) / 5 + 1 in
  let m := if mp <? 10 then mp + 3 else mp - 9 in
  (if m <=? 2 then y + 1 else y, m, d).

(** (year, month 1..12, day) to the day number. *)
Definition days_from_civil (y m d : Z) : Z :=
  let y := if m <=? 2 then y - 1 else y in
  let era := y / 400 in
  let yoe := y mod 400 in
  let doy := (153 * (if 2 <? m then m - 3 else m + 9) + 2) / 5 + d - 1 in
  let doe := yoe * 365 + yoe / 4 - yoe / 100 + doy in
  era * 146097 + doe - 719468.

(** [tm_year] is an [int]. *)
Definition fits_int (x : Z) : bool := (- 2 ^ 31 <=? x) && (x <? 2 ^ 31).

(** [gmtime_r]: [None] stands for the NULL result (year out of range). *)
Definition gmtime_r (t : time_t) : option tm :=
  let days := t / 86400 in
  let rem := t mod 86400 in
  let '(y, m, d) := civil_from_days days in
  if fits_int (y - 1900) then
    Some (mk_tm (rem mod 60) (rem mod 3600 / 60) (rem / 3600)
                d (m - 1) (y - 1900)
                ((days + 4) mod 7) (days - days_from_civil y 1 1) 0)
  else None.

(** [timegm]: the fields read as UTC; a month outside 0..11 carries into the
    year, the other fields are linear. *)
Definition timegm (t : tm) : time_t :=
  let y := tm_year t + 1900 + tm_mon t / 12 in
  let m := tm_mon t mod 12 + 1 in
  days_from_civil y m (tm_mday t) * 86400
  + tm_hour t * 3600 + tm_min t * 60 + tm_sec t.

(** One local time type of a zone: its offset east of UTC and its DST flag. *)
Record ttinfo := mk_ttinfo { tt_gmtoff : Z; tt_isdst : bool }.

(** The configured zone (the process's TZ rules): the local time type in
    force before the first transition, and the transitions in ascending
    order of their UTC instant. *)
Record TimeZone := mk_TimeZone {
  tz_first : ttinfo;
  tz_transitions : list (Z * ttinfo)
}.

Fixpoint ttinfo_from (trs : list (Z * ttinfo)) (cur : ttinfo) (t : Z) : ttinfo :=
  match trs with
  | [] => cur
  | (start, info) :: rest =>
      if start <=? t then ttinfo_from rest info t else cur
  end.

Definition ttinfo_at (z : TimeZone) (t : Z) : ttinfo :=
  ttinfo_from (tz_transitions z) (tz_first z) t.

Definition utc_offset (z : TimeZone) (t : Z) : Z := tt_gmtoff (ttinfo_at z t).

Definition tz_types (z : TimeZone) : list ttinfo :=
  tz_first z :: map snd (tz_transitions z).

(** [localtime_r]: the broken-down reading of the instant in the zone. *)
Definition localtime_r (z : TimeZone) (t : time_t) : option tm :=
  let info := ttinfo_at z t in
  match gmtime_r (t + tt_gmtoff info) with
  | Some b => Some (set_tm_isdst (if tt_isdst info then 1 else 0) b)
  | None => None
  end.

(** Does the instant [civil - gmtoff] read as [civil] under this type? *)
Definition reads_as (z : TimeZone) (civil : Z) (info : ttinfo) : bool :=
  tt_gmtoff (ttinfo_at z (civil - tt_gmtoff info)) =? tt_gmtoff info.

Definition dst_matches (isdst : Z) (info : ttinfo) : bool :=
  if tt_isdst info then 0 <? isdst else isdst =? 0.

(** [timelocal] (mktime): an instant whose local reading is the given
    fields.  With [tm_isdst < 0] the zone rules decide; with a
    non-negative flag a reading of that kind is preferred.  For a reading
    that a forward clock change skipped no instant matches, and the
    zone's first type is applied.  Where two instants have the reading (a
    repeated hour) this is the pick of a first call; the C library's pick
    can depend on its earlier calls, and in a skipped hour it applies an
    offset next to the change. *)
Definition timelocal (z : TimeZone) (t : tm) : time_t :=
  let civil := timegm t in
  let hits := filter (fun i => reads_as z civil i = true) (tz_types z) in
  let preferred :=
    if tm_isdst t <? 0 then hits
    else filter (fun i => dst_matches (tm_isdst t) i = true) hits ++ hits in
  match preferred with
  | info :: _ => civil - tt_gmtoff info
  | [] => civil - tt_gmtoff (tz_first z)
  end.

(** ** BroadcastTimeHandler.cpp: toLocal and toUtc *)

Definition toLocal (z : TimeZone) (utc : time_t) : time_t :=
  match localtime_r z utc with
  | None => TIME_INVALID
  | Some localTm => timegm localTm
  end.

Definition toUtc (z : TimeZone) (local : time_t) : time_t :=
  match gmtime_r local with
  | None => TIME_INVALID
  | Some localTm => timelocal z (set_tm_isdst (-1) localTm)
  end.

(** A central-European zone around 2021: CET, CEST from 2021-03-28
    01:00 UTC, CET again from 2021-10-31 01:00 UTC. *)
Definition zoneBerlin : TimeZone :=
  mk_TimeZone (mk_ttinfo 3600 false)
    [ (1616893200, mk_ttinfo 7200 true);
      (1635642000, mk_ttinfo 3600 false) ].

(** A zone with one fixed offset. *)
Definition fixedZone (off : Z) : TimeZone :=
  mk_TimeZone (mk_ttinfo off false) [].

(** ** JSON values (pbnjson::JValue) *)

#[local] Set Warnings "-register-all".

Inductive JValue :=
| JNull
| JBool (b : bool)
| JInt (z : Z)
| JReal (literal : string)   (* a number that is not an integer *)
| JString (s : string)
| JArray (items : list JValue)
| JObject (members : list (string * JValue)).

Definition isObject (v : JValue) : bool :=
  match v with JObject _ => true | _ => false end.

Definition isNumber (v : JValue) : bool :=
  match v with JInt _ | JReal _ => true | _ => false end.

Definition isInteger (v : JValue) : bool :=
  match v with JInt _ => true | _ => false end.

Definition isBoolean (v : JValue) : bool :=
  match v with JBool _ => true | _ => false end.

Definition asBool (v : JValue) : bool :=
  match v with JBool b => b | _ => false end.

Fixpoint assoc {A} (key : string) (l : list (string * A)) : option A :=
  match l with
  | [] => None
  | (k, v) :: rest => if String.eqb k key then Some v else assoc key rest
  end.

(** [value[key]]: the member, or null when there is none. *)
Definition jget (key : string) (v : JValue) : JValue :=
  match v with
  | JObject members => default JNull (assoc key members)
  | _ => JNull
  end.

Definition hasKey (key : string) (v : JValue) : bool :=
  match v with
  | JObject members => bool_decide (is_Some (assoc key members))
  | _ => false
  end.

Fixpoint put_member (key : string) (x : JValue) (l : list (string * JValue))
  : list (string * JValue) :=
  match l with
  | [] => [(key, x)]
  | (k, v) :: rest =>
      if String.eqb k key then (k, x) :: rest else (k, v) :: put_member key x rest
  end.

(** [value.put(key, x)]: sets the member, replacing an earlier one. *)
Definition put (key : string) (x : JValue) (v : JValue) : JValue :=
  match v with
  | JObject members => JObject (put_member key x members)
  | _ => v
  end.

(** [toJValue(time_t)] *)
Definition toJValue (t : time_t) : JValue := JInt t.

(** ** Schemas of BroadcastTimeHandler.cpp *)

(** The part of a JSON schema the source uses: an optional
    ["type": "object"], typed properties, required members and
    ["additionalProperties"]. *)
Record ObjectSchema := mk_ObjectSchema {
  os_type_object : bool;
  os_properties : list (string * (JValue -> bool));
  os_required : list string;
  os_additionalProperties : bool
}.

Definition member_ok (s : ObjectSchema) (kv : string * JValue) : bool :=
  match assoc (fst kv) (os_properties s) with
  | Some accepts => accepts (snd kv)
  | None => os_additionalProperties s
  end.

Definition validates (s : ObjectSchema) (v : JValue) : bool :=
  match v with
  | JObject members =>
      forallb (member_ok s) members
      && forallb (fun k => hasKey k v) (os_required s)
  | _ => negb (os_type_object s)
  end.

Inductive JSchema :=
| schemaGeneric
| schemaEmptyObject
| schemaSubscribeRequest
| schemaSetBroadcastTime
| schemaGetBroadcastTimeReply.

(** ** luna-service2 messages and what a handler sends out *)

Inductive Payload :=
| PayloadNull                           (* LSMessageGetPayload gave NULL *)
| PayloadText (parsed : option JValue). (* [None]: the text is not JSON *)

Record LSMessage := mk_LSMessage {
  msg_token : nat;
  msg_payload : Payload;
  msg_applicationID : option string
}.

Record timespec := mk_timespec { tv_sec : Z; tv_nsec : Z }.

Inductive Event :=
| LSMessageReply_call (message : LSMessage) (payload : JValue)
| LSSubscriptionReply_call (key : string) (payload : JValue)
| deprecatedClockChange_fire (offset : time_t) (tag : string) (stamp : time_t)
| valueChanged_call (key : string) (value : JValue).

(** The notifications of a state change: a push to the subscribers of a
    key and a firing of the clock-change signal. *)
Definition is_notification (e : Event) : bool :=
  match e with
  | LSSubscriptionReply_call _ _ | deprecatedClockChange_fire _ _ _ => true
  | _ => false
  end.

(** What the bus hands to which message: a reply goes to its message, a
    subscription reply to every message subscribed under the key. *)
Definition deliveries (subs : list (string * LSMessage)) (e : Event)
  : list (LSMessage * JValue) :=
  match e with
  | LSMessageReply_call m p => [(m, p)]
  | LSSubscriptionReply_call key p =>
      map (fun km => (snd km, p))
          (filter (fun km => String.eqb (fst km) key = true) subs)
  | _ => []
  end.

(** ** Collaborators that are not part of the sources

    The classes and helpers the handlers call but whose code is elsewhere
    (BroadcastTime.h, ClockHandler.h, JSONUtils.h, TimePrefsHandler.cpp,
    pbnjson, luna-service2, the system clock and zone) are parameters. *)
Class Platform := {
  (* BroadcastTime.h *)
  BroadcastTime : Type;
  BroadcastTime_avail : BroadcastTime -> bool;
  BroadcastTime_get : BroadcastTime -> option (time_t * time_t);
  BroadcastTime_set :
    BroadcastTime -> time_t -> time_t -> time_t -> bool * BroadcastTime;
  (* ClockHandler.h *)
  evaluateDelay : timespec -> time_t;
  timestampJson : JValue;
  SCHEMA_TIMESTAMP : JValue -> bool;
  (* JSONUtils.h *)
  toInteger : JValue -> Z;
  toJValue_tm : tm -> JValue;
  parseErrorCode : Payload -> Z;
  parseErrorText : Payload -> string;
  (* TimePrefsHandler.cpp *)
  currentStamp : time_t;
  (* the system clock, by the number of earlier readings in this loop turn,
     and the configured zone *)
  clockReading : nat -> time_t;
  TZ : TimeZone;
  (* pbnjson and luna-service2 *)
  JGenerator_toString : JValue -> JSchema -> bool;
  LSMessageReply : LSMessage -> JValue -> bool;
  LSSubscriptionReply : string -> JValue -> bool;
  LSSubscriptionAdd : string -> LSMessage -> bool;
  LSSubscriptionAcquire : string -> bool;
  stringify : JValue -> string;
  (* PrefsDb.h *)
  PrefsDb_write : string -> string -> bool
}.

(** ** A state monad for the handlers

    A handler runs to completion on the event loop; it reads and updates
    the TimePrefsHandler object, reads the system clock, and calls the bus.
    [World] carries what it can change, [M] threads it. *)

Section Handlers.
Context {P : Platform}.

(** The members of TimePrefsHandler the modelled code reads or writes. *)
Record TimePrefsHandler := mk_TimePrefsHandler {
  m_nitzSetting : Z;                 (* int, see the enum: a bitfield *)
  m_nitzTimeZoneAvailable : bool;
  m_broadcastTime : BroadcastTime;
  m_systemTimeSourceTag : string
}.

Definition set_m_broadcastTime (b : BroadcastTime) (h : TimePrefsHandler)
  : TimePrefsHandler :=
  mk_TimePrefsHandler (m_nitzSetting h) (m_nitzTimeZoneAvailable h) b
                      (m_systemTimeSourceTag h).

Definition set_m_nitzSetting (v : Z) (h : TimePrefsHandler) : TimePrefsHandler :=
  mk_TimePrefsHandler v (m_nitzTimeZoneAvailable h) (m_broadcastTime h)
                      (m_systemTimeSourceTag h).

(** A registered preferences handler (PrefsHandler): its [validate]
    (key, value, caller id).  Its [valueChanged] is recorded as a call. *)
Record PrefsHandler := mk_PrefsHandler {
  validate : string -> JValue -> string -> bool
}.

Record World := mk_World {
  w_timePrefsHandler : TimePrefsHandler;         (* s_inst / userData *)
  w_clockReadings : nat;                         (* time(0) calls so far *)
  w_subscriptions : list (string * LSMessage);   (* the bus's subscription lists *)
  w_prefsDb : gmap string string;                (* PrefsDb *)
  w_handlersMaps : gmap string PrefsHandler;     (* PrefsFactory::m_handlersMaps *)
  w_out : list Event                             (* calls made, oldest first *)
}.

Definition M (A : Type) : Type := World -> A * World.

Definition ret {A} (a : A) : M A := fun w => (a, w).

Definition bind {A B} (m : M A) (k : A -> M B) : M B :=
  fun w => let '(a, w') := m w in k a w'.

Notation "x <- m ;; k" := (bind m (fun x => k))
  (at level 100, m at next level, right associativity).
Notation "m ;;; k" := (bind m (fun _ => k))
  (at level 100, right associativity).

Definition gets {A} (f : World -> A) : M A := fun w => (f w, w).

(** The updates of the world. *)
Definition w_emit (es : list Event) (w : World) : World :=
  mk_World (w_timePrefsHandler w) (w_clockReadings w) (w_subscriptions w)
           (w_prefsDb w) (w_handlersMaps w) (w_out w ++ es).

Definition w_tick (w : World) : World :=
  mk_World (w_timePrefsHandler w) (S (w_clockReadings w)) (w_subscriptions w)
           (w_prefsDb w) (w_handlersMaps w) (w_out w).

Definition w_set_timePrefsHandler (h : TimePrefsHandler) (w : World) : World :=
  mk_World h (w_clockReadings w) (w_subscriptions w)
           (w_prefsDb w) (w_handlersMaps w) (w_out w).

Definition w_subscribe (key : string) (message : LSMessage) (w : World) : World :=
  mk_World (w_timePrefsHandler w) (w_clockReadings w)
           (w_subscriptions w ++ [(key, message)])
           (w_prefsDb w) (w_handlersMaps w) (w_out w).

Definition w_set_prefsDb (db : gmap string string) (w : World) : World :=
  mk_World (w_timePrefsHandler w) (w_clockReadings w) (w_subscriptions w)
           db (w_handlersMaps w) (w_out w).

Definition emit (e : Event) : M unit := fun w => (tt, w_emit [e] w).

(** [time(0)] *)
Definition time0 : M time_t := fun w =>
  (clockReading (w_clockReadings w), w_tick w).

Definition modify_timePrefsHandler (f : TimePrefsHandler -> TimePrefsHandler)
  : M unit := fun w =>
  (tt, w_set_timePrefsHandler (f (w_timePrefsHandler w)) w).

Definition subscribe (key : string) (message : LSMessage) : M unit := fun w =>
  (tt, w_subscribe key message w).

Definition modify_prefsDb (f : gmap string string -> gmap string string)
  : M unit := fun w =>
  (tt, w_set_prefsDb (f (w_prefsDb w)) w).

(** ** TimePrefsHandler.h: the inline predicates *)

Definition NITZ_TimeEnable : Z := 1.
Definition NITZ_TZEnable : Z := 2.

(** An [int] used as a condition. *)
Definition truth (x : Z) : bool := negb (x =? 0).

Definition isManualTimeUsed (h : TimePrefsHandler) : bool :=
  negb (truth (Z.land (m_nitzSetting h) NITZ_TimeEnable)).

Definition isSystemTimeBroadcastEffective (h : TimePrefsHandler) : bool :=
  isManualTimeUsed h || negb (BroadcastTime_avail (m_broadcastTime h)).

Definition isNITZTimeEnabled (h : TimePrefsHandler) : bool :=
  truth (Z.land (m_nitzSetting h) NITZ_TimeEnable).

Definition isNITZTZEnabled (h : TimePrefsHandler) : bool :=
  truth (Z.land (m_nitzSetting h) NITZ_TZEnable) && m_nitzTimeZoneAvailable h.

Definition isNITZDisabled (h : TimePrefsHandler) : bool :=
  negb (truth (Z.land (m_nitzSetting h) NITZ_TimeEnable))
  && negb (truth (Z.land (m_nitzSetting h) NITZ_TZEnable)).

Definition getSystemTimeSource (h : TimePrefsHandler) : string :=
  m_systemTimeSourceTag h.

(** ** BroadcastTimeHandler.cpp *)

Definition effectiveBroadcastKey : string := "effectiveBroadcastKey".

Definition inRange (lo : Z) (hi : option Z) (v : JValue) : bool :=
  match v with
  | JInt z => (lo <=? z) && match hi with Some h => z <=? h | None => true end
  | _ => false
  end.

Definition SCHEMA_LOCALTIME : ObjectSchema :=
  mk_ObjectSchema true
    [("year", inRange 1900 None); ("month", inRange 1 (Some 12));
     ("day", inRange 1 (Some 31)); ("hour", inRange 0 (Some 23));
     ("minute", inRange 0 (Some 59)); ("second", inRange 0 (Some 59))]
    ["year"; "month"; "day"; "hour"; "minute"; "second"] false.

Definition schemaOf (s : JSchema) : ObjectSchema :=
  match s with
  | schemaGeneric => mk_ObjectSchema false [] [] true
  | schemaEmptyObject => mk_ObjectSchema false [] [] false
  | schemaSubscribeRequest =>
      mk_ObjectSchema false [("subscribe", isBoolean)] [] false
  | schemaSetBroadcastTime =>
      mk_ObjectSchema true
        [("utc", isInteger); ("local", isInteger);
         ("timestamp", SCHEMA_TIMESTAMP)]
        ["utc"; "local"] false
  | schemaGetBroadcastTimeReply =>
      mk_ObjectSchema true
        [("returnValue", fun v => match v with JBool true => true | _ => false end);
         ("subscribed", isBoolean);
         ("utc", isInteger);
         ("adjustedUtc", isInteger);
         ("local", isInteger);
         ("localtime", validates SCHEMA_LOCALTIME);
         ("systemTimeSource", fun v => match v with JString _ => true | _ => false end);
         ("timestamp", SCHEMA_TIMESTAMP)]
        ["returnValue"; "local"] false
  end.

(** Modelled from the spec: [createJsonReply] of JSONUtils, which is not
    among the sources.  A reply is "a JSON-like object with at least a
    boolean success indicator"; a failure carries the error code and the
    error text it was given. *)
Definition createJsonReply (returnValue : bool) (errorCode : Z)
    (errorText : option string) : JValue :=
  let r := put "returnValue" (JBool returnValue) (JObject []) in
  let r := if errorCode =? 0 then r else put "errorCode" (JInt errorCode) r in
  match errorText with
  | Some text => put "errorText" (JString text) r
  | None => r
  end.

Definition reply (message : LSMessage) (response : JValue) (schema : JSchema)
  : M bool :=
  if negb (JGenerator_toString response schema) then ret false
  else
    emit (LSMessageReply_call message response) ;;;
    ret (LSMessageReply message response).

(** Modelled from the spec: the validation done by
    [LSMessageJsonParser::parse] of JSONUtils, which is not among the
    sources: the payload must be JSON text that validates against the
    schema of the method. *)
Definition parser_accepts (schema : JSchema) (p : Payload) : option JValue :=
  match p with
  | PayloadText (Some v) =>
      if validates (schemaOf schema) v then Some v else None
  | _ => None
  end.

(** Modelled from the spec: [LSMessageJsonParser::parse] with
    [EValidateAndErrorAlways], not among the sources.  "Malformed input
    (schema/shape invalid) - rejected at the boundary, surfaced to the
    caller as a structured failure": a payload that does not validate is
    answered by the parser itself with a failure reply, and the parse
    fails. *)
Definition parser_parse (message : LSMessage) (schema : JSchema)
  : M (option JValue) :=
  match parser_accepts schema (msg_payload message) with
  | Some v => ret (Some v)
  | None =>
      emit (LSMessageReply_call message
              (createJsonReply false (parseErrorCode (msg_payload message))
                 (Some (parseErrorText (msg_payload message))))) ;;;
      ret None
  end.

Definition addLocalTime (root : JValue) (local : time_t) : JValue :=
  match gmtime_r local with
  | None => root
  | Some tmLocal => put "localtime" (toJValue_tm tmLocal) root
  end.

Definition answerEffectiveBroadcastTime (answer : JValue)
    (timePrefsHandler : TimePrefsHandler) (broadcastTime : BroadcastTime)
  : M (bool * JValue) :=
  r <- (if isSystemTimeBroadcastEffective timePrefsHandler then
          adjustedUtc <- time0 ;;
          ret (adjustedUtc, toLocal TZ adjustedUtc, true)
        else
          match BroadcastTime_get broadcastTime with
          | None =>
              adjustedUtc <- time0 ;;
              ret (adjustedUtc, toLocal TZ adjustedUtc, true)
          | Some (_, local) => ret (toUtc TZ local, local, false)
          end) ;;
  let '(adjustedUtc, local, systemTimeUsed) := r in
  if local =? TIME_INVALID then
    ret (false,
         put "errorText" (JString "Failed to get localtime")
             (put "errorCode" (JInt (-1)) answer))
  else
    let answer := put "adjustedUtc" (toJValue adjustedUtc) answer in
    let answer := put "local" (toJValue local) answer in
    let answer := put "timestamp" timestampJson answer in
    let answer := addLocalTime answer local in
    if systemTimeUsed : bool then
      instance <- gets w_timePrefsHandler ;;
      ret (true, put "systemTimeSource"
                     (JString (getSystemTimeSource instance)) answer)
    else ret (true, answer).

Definition postBroadcastEffectiveTimeChange : M unit :=
  this <- gets w_timePrefsHandler ;;
  r <- answerEffectiveBroadcastTime (JObject []) this (m_broadcastTime this) ;;
  let '(ok, answer) := r in
  if negb ok then ret tt
  else if negb (JGenerator_toString answer schemaGeneric) then ret tt
  else
    emit (LSSubscriptionReply_call effectiveBroadcastKey answer) ;;;
    let _ := LSSubscriptionReply effectiveBroadcastKey answer in
    ret tt.

(** The [utc] and [local] of a validated request as cbSetBroadcastTime
    hands them to [BroadcastTime::set]: with a timestamp that is an object
    with numeric [sec] and [nsec], both are advanced by the evaluated
    delay. *)
Definition requestedSample (request : JValue) : time_t * time_t :=
  let utc := toInteger (jget "utc" request) in
  let local := toInteger (jget "local" request) in
  let timestamp := jget "timestamp" request in
  if isObject timestamp && isNumber (jget "sec" timestamp)
     && isNumber (jget "nsec" timestamp)
  then
    let sourceTimeStamp :=
      mk_timespec (toInteger (jget "sec" timestamp))
                  (toInteger (jget "nsec" timestamp)) in
    let delay := evaluateDelay sourceTimeStamp in
    (time_add utc delay, time_add local delay)
  else (utc, local).

Definition cbSetBroadcastTime (message : LSMessage) : M bool :=
  parsed <- parser_parse message schemaSetBroadcastTime ;;
  match parsed with
  | None => ret true
  | Some request =>
      let '(utc, local) := requestedSample request in
      utcCurrent <- time0 ;;
      let utcOffset := time_sub utc utcCurrent in
      now <- time0 ;;
      let adjustedUtcOffset := time_sub (toUtc TZ local) now in
      timePrefsHandler <- gets w_timePrefsHandler ;;
      let '(stored, broadcastTime) :=
        BroadcastTime_set (m_broadcastTime timePrefsHandler)
                          utc local currentStamp in
      modify_timePrefsHandler (set_m_broadcastTime broadcastTime) ;;;
      if negb stored then
        reply message
              (createJsonReply false (-2)
                 (Some "Failed to update broadcast time offsets"))
              schemaGeneric
      else
        timePrefsHandler <- gets w_timePrefsHandler ;;
        (if negb (isManualTimeUsed timePrefsHandler)
         then postBroadcastEffectiveTimeChange else ret tt) ;;;
        emit (deprecatedClockChange_fire adjustedUtcOffset
                                         "broadcast-adjusted" utcCurrent) ;;;
        emit (deprecatedClockChange_fire utcOffset "broadcast" utcCurrent) ;;;
        reply message (createJsonReply true 0 None) schemaGeneric
  end.

Definition cbGetBroadcastTime (message : LSMessage) : M bool :=
  timePrefsHandler <- gets w_timePrefsHandler ;;
  let broadcastTime := m_broadcastTime timePrefsHandler in
  parsed <- parser_parse message schemaEmptyObject ;;
  match parsed with
  | None => ret true
  | Some _ =>
      match BroadcastTime_get broadcastTime with
      | None =>
          reply message
                (createJsonReply false (-2) (Some "No information available"))
                schemaGeneric
      | Some (utc, local) =>
          let answer := JObject [] in
          let answer := put "returnValue" (JBool true) answer in
          let answer := put "utc" (toJValue utc) answer in
          let answer := put "local" (toJValue local) answer in
          let answer := put "timestamp" timestampJson answer in
          let answer := addLocalTime answer local in
          reply message answer schemaGetBroadcastTimeReply
      end
  end.

Definition cbGetEffectiveBroadcastTime (message : LSMessage) : M bool :=
  timePrefsHandler <- gets w_timePrefsHandler ;;
  let broadcastTime := m_broadcastTime timePrefsHandler in
  parsed <- parser_parse message schemaSubscribeRequest ;;
  match parsed with
  | None => ret true
  | Some request =>
      r <- answerEffectiveBroadcastTime (JObject []) timePrefsHandler
                                        broadcastTime ;;
      let '(ok, answer) := r in
      if negb ok then
        reply message (put "returnValue" (JBool false) answer) schemaGeneric
      else
        let answer := put "returnValue" (JBool true) answer in
        let answer := put "timestamp" timestampJson answer in
        answer <-
          (if asBool (jget "subscribe" request) then
             let subscribed := LSSubscriptionAdd effectiveBroadcastKey message in
             (if subscribed then subscribe effectiveBroadcastKey message
              else ret tt) ;;;
             ret (put "subscribed" (JBool subscribed) answer)
           else ret answer) ;;
        reply message answer schemaGetBroadcastTimeReply
  end.

(** ** PrefsFactory.cpp *)

Definition getPrefsHandler (key : string) : M (option PrefsHandler) :=
  gets (fun w => w_handlersMaps w !! key).

(** Modelled from the spec: [PrefsDb::setPref], not among the sources.  The
    backend "persists and retrieves arbitrary string-valued settings", and
    a preference write can fail; a write that succeeds stores the value
    under the key, a failed one stores nothing. *)
Definition PrefsDb_setPref (key value : string) : M bool :=
  if PrefsDb_write key value then
    modify_prefsDb (insert key value) ;;; ret true
  else ret false.

Fixpoint forEach {A} (l : list A) (body : A -> M unit) : M unit :=
  match l with
  | [] => ret tt
  | x :: rest => body x ;;; forEach rest body
  end.

Definition subscribersOf (key : string) (subs : list (string * LSMessage))
  : list LSMessage :=
  map snd (filter (fun km => String.eqb (fst km) key = true) subs).

(** The reply text is carried as the JSON value it serializes. *)
Definition postPrefChangeValueIsCompleteString (keyStr : string)
    (json : JValue) : M unit :=
  if LSSubscriptionAcquire keyStr then
    subs <- gets w_subscriptions ;;
    forEach (subscribersOf keyStr subs)
            (fun message => emit (LSMessageReply_call message json))
  else ret tt.

(** [int] counters. *)
Definition wrap32 (x : Z) : Z := (x + 2 ^ 31) mod 2 ^ 32 - 2 ^ 31.

(** The locals of cbSetPreferences that the loop updates. *)
Record SetPrefsLocals := mk_SetPrefsLocals {
  success : bool;
  savecount : Z;
  errcount : Z
}.

(** The body of the loop over [root.children()]. *)
Definition setOnePreference (callerId : string) (pref : string * JValue)
    (l : SetPrefsLocals) : M SetPrefsLocals :=
  let key := fst pref in
  let value := stringify (snd pref) in
  handler <- getPrefsHandler key ;;
  savedPref <-
    match handler with
    | Some h =>
        if validate h key (snd pref) callerId
        then PrefsDb_setPref key value
        else ret false
    | None => PrefsDb_setPref key value
    end ;;
  if savedPref : bool then
    postPrefChangeValueIsCompleteString key (JObject [(key, snd pref)]) ;;;
    (match handler with
     | Some _ => emit (valueChanged_call key (snd pref))
     | None => ret tt
     end) ;;;
    ret (mk_SetPrefsLocals true (wrap32 (savecount l + 1)) (errcount l))
  else
    ret (mk_SetPrefsLocals (success l) (savecount l) (wrap32 (errcount l + 1))).

Fixpoint setPreferencesLoop (callerId : string)
    (children : list (string * JValue)) (l : SetPrefsLocals)
  : M SetPrefsLocals :=
  match children with
  | [] => ret l
  | pref :: rest =>
      l' <- setOnePreference callerId pref l ;;
      setPreferencesLoop callerId rest l'
  end.

Definition setPreferencesResult (succeeded : bool) (errorText : string)
  : JValue :=
  let result := JObject [("returnValue", JBool succeeded)] in
  if negb succeeded then put "errorText" (JString errorText) result
  else result.

Definition cbSetPreferences (message : LSMessage) : M bool :=
  r <- (match msg_payload message with
        | PayloadNull => ret (false, "Payload get failed, null payload")
        | PayloadText (Some (JObject children)) =>
            let callerId := default "" (msg_applicationID message) in
            l <- setPreferencesLoop callerId children
                   (mk_SetPrefsLocals true 0 0) ;;
            if truth (errcount l)
            then ret (false, "Some settings could not be saved")
            else ret (success l, "")
        | PayloadText _ =>
            ret (false, "invalid payload (should be an object)")
        end) ;;
  let '(succeeded, errorText) := r in
  emit (LSMessageReply_call message
          (setPreferencesResult succeeded errorText)) ;;;
  ret true.

End Handlers.

(** ** A reference platform

    One concrete choice of the collaborators, on which the handlers can be
    run. *)

(** Modelled from the spec: the Broadcast Time Tracker (BroadcastTime.h is
    not among the sources).  BroadcastTimeState is the "last known (utc,
    local) pair plus arrival timestamp"; the contract is
    [set(utc, local, observedAt) -> bool] and [get() -> (utc, local)|none].
    The spec does not say when a store fails, so whether stores succeed is
    a parameter. *)
Record BroadcastTimeState := mk_BroadcastTimeState {
  bts_sample : option (time_t * time_t);
  bts_observedAt : time_t
}.

(** Modelled from the spec: [BroadcastTime::avail], a sample is held. *)
Definition tracker_avail (b : BroadcastTimeState) : bool :=
  bool_decide (is_Some (bts_sample b)).

(** Modelled from the spec: [BroadcastTime::get], "get() -> (utc,
    local)|none". *)
Definition tracker_get (b : BroadcastTimeState) : option (time_t * time_t) :=
  bts_sample b.

(** Modelled from the spec: [BroadcastTime::set], "set(utc, local,
    observedAt) -> bool"; a store that works keeps the pair and its
    arrival time, one that does not keeps the previous state. *)
Definition tracker_set (storeWorks : bool) (b : BroadcastTimeState)
    (utc local observedAt : time_t) : bool * BroadcastTimeState :=
  if storeWorks
  then (true, mk_BroadcastTimeState (Some (utc, local)) observedAt)
  else (false, b).

Definition noSample : BroadcastTimeState := mk_BroadcastTimeState None (-1).

Definition doubleQuote : string := String (Ascii.ascii_of_nat 34) EmptyString.

Fixpoint stringifyJson (v : JValue) : string :=
  match v with
  | JNull => "null"
  | JBool b => if b then "true" else "false"
  | JInt z => pretty z
  | JReal literal => literal
  | JString s => doubleQuote +:+ s +:+ doubleQuote
  | JArray items =>
      "[" +:+ String.concat "," (map stringifyJson items) +:+ "]"
  | JObject members =>
      "{" +:+ String.concat ","
                (map (fun kv => doubleQuote +:+ fst kv +:+ doubleQuote +:+ ":"
                                +:+ stringifyJson (snd kv)) members)
          +:+ "}"
  end.

Definition timestampSchema : ObjectSchema :=
  mk_ObjectSchema true
    [("source", fun v => match v with JString _ => true | _ => false end);
     ("sec", isInteger); ("nsec", isInteger)]
    ["sec"; "nsec"] false.

Definition referencePlatform (storeWorks : bool) (zone : TimeZone)
    (now : time_t) (delay : time_t) : Platform :=
  {| BroadcastTime := BroadcastTimeState;
     BroadcastTime_avail := tracker_avail;
     BroadcastTime_get := tracker_get;
     BroadcastTime_set := tracker_set storeWorks;
     evaluateDelay := fun _ => delay;
     timestampJson :=
       JObject [("source", JString "monotonic"); ("sec", JInt 500);
                ("nsec", JInt 0)];
     SCHEMA_TIMESTAMP := validates timestampSchema;
     toInteger := fun v => match v with JInt z => z | _ => 0 end;
     toJValue_tm := fun t =>
       JObject [("year", JInt (tm_year t + 1900)); ("month", JInt (tm_mon t + 1));
                ("day", JInt (tm_mday t)); ("hour", JInt (tm_hour t));
                ("minute", JInt (tm_min t)); ("second", JInt (tm_sec t))];
     parseErrorCode := fun _ => 1;
     parseErrorText := fun p =>
       match p with
       | PayloadText (Some _) => "Could not validate json message against schema"
       | _ => "Not a valid json message"
       end;
     currentStamp := 500;
     clockReading := fun _ => now;
     TZ := zone;
     JGenerator_toString := fun _ _ => true;
     LSMessageReply := fun _ _ => true;
     LSSubscriptionReply := fun _ _ => true;
     LSSubscriptionAdd := fun _ _ => true;
     LSSubscriptionAcquire := fun _ => true;
     stringify := stringifyJson;
     PrefsDb_write := fun key _ => negb (String.eqb key "readOnlyKey") |}.

(** A zone two hours east of UTC, and an instant of November 2023. *)
Definition zonePlus2 : TimeZone := fixedZone 7200.
Definition T0 : time_t := 1700000000.

Definition request (members : list (string * JValue)) : LSMessage :=
  mk_LSMessage 1 (PayloadText (Some (JObject members))) None.

Definition subscriberA : LSMessage :=
  mk_LSMessage 7 (PayloadText (Some (JObject [("subscribe", JBool true)]))) None.
Definition subscriberB : LSMessage :=
  mk_LSMessage 8 (PayloadText (Some (JObject [("subscribe", JBool true)]))) None.

Definition worldOf {P : Platform} (h : TimePrefsHandler) : World :=
  mk_World h 0 [(effectiveBroadcastKey, subscriberA);
                (effectiveBroadcastKey, subscriberB)] ∅ ∅ [].

(** ** Worked inputs *)

(** The clock at T0 + 10, the zone two hours east, a measured delay of one
    second; stores succeed. *)
Definition platformA : Platform := referencePlatform true zonePlus2 (T0 + 10) 1.

(** The same with a tracker whose stores fail. *)
Definition platformStoreFails : Platform :=
  referencePlatform false zonePlus2 (T0 + 10) 1.

(** A device five hours west of UTC whose clock, never set, reads
    1970-01-01 04:59:59 UTC. *)
Definition platformEpoch : Platform :=
  referencePlatform true (fixedZone (-18000)) 17999 0.

Definition handlerWith {P : Platform} (nitzSetting : Z) (b : BroadcastTime)
  : TimePrefsHandler :=
  mk_TimePrefsHandler nitzSetting true b "ntp".

Definition sampleOf (utc local : time_t) : BroadcastTimeState :=
  mk_BroadcastTimeState (Some (utc, local)) 500.

(** Manual mode (time-sync bit clear, zone-sync bit set), no sample. *)
Definition manualEpoch : @TimePrefsHandler platformEpoch :=
  @handlerWith platformEpoch 2 noSample.
Definition manualA : @TimePrefsHandler platformA :=
  @handlerWith platformA 2 noSample.

(** Automatic mode: no sample; the sample (T0, -1); the sample
    (T0 + 1, T0 + 3601). *)
Definition automaticA : @TimePrefsHandler platformA :=
  @handlerWith platformA 3 noSample.
Definition automaticMinusOne : @TimePrefsHandler platformA :=
  @handlerWith platformA 3 (sampleOf T0 (-1)).
Definition automaticSample : @TimePrefsHandler platformA :=
  @handlerWith platformA 3 (sampleOf (T0 + 1) (T0 + 3601)).

Definition automaticStoreFails : @TimePrefsHandler platformStoreFails :=
  @handlerWith platformStoreFails 3 noSample.

(** /time/setBroadcastTime with utc = T0, local = T0 + 3600 and an origin
    timestamp. *)
Definition requestWithTimestamp : LSMessage :=
  request [("utc", JInt T0); ("local", JInt (T0 + 3600));
           ("timestamp",
            JObject [("source", JString "monotonic"); ("sec", JInt 498);
                     ("nsec", JInt 0)])].

Definition requestWithoutTimestamp : LSMessage :=
  request [("utc", JInt T0); ("local", JInt (T0 + 3600))].

(** A request without the required local. *)
Definition requestWithoutLocal : LSMessage := request [("utc", JInt 1)].

(** The effective time after the sample (T0 + 1, T0 + 3601) was stored,
    under the zone two hours east. *)
Definition effectiveAfterStore : JValue :=
  JObject
    [("adjustedUtc", JInt (T0 + 3601 - 7200)); ("local", JInt (T0 + 3601));
     ("timestamp",
      JObject [("source", JString "monotonic"); ("sec", JInt 500);
               ("nsec", JInt 0)]);
     ("localtime",
      JObject [("year", JInt 2023); ("month", JInt 11); ("day", JInt 14);
               ("hour", JInt 23); ("minute", JInt 13); ("second", JInt 21)])].

(** ** The loop of cbSetPreferences, member by member

    What one member of the request does to the database, to the calls made
    and to the counters, given the registered handlers, the subscription
    lists and the caller id; the proofs relate the loop to these. *)

Section SetPreferencesSummary.
Context {P : Platform}.
Variable handlers : gmap string PrefsHandler.
Variable subs : list (string * LSMessage).
Variable callerId : string.

(** [savedPref] at the end of the iteration. *)
Definition pref_saved (pref : string * JValue) : bool :=
  match handlers !! fst pref with
  | Some h =>
      validate h (fst pref) (snd pref) callerId
      && PrefsDb_write (fst pref) (stringify (snd pref))
  | None => PrefsDb_write (fst pref) (stringify (snd pref))
  end.

Definition pref_posts (pref : string * JValue) : list Event :=
  if LSSubscriptionAcquire (fst pref) then
    map (fun m => LSMessageReply_call m (JObject [(fst pref, snd pref)]))
        (subscribersOf (fst pref) subs)
  else [].

Definition pref_calls (pref : string * JValue) : list Event :=
  if pref_saved pref then
    pref_posts pref
    ++ match handlers !! fst pref with
       | Some _ => [valueChanged_call (fst pref) (snd pref)]
       | None => []
       end
  else [].

Definition pref_db (db : gmap string string) (pref : string * JValue)
  : gmap string string :=
  if pref_saved pref then <[fst pref := stringify (snd pref)]> db else db.

Definition pref_locals (l : SetPrefsLocals) (pref : string * JValue)
  : SetPrefsLocals :=
  if pref_saved pref
  then mk_SetPrefsLocals true (wrap32 (savecount l + 1)) (errcount l)
  else mk_SetPrefsLocals (success l) (savecount l) (wrap32 (errcount l + 1)).

End SetPreferencesSummary.

(** A world with one registered handler, for the key "showClock", which
    accepts booleans only; one subscriber of the key; the stored value is
    false. *)
Definition booleanHandler : PrefsHandler :=
  mk_PrefsHandler (fun _ value _ => isBoolean value).

Definition prefsWorld : @World platformA :=
  mk_World automaticA 0 [("showClock", subscriberA)]
           {["showClock" := "false"]} {["showClock" := booleanHandler]} [].

Definition setShowClock (value : JValue) : LSMessage :=
  request [("showClock", value)].

(** ** A serializer that enforces its schema

    [JGenerator::toString] checks the value against the schema it is given
    and fails on a value that does not fit.  [enforcingPlatform] has such a
    serializer; all else is as in the base platform. *)
Definition enforcingPlatform (base : Platform) : Platform :=
  {| BroadcastTime := @BroadcastTime base;
     BroadcastTime_avail := @BroadcastTime_avail base;
     BroadcastTime_get := @BroadcastTime_get base;
     BroadcastTime_set := @BroadcastTime_set base;
     evaluateDelay := @evaluateDelay base;
     timestampJson := @timestampJson base;
     SCHEMA_TIMESTAMP := @SCHEMA_TIMESTAMP base;
     toInteger := @toInteger base;
     toJValue_tm := @toJValue_tm base;
     parseErrorCode := @parseErrorCode base;
     parseErrorText := @parseErrorText base;
     currentStamp := @currentStamp base;
     clockReading := @clockReading base;
     TZ := @TZ base;
     JGenerator_toString := fun v schema => validates (@schemaOf base schema) v;
     LSMessageReply := @LSMessageReply base;
     LSSubscriptionReply := @LSSubscriptionReply base;
     LSSubscriptionAdd := @LSSubscriptionAdd base;
     LSSubscriptionAcquire := @LSSubscriptionAcquire base;
     stringify := @stringify base;
     PrefsDb_write := @PrefsDb_write base |}.

(** The platform of the worked inputs with the enforcing serializer. *)
Definition platformStrict : Platform := enforcingPlatform platformA.

(** 1899-12-31 23:59:59, the last second before the year 1900. *)
Definition LAST_SECOND_OF_1899 : time_t := -2208988801.

Definition strictSample1899 : @TimePrefsHandler platformStrict :=
  @handlerWith platformStrict 3 (sampleOf T0 LAST_SECOND_OF_1899).

(** ** PrefsFactory.cpp: registration of the handlers *)

Section Registration.
Context {P : Platform}.

Definition w_set_handlersMaps (hm : gmap string PrefsHandler) (w : World)
  : World :=
  mk_World (w_timePrefsHandler w) (w_clockReadings w) (w_subscriptions w)
           (w_prefsDb w) hm (w_out w).

Definition modify_handlersMaps
    (f : gmap string PrefsHandler -> gmap string PrefsHandler) : M unit :=
  fun w => (tt, w_set_handlersMaps (f (w_handlersMaps w)) w).

(** [registerPrefHandler]: [m_handlersMaps[key] = handler] for every key of
    the handler.  The record of a handler carries its [validate] only, so
    the list [handler->keys()] is passed beside it. *)
Definition registerPrefHandler (handler : PrefsHandler) (keys : list string)
  : M unit :=
  forEach keys (fun key => modify_handlersMaps (insert key handler)).

End Registration.

(** ** WallpaperPrefsHandler.cpp: the handler behind the wallpaper keys *)

Definition isString (v : JValue) : bool :=
  match v with JString _ => true | _ => false end.

(** [asString()]: the empty string for a value that is not a string. *)
Definition asString (v : JValue) : string :=
  match v with JString s => s | _ => "" end.

(** The members of WallpaperPrefsHandler the modelled code reads or writes. *)
Record WallpaperPrefsHandler := mk_WallpaperPrefsHandler {
  m_wallpapers : list string;
  m_thumbnails : list string;
  m_currentWallpaperName : string
}.

Definition WallpaperPrefsHandler_keys : list string :=
  ["wallpaper"; "screenSize.width"; "screenSize.height"].

(** What the directories let a scan do: the thumbnail directory cannot be
    read, or the scan runs and pushes the names of the images it made a
    thumbnail for (none when there is no wallpaper directory or it cannot be
    read). *)
Inductive ScanOutcome :=
| ScanThumbsUnreadable
| ScanPushes (names : list string).

(** [scanForWallpapers]: it only appends to the index, and returns the
    index, or [m_thumbnails] when the thumbnail directory cannot be read. *)
Definition scanForWallpapers (outcome : ScanOutcome) (h : WallpaperPrefsHandler)
  : list string * WallpaperPrefsHandler :=
  match outcome with
  | ScanThumbsUnreadable => (m_thumbnails h, h)
  | ScanPushes names =>
      let h := mk_WallpaperPrefsHandler (m_wallpapers h ++ names)
                 (m_thumbnails h) (m_currentWallpaperName h) in
      (m_wallpapers h, h)
  end.

(** [validate(key, value)] *)
Definition WallpaperPrefsHandler_validate2 (outcome : ScanOutcome)
    (h : WallpaperPrefsHandler) (key : string) (value : JValue)
  : bool * WallpaperPrefsHandler :=
  if negb (isObject value) then (false, h)
  else if negb (String.eqb key "wallpaper") then (false, h)
  else
    let label := jget "wallpaperName" value in
    if negb (isString label) then (false, h)
    else
      let wallpaperName := asString label in
      let h := snd (scanForWallpapers outcome h) in
      (existsb (String.eqb wallpaperName) (m_wallpapers h), h).

(** [validate(key, value, originId)].  Every value of type [JValue] is a
    valid one, so the test [!value.isValid()] does not fire.
    [key.find("screenSize") != 0] says that the key does not begin with
    "screenSize". *)
Definition WallpaperPrefsHandler_validate (outcome : ScanOutcome)
    (h : WallpaperPrefsHandler) (key : string) (value : JValue)
    (originId : string) : bool * WallpaperPrefsHandler :=
  if negb (String.prefix "screenSize" key)
  then WallpaperPrefsHandler_validate2 outcome h key value
  else if negb (String.eqb originId "") then (false, h)
  else (true, h).

(** [valueChanged]; the key is not looked at. *)
Definition WallpaperPrefsHandler_valueChanged (key : string) (value : JValue)
    (h : WallpaperPrefsHandler) : WallpaperPrefsHandler :=
  mk_WallpaperPrefsHandler (m_wallpapers h) (m_thumbnails h)
                           (asString (jget "wallpaperName" value)).

(** The wallpaper handler as cbSetPreferences sees it: its [validate] on a
    given state of the handler and a given outcome of the scan. *)
Definition wallpaperPrefsHandler (outcome : ScanOutcome)
    (h : WallpaperPrefsHandler) : PrefsHandler :=
  mk_PrefsHandler (fun key value originId =>
                     fst (WallpaperPrefsHandler_validate outcome h key value
                                                         originId)).

Section WallpaperFiles.
Variable s_wallpaperDir : string.
Variable s_wallpaperThumbsDir : string.

Definition wallpaperElement (name : string) : JValue :=
  put "wallpaperThumbFile" (JString (s_wallpaperThumbsDir +:+ "/" +:+ name))
    (put "wallpaperFile" (JString (s_wallpaperDir +:+ "/" +:+ name))
       (put "wallpaperName" (JString name) (JObject []))).

(** [valuesForKey]; the key is not looked at. *)
Definition WallpaperPrefsHandler_valuesForKey (key : string)
    (outcome : ScanOutcome) (h : WallpaperPrefsHandler)
  : JValue * WallpaperPrefsHandler :=
  let '(wallpaperFilenames, h) := scanForWallpapers outcome h in
  (JObject [("wallpaper", JArray (map wallpaperElement wallpaperFilenames))],
   h).

Definition makeLocalPathnamesFromWallpaperName (wallpaperName : string)
  : option (string * string) :=
  if (0 <? String.length wallpaperName)%nat then
    Some (s_wallpaperDir +:+ "/" +:+ wallpaperName,
          s_wallpaperThumbsDir +:+ "/" +:+ wallpaperName)
  else None.

Definition getWallpaperSpecFromName (h : WallpaperPrefsHandler)
    (wallpaperName : string) : option (string * string) :=
  if existsb (String.eqb wallpaperName) (m_wallpapers h)
  then makeLocalPathnamesFromWallpaperName wallpaperName
  else None.

(** [unlink] on a file system given by the set of its paths and by which
    of them can be removed (a directory cannot; nor can a file in a
    directory the process may not write): it succeeds, with 0, on a path
    that is there and can be removed, and removes it; on any other path it
    fails, with -1, and changes nothing. *)
Variable removable : string -> bool.

Definition unlink (path : string) (files : gset string) : Z * gset string :=
  if bool_decide (path ∈ files) && removable path
  then (0, files ∖ {[path]}) else (-1, files).

(** [deleteWallpaper] *)
Definition deleteWallpaper (wallpaperName : string)
    (h : WallpaperPrefsHandler) (files : gset string)
  : bool * WallpaperPrefsHandler * gset string :=
  let destPathAndFile := s_wallpaperDir +:+ "/" +:+ wallpaperName in
  let destThumbPathAndFile := s_wallpaperThumbsDir +:+ "/" +:+ wallpaperName in
  if String.eqb wallpaperName (m_currentWallpaperName h) then (false, h, files)
  else
    let '(rc, files) := unlink destPathAndFile files in
    let found := rc =? 0 in
    let '(rc, files) := unlink destThumbPathAndFile files in
    let found := if rc =? 0 then true else found in
    let found :=
      if existsb (String.eqb wallpaperName) (m_wallpapers h) then true
      else found in
    (found,
     mk_WallpaperPrefsHandler
       (filter (fun name => String.eqb name wallpaperName = false)
               (m_wallpapers h))
       (m_thumbnails h) (m_currentWallpaperName h),
     files).

End WallpaperFiles.

(** ** Tactics for running the monad *)

Ltac run_monad :=
  unfold bind, ret, gets, emit, time0, modify_timePrefsHandler, subscribe,
    modify_prefsDb; cbn beta iota zeta.

(** Simplify the bookkeeping of the world, leaving the calls as they are. *)
Ltac keep_calls :=
  cbn -[reply postBroadcastEffectiveTimeChange answerEffectiveBroadcastTime
        isManualTimeUsed isSystemTimeBroadcastEffective toUtc toLocal
        time_sub time_add createJsonReply requestedSample w_emit put jget
        addLocalTime parser_accepts].

(** * Properties *)

(** ** The calendar *)

Example gmtime_r_epoch :
  gmtime_r 0 = Some (mk_tm 0 0 0 1 0 70 4 0 0).
Proof. reflexivity. Qed.

Example gmtime_r_leap_day :
  gmtime_r 951782400 = Some (mk_tm 0 0 0 29 1 100 2 59 0).
Proof. reflexivity. Qed.

Example gmtime_r_before_epoch :
  gmtime_r (-1) = Some (mk_tm 59 59 23 31 11 69 3 364 0).
Proof. reflexivity. Qed.

Example gmtime_r_year_overflow : gmtime_r (2 ^ 62) = None.
Proof. reflexivity. Qed.

Example toLocal_summer : toLocal zoneBerlin 1625000000 = 1625007200.
Proof. reflexivity. Qed.

Example toUtc_winter : toUtc zoneBerlin 1700003600 = 1700000000.
Proof. reflexivity. Qed.

(** Within a 400-year era: the year of the era, the day of the year and
    the month index computed by [civil_from_days] are in range. *)
Lemma era_day_bounds (doe : Z) :
  0 <= doe < 146097 ->
  let yoe := (doe - doe / 1460 + doe / 36524 - doe / 146096) / 365 in
  let doy := doe - (365 * yoe + yoe / 4 - yoe / 100) in
  let mp := (5 * doy + 2) / 153 in
  0 <= yoe < 400 /\ 0 <= doy <= 365 /\ 0 <= mp <= 11.
Proof.
  intros H yoe doy mp. subst mp doy yoe.
  Z.div_mod_to_equations. lia.
Qed.

Lemma civil_from_days_inv (z : Z) :
  forall y m d, civil_from_days z = (y, m, d) ->
  days_from_civil y m d = z /\ 1 <= m <= 12.
Proof.
  intros y m d. unfold civil_from_days.
  pose proof (Z.mod_pos_bound (z + 719468) 146097 ltac:(lia)) as Hdoe.
  pose proof (Z.div_mod (z + 719468) 146097 ltac:(lia)) as Hsplit.
  set (era := (z + 719468) / 146097) in *.
  set (doe := (z + 719468) mod 146097) in *.
  pose proof (era_day_bounds doe Hdoe) as Hok. cbv zeta in Hok.
  set (yoe := (doe - doe / 1460 + doe / 36524 - doe / 146096) / 365) in *.
  set (doy := doe - (365 * yoe + yoe / 4 - yoe / 100)) in *.
  set (mp := (5 * doy + 2) / 153) in *.
  destruct Hok as (Hyoe & Hdoy & Hmp).
  intros [= <- <- <-].
  assert (Hm : 1 <= (if mp <? 10 then mp + 3 else mp - 9) <= 12)
    by (destruct (Z.ltb_spec mp 10); lia).
  split; [|exact Hm].
  unfold days_from_civil.
  set (m0 := if mp <? 10 then mp + 3 else mp - 9) in *.
  assert (Hy : (if m0 <=? 2
                then (if m0 <=? 2 then yoe + era * 400 + 1 else yoe + era * 400) - 1
                else (if m0 <=? 2 then yoe + era * 400 + 1 else yoe + era * 400))
               = yoe + era * 400) by (destruct (m0 <=? 2); lia).
  rewrite Hy.
  assert (Hmp' : (if 2 <? m0 then m0 - 3 else m0 + 9) = mp).
  { subst m0. destruct (Z.ltb_spec mp 10).
    - destruct (Z.ltb_spec 2 (mp + 3)); lia.
    - destruct (Z.ltb_spec 2 (mp - 9)); lia. }
  rewrite Hmp'.
  rewrite Z.div_add by lia. rewrite Z.mod_add by lia.
  rewrite (Z.div_small yoe 400) by lia. rewrite (Z.mod_small yoe 400) by lia.
  subst doy. lia.
Qed.

Lemma timegm_gmtime_r (t : time_t) (b : tm) :
  gmtime_r t = Some b -> timegm b = t.
Proof.
  unfold gmtime_r.
  destruct (civil_from_days (t / 86400)) as [[y m] d] eqn:Hc.
  destruct (fits_int (y - 1900)); [|discriminate].
  intros [= <-]. unfold timegm. simpl.
  apply civil_from_days_inv in Hc as [Hdays Hm].
  replace (y - 1900 + 1900 + (m - 1) / 12) with y
    by (rewrite (Z.div_small (m - 1) 12); lia).
  replace ((m - 1) mod 12 + 1) with m
    by (rewrite (Z.mod_small (m - 1) 12); lia).
  rewrite Hdays.
  pose proof (Z.mod_pos_bound t 86400 ltac:(lia)).
  Z.div_mod_to_equations. lia.
Qed.

Lemma timegm_set_tm_isdst (v : Z) (b : tm) :
  timegm (set_tm_isdst v b) = timegm b.
Proof. reflexivity. Qed.

Lemma tm_isdst_set_tm_isdst (v : Z) (b : tm) :
  tm_isdst (set_tm_isdst v b) = v.
Proof. reflexivity. Qed.

(** ** The zone *)

Lemma ttinfo_from_elem (trs : list (Z * ttinfo)) :
  forall cur t, ttinfo_from trs cur t ∈ cur :: map snd trs.
Proof.
  induction trs as [|[start info] rest IH]; intros cur t; simpl.
  - apply list_elem_of_here.
  - destruct (start <=? t).
    + apply list_elem_of_further, IH.
    + apply list_elem_of_here.
Qed.

Lemma ttinfo_at_type (z : TimeZone) (t : Z) : ttinfo_at z t ∈ tz_types z.
Proof. apply ttinfo_from_elem. Qed.

(** A successful toLocal adds the offset in force at the instant. *)
Lemma toLocal_valid (z : TimeZone) (t : time_t) :
  toLocal z t <> TIME_INVALID ->
  toLocal z t = t + utc_offset z t
  /\ is_Some (gmtime_r (t + utc_offset z t)).
Proof.
  unfold toLocal, localtime_r, utc_offset.
  destruct (gmtime_r (t + tt_gmtoff (ttinfo_at z t))) as [b|] eqn:Hg;
    [|intros H; contradiction].
  intros _. rewrite timegm_set_tm_isdst. split; [|eauto].
  apply timegm_gmtime_r. exact Hg.
Qed.

Lemma toLocal_of_gmtime (z : TimeZone) (t : time_t) :
  is_Some (gmtime_r (t + utc_offset z t)) ->
  toLocal z t = t + utc_offset z t.
Proof.
  unfold toLocal, localtime_r, utc_offset. intros [b Hg]. rewrite Hg.
  rewrite timegm_set_tm_isdst. apply timegm_gmtime_r. exact Hg.
Qed.

(** toUtc, when [gmtime_r] accepts the value: the first local time type of
    the zone under which some instant reads as [local]. *)
Lemma toUtc_valid (z : TimeZone) (local : time_t) :
  is_Some (gmtime_r local) ->
  toUtc z local =
    match filter (fun i => reads_as z local i = true) (tz_types z) with
    | info :: _ => local - tt_gmtoff info
    | [] => local - tt_gmtoff (tz_first z)
    end.
Proof.
  intros [b Hg]. unfold toUtc. rewrite Hg. unfold timelocal.
  rewrite timegm_set_tm_isdst, tm_isdst_set_tm_isdst.
  rewrite (timegm_gmtime_r _ _ Hg). reflexivity.
Qed.

(** The instant toUtc answers with reads back as the value it was given,
    whenever some instant does. *)
Lemma toUtc_reads_back (z : TimeZone) (local t : time_t) :
  is_Some (gmtime_r local) ->
  t + utc_offset z t = local ->
  toUtc z local + utc_offset z (toUtc z local) = local.
Proof.
  intros Hg Ht. rewrite (toUtc_valid z local Hg).
  destruct (filter (fun i => reads_as z local i = true) (tz_types z))
    as [|info rest] eqn:Hf.
  - exfalso.
    apply (filter_nil_not_elem_of _ _ (ttinfo_at z t) Hf);
      [|apply ttinfo_at_type].
    unfold reads_as. apply Z.eqb_eq. unfold utc_offset in Ht.
    replace (local - tt_gmtoff (ttinfo_at z t)) with t by lia. reflexivity.
  - assert (Hin : info ∈ filter (fun i => reads_as z local i = true) (tz_types z))
      by (rewrite Hf; apply list_elem_of_here).
    apply list_elem_of_filter in Hin as [Hreads _].
    unfold reads_as in Hreads. apply Z.eqb_eq in Hreads.
    unfold utc_offset. lia.
Qed.

(** ** toLocal and toUtc (claim C9) *)

(** Under a zone that leaves DST, the two instants of the repeated hour have
    the same local value, so no conversion back can be right for both. *)
Lemma toLocal_repeats_at_dst_end :
  toLocal zoneBerlin 1635640200 = 1635647400
  /\ toLocal zoneBerlin 1635643800 = 1635647400.
Proof. split; vm_compute; reflexivity. Qed.

(** C9, as stated, fails: 1635640200 is 2021-10-31 00:30 UTC, 02:30 local
    summer time; one hour later, 1635643800, it is 02:30 local again.  All
    conversions succeed, the two instants have one local value, and
    toUtc(toLocal(t)) is the later instant, not t. *)
Lemma C9_counterexample_dst_overlap :
  toLocal zoneBerlin 1635640200 <> TIME_INVALID
  /\ toLocal zoneBerlin 1635643800 = toLocal zoneBerlin 1635640200
  /\ toUtc zoneBerlin (toLocal zoneBerlin 1635640200) <> TIME_INVALID
  /\ toUtc zoneBerlin (toLocal zoneBerlin 1635640200) = 1635643800
  /\ toUtc zoneBerlin (toLocal zoneBerlin 1635640200) <> 1635640200.
Proof. repeat split; vm_compute; congruence. Qed.

(** C9, amended: for every zone and every epoch value t on which toLocal
    succeeds and whose local value is the local value of no other instant,
    toUtc(toLocal(t)) = t. *)
Theorem C9_toUtc_toLocal_unambiguous (z : TimeZone) (t : time_t) :
  toLocal z t <> TIME_INVALID ->
  (forall t', toLocal z t' = toLocal z t -> t' = t) ->
  toUtc z (toLocal z t) = t.
Proof.
  intros Hvalid Hunique.
  destruct (toLocal_valid z t Hvalid) as [Hlocal Hg].
  apply Hunique.
  pose proof (toUtc_reads_back z (t + utc_offset z t) t Hg eq_refl) as Hback.
  rewrite Hlocal.
  rewrite toLocal_of_gmtime; [exact Hback|].
  rewrite Hback. exact Hg.
Qed.

(** An instant in the summer of 2021, in the zone with DST. *)
Lemma C9_witness :
  toLocal zoneBerlin 1625000000 <> TIME_INVALID
  /\ (forall t', toLocal zoneBerlin t' = toLocal zoneBerlin 1625000000 ->
                 t' = 1625000000)
  /\ toUtc zoneBerlin (toLocal zoneBerlin 1625000000) = 1625000000.
Proof.
  assert (Hvalid : toLocal zoneBerlin 1625000000 <> TIME_INVALID)
    by (vm_compute; discriminate).
  assert (Hunique : forall t',
             toLocal zoneBerlin t' = toLocal zoneBerlin 1625000000 ->
             t' = 1625000000).
  { intros t' H.
    assert (Hv : toLocal zoneBerlin t' <> TIME_INVALID)
      by (rewrite H; vm_compute; discriminate).
    destruct (toLocal_valid zoneBerlin t' Hv) as [Heq _].
    rewrite Heq in H.
    replace (toLocal zoneBerlin 1625000000) with 1625007200 in H
      by (vm_compute; reflexivity).
    revert H. unfold utc_offset, ttinfo_at, zoneBerlin. simpl.
    destruct (Z.leb_spec 1616893200 t'); simpl;
      [destruct (Z.leb_spec 1635642000 t')|]; simpl; lia. }
  split; [exact Hvalid|]. split; [exact Hunique|].
  exact (C9_toUtc_toLocal_unambiguous zoneBerlin 1625000000 Hvalid Hunique).
Defined.

(** X3: In a zone with one fixed offset every successful conversion is undone. *)
Lemma toUtc_toLocal_fixedZone (off : Z) (t : time_t) :
  toLocal (fixedZone off) t <> TIME_INVALID ->
  toUtc (fixedZone off) (toLocal (fixedZone off) t) = t.
Proof.
  intros Hvalid.
  destruct (toLocal_valid _ t Hvalid) as [Hlocal Hg].
  pose proof (toUtc_reads_back _ (t + utc_offset (fixedZone off) t) t Hg eq_refl)
    as Hback.
  rewrite Hlocal. unfold utc_offset, ttinfo_at, fixedZone in *. simpl in *. lia.
Qed.

(** ** The NitzSetting bits (claim C6) *)

Lemma land_pow2 (s k : Z) :
  0 <= k -> Z.land s (2 ^ k) = if Z.testbit s k then 2 ^ k else 0.
Proof.
  intros Hk. apply Z.bits_inj'. intros n Hn.
  rewrite Z.land_spec, Z.pow2_bits_eqb by lia.
  destruct (Z.eqb_spec k n) as [->|Hne].
  - destruct (Z.testbit s n) eqn:Hs.
    + rewrite Z.pow2_bits_true by lia. reflexivity.
    + rewrite Z.bits_0. reflexivity.
  - rewrite andb_false_r.
    destruct (Z.testbit s k).
    + rewrite Z.pow2_bits_false by lia. reflexivity.
    + rewrite Z.bits_0. reflexivity.
Qed.

Lemma truth_land_TimeEnable (s : Z) :
  truth (Z.land s NITZ_TimeEnable) = Z.testbit s 0.
Proof.
  unfold truth, NITZ_TimeEnable.
  pose proof (land_pow2 s 0 ltac:(lia)) as H. change (2 ^ 0) with 1 in H.
  rewrite H.
  match goal with |- context [if ?b then _ else _] => destruct b end;
    reflexivity.
Qed.

Lemma truth_land_TZEnable (s : Z) :
  truth (Z.land s NITZ_TZEnable) = Z.testbit s 1.
Proof.
  unfold truth, NITZ_TZEnable.
  pose proof (land_pow2 s 1 ltac:(lia)) as H. change (2 ^ 1) with 2 in H.
  rewrite H.
  match goal with |- context [if ?b then _ else _] => destruct b end;
    reflexivity.
Qed.

Section NitzSetting.
Context {P : Platform}.

(** C6: for every NitzSetting value, manual mode is the negation of
    isNITZTimeEnabled and holds exactly when the time-sync bit (bit 0) is
    clear; flipping, setting or clearing the zone-sync bit (bit 1) leaves
    isManualTimeUsed as it was; isNITZDisabled holds exactly when both bits
    are clear; and with only the zone-sync bit set the daemon is in manual
    mode while zone synchronization is enabled. *)
Theorem C6_nitzSetting_flags (h : TimePrefsHandler) :
  isManualTimeUsed h = negb (isNITZTimeEnabled h)
  /\ (isManualTimeUsed h = true <-> Z.testbit (m_nitzSetting h) 0 = false)
  /\ isManualTimeUsed
       (set_m_nitzSetting (Z.lxor (m_nitzSetting h) NITZ_TZEnable) h)
     = isManualTimeUsed h
  /\ isManualTimeUsed
       (set_m_nitzSetting (Z.lor (m_nitzSetting h) NITZ_TZEnable) h)
     = isManualTimeUsed h
  /\ isManualTimeUsed
       (set_m_nitzSetting (Z.land (m_nitzSetting h) (Z.lnot NITZ_TZEnable)) h)
     = isManualTimeUsed h
  /\ (isNITZDisabled h = true <->
      Z.testbit (m_nitzSetting h) 0 = false
      /\ Z.testbit (m_nitzSetting h) 1 = false)
  /\ (isManualTimeUsed (set_m_nitzSetting NITZ_TZEnable h) = true
      /\ isNITZDisabled (set_m_nitzSetting NITZ_TZEnable h) = false
      /\ isNITZTZEnabled (set_m_nitzSetting NITZ_TZEnable h)
         = m_nitzTimeZoneAvailable h).
Proof.
  unfold isManualTimeUsed, isNITZTimeEnabled, isNITZDisabled, isNITZTZEnabled.
  destruct h as [s avail bt tag].
  cbn [m_nitzSetting set_m_nitzSetting m_nitzTimeZoneAvailable].
  rewrite !truth_land_TimeEnable, !truth_land_TZEnable.
  rewrite Z.lxor_spec, Z.lor_spec, Z.land_spec.
  change (Z.testbit NITZ_TZEnable 0) with false.
  change (Z.testbit NITZ_TZEnable 1) with true.
  change (Z.testbit (Z.lnot NITZ_TZEnable) 0) with true.
  set (time_bit := Z.testbit s 0). set (zone_bit := Z.testbit s 1).
  destruct time_bit, zone_bit; cbn [negb andb orb xorb]; intuition congruence.
Qed.

End NitzSetting.

(** ** JSON objects *)

Lemma assoc_put_member_eq (key : string) (x : JValue) (l : list (string * JValue)) :
  assoc key (put_member key x l) = Some x.
Proof.
  induction l as [|[k v] rest IH]; simpl.
  - rewrite String.eqb_refl. reflexivity.
  - destruct (String.eqb k key) eqn:Hk; simpl; rewrite Hk; [reflexivity|exact IH].
Qed.

Lemma assoc_put_member_ne (key key' : string) (x : JValue)
    (l : list (string * JValue)) :
  key <> key' -> assoc key (put_member key' x l) = assoc key l.
Proof.
  intros Hne. induction l as [|[k v] rest IH]; simpl.
  - destruct (String.eqb_spec key' key); [congruence|reflexivity].
  - destruct (String.eqb_spec k key') as [->|Hk]; simpl.
    + destruct (String.eqb_spec key' key); [congruence|reflexivity].
    + destruct (String.eqb_spec k key); [reflexivity|exact IH].
Qed.

Lemma put_object (key : string) (x v : JValue) :
  isObject v = true -> isObject (put key x v) = true.
Proof. destruct v; simpl; congruence. Qed.

Lemma jget_put_eq (key : string) (x v : JValue) :
  isObject v = true -> jget key (put key x v) = x.
Proof.
  destruct v; simpl; try discriminate. intros _.
  rewrite assoc_put_member_eq. reflexivity.
Qed.

Lemma jget_put_ne (key key' : string) (x v : JValue) :
  key <> key' -> jget key (put key' x v) = jget key v.
Proof.
  intros Hne. destruct v; simpl; try reflexivity.
  rewrite assoc_put_member_ne by exact Hne. reflexivity.
Qed.

Lemma hasKey_put_ne (key key' : string) (x v : JValue) :
  key <> key' -> hasKey key (put key' x v) = hasKey key v.
Proof.
  intros Hne. destruct v; simpl; try reflexivity.
  rewrite assoc_put_member_ne by exact Hne. reflexivity.
Qed.

Lemma addLocalTime_object {P : Platform} (v : JValue) (local : time_t) :
  isObject v = true -> isObject (addLocalTime v local) = true.
Proof.
  intros H. unfold addLocalTime. destruct (gmtime_r local); [|exact H].
  apply put_object, H.
Qed.

Lemma jget_addLocalTime {P : Platform} (key : string) (v : JValue) (local : time_t) :
  key <> "localtime" -> jget key (addLocalTime v local) = jget key v.
Proof.
  intros H. unfold addLocalTime. destruct (gmtime_r local); [|reflexivity].
  apply jget_put_ne, H.
Qed.

Lemma hasKey_addLocalTime {P : Platform} (key : string) (v : JValue) (local : time_t) :
  key <> "localtime" -> hasKey key (addLocalTime v local) = hasKey key v.
Proof.
  intros H. unfold addLocalTime. destruct (gmtime_r local); [|reflexivity].
  apply hasKey_put_ne, H.
Qed.

(** ** answerEffectiveBroadcastTime (claims C1 and C2) *)

Section EffectiveBroadcastTime.
Context {P : Platform}.

Lemma isSystemTimeBroadcastEffective_false (h : TimePrefsHandler) :
  isSystemTimeBroadcastEffective h = false <->
  isManualTimeUsed h = false /\ BroadcastTime_avail (m_broadcastTime h) = true.
Proof.
  unfold isSystemTimeBroadcastEffective.
  rewrite orb_false_iff, negb_false_iff. reflexivity.
Qed.

(** The two ways in which the system clock is used, as one condition. *)
Lemma answer_uses_system_clock (h : TimePrefsHandler) (bt : BroadcastTime)
    (answer : JValue) (w : World) :
  isManualTimeUsed h = true
  \/ BroadcastTime_avail (m_broadcastTime h) = false
  \/ BroadcastTime_get bt = None ->
  fst (answerEffectiveBroadcastTime answer h bt w) =
    let s := clockReading (w_clockReadings w) in
    if toLocal TZ s =? TIME_INVALID then
      (false, put "errorText" (JString "Failed to get localtime")
                  (put "errorCode" (JInt (-1)) answer))
    else
      (true, put "systemTimeSource"
                 (JString (getSystemTimeSource (w_timePrefsHandler w)))
                 (addLocalTime
                    (put "timestamp" timestampJson
                       (put "local" (JInt (toLocal TZ s))
                          (put "adjustedUtc" (JInt s) answer)))
                    (toLocal TZ s))).
Proof.
  intros Hcase. unfold answerEffectiveBroadcastTime. run_monad.
  destruct (isSystemTimeBroadcastEffective h) eqn:Heff.
  - cbn. destruct (toLocal TZ (clockReading (w_clockReadings w)) =? TIME_INVALID);
      reflexivity.
  - apply isSystemTimeBroadcastEffective_false in Heff as [Hman Havail].
    destruct Hcase as [H|[H|H]]; [congruence|congruence|].
    rewrite H. cbn.
    destruct (toLocal TZ (clockReading (w_clockReadings w)) =? TIME_INVALID);
      reflexivity.
Qed.

(** C2, amended: in manual mode, or with no broadcast sample available,
    and with s the reading of the system clock: when toLocal(s) is not
    (time_t)-1 the answer succeeds with adjustedUtc = s, local = toLocal(s)
    and the system time source tag attached; when toLocal(s) is (time_t)-1
    the answer is the failure with errorCode -1 and no time in it. *)
Theorem C2_effective_time_from_system_clock (h : TimePrefsHandler)
    (bt : BroadcastTime) (members : list (string * JValue)) (w : World) :
  isManualTimeUsed h = true
  \/ BroadcastTime_avail (m_broadcastTime h) = false
  \/ BroadcastTime_get bt = None ->
  let s := clockReading (w_clockReadings w) in
  let r := fst (answerEffectiveBroadcastTime (JObject members) h bt w) in
  (toLocal TZ s <> TIME_INVALID ->
     fst r = true
     /\ jget "adjustedUtc" (snd r) = JInt s
     /\ jget "local" (snd r) = JInt (toLocal TZ s)
     /\ jget "systemTimeSource" (snd r)
        = JString (getSystemTimeSource (w_timePrefsHandler w)))
  /\ (toLocal TZ s = TIME_INVALID ->
        fst r = false
        /\ jget "errorCode" (snd r) = JInt (-1)
        /\ jget "errorText" (snd r) = JString "Failed to get localtime"
        /\ jget "adjustedUtc" (snd r) = jget "adjustedUtc" (JObject members)).
Proof.
  intros Hcase s r. subst r.
  rewrite (answer_uses_system_clock h bt _ w Hcase). fold s. cbv zeta.
  split; intros Hs.
  - apply Z.eqb_neq in Hs. rewrite Hs. cbn [fst snd].
    split; [reflexivity|].
    repeat split.
    + rewrite jget_put_ne, jget_addLocalTime, !jget_put_ne by discriminate.
      apply jget_put_eq. reflexivity.
    + rewrite jget_put_ne, jget_addLocalTime, jget_put_ne by discriminate.
      apply jget_put_eq. reflexivity.
    + apply jget_put_eq. apply addLocalTime_object. reflexivity.
  - apply Z.eqb_eq in Hs. rewrite Hs. cbn [fst snd].
    split; [reflexivity|].
    repeat split.
    + rewrite jget_put_ne by discriminate. apply jget_put_eq. reflexivity.
    + apply jget_put_eq. reflexivity.
    + rewrite !jget_put_ne by discriminate. reflexivity.
Qed.

(** C1, amended: outside manual mode, with a broadcast sample (utc, local)
    available and local not (time_t)-1, the answer succeeds without reading
    the clock; it is built from local alone, with
    adjustedUtc = toUtc(local) and no system time source tag added; the
    sample's utc does not enter it.  With local = (time_t)-1 the answer is
    the failure with errorCode -1. *)
Theorem C1_effective_time_from_broadcast_local (h : TimePrefsHandler)
    (bt : BroadcastTime) (members : list (string * JValue)) (w : World)
    (utc local : time_t) :
  isManualTimeUsed h = false ->
  BroadcastTime_avail (m_broadcastTime h) = true ->
  BroadcastTime_get bt = Some (utc, local) ->
  let r := answerEffectiveBroadcastTime (JObject members) h bt w in
  (local <> TIME_INVALID ->
     r = ((true,
           addLocalTime
             (put "timestamp" timestampJson
                (put "local" (JInt local)
                   (put "adjustedUtc" (JInt (toUtc TZ local))
                      (JObject members))))
             local), w)
     /\ jget "adjustedUtc" (snd (fst r)) = JInt (toUtc TZ local)
     /\ jget "local" (snd (fst r)) = JInt local
     /\ hasKey "systemTimeSource" (snd (fst r))
        = hasKey "systemTimeSource" (JObject members))
  /\ (local = TIME_INVALID ->
        r = ((false,
              put "errorText" (JString "Failed to get localtime")
                  (put "errorCode" (JInt (-1)) (JObject members))), w)).
Proof.
  intros Hman Havail Hget r. subst r.
  unfold answerEffectiveBroadcastTime. run_monad.
  assert (Heff : isSystemTimeBroadcastEffective h = false)
    by (apply isSystemTimeBroadcastEffective_false; auto).
  rewrite Heff, Hget. cbn beta iota zeta.
  split; intros Hlocal.
  - apply Z.eqb_neq in Hlocal. rewrite Hlocal. cbn [fst snd].
    split; [reflexivity|].
    repeat split.
    + rewrite jget_addLocalTime, !jget_put_ne by discriminate.
      apply jget_put_eq. reflexivity.
    + rewrite jget_addLocalTime, jget_put_ne by discriminate.
      apply jget_put_eq. reflexivity.
    + rewrite hasKey_addLocalTime, !hasKey_put_ne by discriminate.
      reflexivity.
  - apply Z.eqb_eq in Hlocal. rewrite Hlocal. reflexivity.
Qed.

End EffectiveBroadcastTime.

(** C2, as stated, fails: in manual mode on a device five hours west of UTC
    whose clock reads 17999, toLocal gives -1 and the answer is the failure
    "Failed to get localtime"; it carries no adjustedUtc and no local. *)
Lemma C2_counterexample_local_minus_one :
  isManualTimeUsed manualEpoch = true
  /\ toLocal (fixedZone (-18000)) 17999 = TIME_INVALID
  /\ fst (answerEffectiveBroadcastTime (JObject []) manualEpoch
            (m_broadcastTime manualEpoch) (worldOf manualEpoch))
     = (false,
        JObject [("errorCode", JInt (-1));
                 ("errorText", JString "Failed to get localtime")]).
Proof. repeat split; vm_compute; reflexivity. Qed.

(** Manual mode with the clock at T0 + 10, two hours east of UTC. *)
Lemma C2_witness :
  isManualTimeUsed manualA = true
  /\ fst (fst (answerEffectiveBroadcastTime (JObject []) manualA
                 (m_broadcastTime manualA) (worldOf manualA))) = true
  /\ jget "adjustedUtc"
       (snd (fst (answerEffectiveBroadcastTime (JObject []) manualA
                    (m_broadcastTime manualA) (worldOf manualA))))
     = JInt (T0 + 10)
  /\ jget "local"
       (snd (fst (answerEffectiveBroadcastTime (JObject []) manualA
                    (m_broadcastTime manualA) (worldOf manualA))))
     = JInt (T0 + 10 + 7200).
Proof.
  assert (Hman : isManualTimeUsed manualA = true) by reflexivity.
  destruct (C2_effective_time_from_system_clock manualA
              (m_broadcastTime manualA) [] (worldOf manualA)
              (or_introl Hman))
    as [Hok _].
  destruct Hok as (H1 & H2 & H3 & _); [vm_compute; discriminate|].
  split; [exact Hman|]. split; [exact H1|]. split; [exact H2|].
  rewrite H3. vm_compute. reflexivity.
Defined.

(** C1, as stated, fails: outside manual mode, after
    setBroadcastTime {utc: T0, local: -1} the sample (T0, -1) is available,
    and the answer is the failure "Failed to get localtime"; no adjustedUtc
    is returned. *)
Lemma C1_counterexample_sample_local_minus_one :
  w_timePrefsHandler
    (snd (cbSetBroadcastTime
            (request [("utc", JInt T0); ("local", JInt (-1))])
            (worldOf automaticA)))
  = automaticMinusOne
  /\ isManualTimeUsed automaticMinusOne = false
  /\ BroadcastTime_avail (m_broadcastTime automaticMinusOne) = true
  /\ BroadcastTime_get (m_broadcastTime automaticMinusOne) = Some (T0, -1)
  /\ fst (answerEffectiveBroadcastTime (JObject []) automaticMinusOne
            (m_broadcastTime automaticMinusOne) (worldOf automaticMinusOne))
     = (false,
        JObject [("errorCode", JInt (-1));
                 ("errorText", JString "Failed to get localtime")]).
Proof. repeat split; vm_compute; reflexivity. Qed.

(** The sample (T0 + 1, T0 + 3601) under the zone two hours east:
    adjustedUtc is toUtc(T0 + 3601) = T0 + 3601 - 7200, not T0 + 1. *)
Lemma C1_witness :
  isManualTimeUsed automaticSample = false
  /\ jget "adjustedUtc"
       (snd (fst (answerEffectiveBroadcastTime (JObject []) automaticSample
                    (m_broadcastTime automaticSample)
                    (worldOf automaticSample))))
     = JInt (T0 + 3601 - 7200)
  /\ jget "local"
       (snd (fst (answerEffectiveBroadcastTime (JObject []) automaticSample
                    (m_broadcastTime automaticSample)
                    (worldOf automaticSample))))
     = JInt (T0 + 3601).
Proof.
  assert (Hman : isManualTimeUsed automaticSample = false) by reflexivity.
  destruct (C1_effective_time_from_broadcast_local automaticSample
              (m_broadcastTime automaticSample) [] (worldOf automaticSample)
              (T0 + 1) (T0 + 3601) Hman eq_refl eq_refl)
    as [Hok _].
  destruct Hok as (_ & H2 & H3 & _); [vm_compute; discriminate|].
  split; [exact Hman|]. split; [|exact H3].
  rewrite H2. vm_compute. reflexivity.
Defined.

(** ** The handlers, run *)

Section BroadcastTimeRequests.
Context {P : Platform}.

Lemma w_emit_emit (es1 es2 : list Event) (w : World) :
  w_emit es2 (w_emit es1 w) = w_emit (es1 ++ es2) w.
Proof. unfold w_emit. simpl. rewrite app_assoc. reflexivity. Qed.

Lemma w_emit_nil (w : World) : w_emit [] w = w.
Proof. destruct w. unfold w_emit. simpl. rewrite app_nil_r. reflexivity. Qed.

Lemma reply_run (message : LSMessage) (response : JValue) (schema : JSchema)
    (w : World) :
  reply message response schema w =
    if JGenerator_toString response schema
    then (LSMessageReply message response,
          w_emit [LSMessageReply_call message response] w)
    else (false, w).
Proof.
  unfold reply. destruct (JGenerator_toString response schema); reflexivity.
Qed.

(** What a reply adds to the calls made. *)
Lemma reply_out (message : LSMessage) (response : JValue) (schema : JSchema)
    (w : World) :
  snd (reply message response schema w) =
    w_emit (if JGenerator_toString response schema
            then [LSMessageReply_call message response] else []) w.
Proof.
  rewrite reply_run. destruct (JGenerator_toString response schema); simpl.
  - reflexivity.
  - symmetry. apply w_emit_nil.
Qed.

Lemma parser_parse_run (message : LSMessage) (schema : JSchema) (w : World) :
  parser_parse message schema w =
    match parser_accepts schema (msg_payload message) with
    | Some v => (Some v, w)
    | None =>
        (None,
         w_emit
           [LSMessageReply_call message
              (createJsonReply false (parseErrorCode (msg_payload message))
                 (Some (parseErrorText (msg_payload message))))]
           w)
    end.
Proof.
  unfold parser_parse.
  destruct (parser_accepts schema (msg_payload message)); reflexivity.
Qed.

(** answerEffectiveBroadcastTime reads the clock at most once and does
    nothing else to the world. *)
Lemma answerEffectiveBroadcastTime_world (answer : JValue)
    (h : TimePrefsHandler) (bt : BroadcastTime) (w : World) :
  snd (answerEffectiveBroadcastTime answer h bt w) = w
  \/ snd (answerEffectiveBroadcastTime answer h bt w) = w_tick w.
Proof.
  unfold answerEffectiveBroadcastTime. run_monad.
  destruct (isSystemTimeBroadcastEffective h).
  - right. cbn. destruct (_ =? TIME_INVALID); reflexivity.
  - destruct (BroadcastTime_get bt) as [[utc local]|].
    + left. cbn. destruct (local =? TIME_INVALID); reflexivity.
    + right. cbn. destruct (_ =? TIME_INVALID); reflexivity.
Qed.

Lemma answerEffectiveBroadcastTime_keeps (answer : JValue)
    (h : TimePrefsHandler) (bt : BroadcastTime) (w : World) :
  let w' := snd (answerEffectiveBroadcastTime answer h bt w) in
  w_out w' = w_out w
  /\ w_subscriptions w' = w_subscriptions w
  /\ w_timePrefsHandler w' = w_timePrefsHandler w
  /\ w_prefsDb w' = w_prefsDb w.
Proof.
  cbv zeta.
  destruct (answerEffectiveBroadcastTime_world answer h bt w) as [-> | ->];
    repeat split.
Qed.

Lemma postBroadcastEffectiveTimeChange_run (w : World) :
  postBroadcastEffectiveTimeChange w =
    let h := w_timePrefsHandler w in
    let r := answerEffectiveBroadcastTime (JObject []) h (m_broadcastTime h) w in
    (tt,
     if fst (fst r) && JGenerator_toString (snd (fst r)) schemaGeneric
     then w_emit [LSSubscriptionReply_call effectiveBroadcastKey (snd (fst r))]
                 (snd r)
     else snd r).
Proof.
  unfold postBroadcastEffectiveTimeChange. run_monad.
  destruct (answerEffectiveBroadcastTime (JObject []) (w_timePrefsHandler w)
              (m_broadcastTime (w_timePrefsHandler w)) w)
    as [[ok answer] w'].
  cbn [fst snd]. destruct ok; cbn [negb andb]; [|reflexivity].
  destruct (JGenerator_toString answer schemaGeneric); reflexivity.
Qed.

(** cbSetBroadcastTime on a request that validates. *)
Lemma cbSetBroadcastTime_accepted (message : LSMessage) (request : JValue)
    (w : World) :
  parser_accepts schemaSetBroadcastTime (msg_payload message) = Some request ->
  cbSetBroadcastTime message w =
    let sample := requestedSample request in
    let utcCurrent := clockReading (w_clockReadings w) in
    let now := clockReading (S (w_clockReadings w)) in
    let s := BroadcastTime_set (m_broadcastTime (w_timePrefsHandler w))
                               (fst sample) (snd sample) currentStamp in
    let h' := set_m_broadcastTime (snd s) (w_timePrefsHandler w) in
    let w1 := w_set_timePrefsHandler h' (w_tick (w_tick w)) in
    if fst s then
      let w2 := if isManualTimeUsed h' then w1
                else snd (postBroadcastEffectiveTimeChange w1) in
      reply message (createJsonReply true 0 None) schemaGeneric
        (w_emit
           [deprecatedClockChange_fire
              (time_sub (toUtc TZ (snd sample)) now) "broadcast-adjusted"
              utcCurrent;
            deprecatedClockChange_fire
              (time_sub (fst sample) utcCurrent) "broadcast" utcCurrent]
           w2)
    else
      reply message
        (createJsonReply false (-2)
           (Some "Failed to update broadcast time offsets"))
        schemaGeneric w1.
Proof.
  intros Hparse. unfold cbSetBroadcastTime.
  unfold bind at 1. rewrite parser_parse_run, Hparse.
  destruct (requestedSample request) as [utc local]. run_monad.
  keep_calls.
  destruct (BroadcastTime_set (m_broadcastTime (w_timePrefsHandler w))
              utc local currentStamp) as [stored bt'].
  keep_calls. destruct stored; keep_calls; [|reflexivity].
  destruct (isManualTimeUsed
              (set_m_broadcastTime bt' (w_timePrefsHandler w))); keep_calls.
  - rewrite w_emit_emit. reflexivity.
  - destruct (postBroadcastEffectiveTimeChange _) as [[] w2]. keep_calls.
    rewrite w_emit_emit. reflexivity.
Qed.

Lemma cbSetBroadcastTime_rejected (message : LSMessage) (w : World) :
  parser_accepts schemaSetBroadcastTime (msg_payload message) = None ->
  cbSetBroadcastTime message w =
    (true,
     w_emit
       [LSMessageReply_call message
          (createJsonReply false (parseErrorCode (msg_payload message))
             (Some (parseErrorText (msg_payload message))))]
       w).
Proof.
  intros Hparse. unfold cbSetBroadcastTime.
  unfold bind at 1. rewrite parser_parse_run, Hparse. reflexivity.
Qed.

Lemma isManualTimeUsed_set_m_broadcastTime (b : BroadcastTime)
    (h : TimePrefsHandler) :
  isManualTimeUsed (set_m_broadcastTime b h) = isManualTimeUsed h.
Proof. reflexivity. Qed.

End BroadcastTimeRequests.

(** ** cbSetBroadcastTime (claims C3, C4, C5 and C7) *)

Section SetBroadcastTime.
Context {P : Platform}.

Lemma jget_absent (key : string) (v : JValue) :
  hasKey key v = false -> jget key v = JNull.
Proof.
  destruct v; simpl; try reflexivity.
  destruct (assoc key members); [|reflexivity].
  intros H. apply bool_decide_eq_false in H. exfalso. apply H. eauto.
Qed.

Lemma postBroadcastEffectiveTimeChange_keeps (w : World) :
  let w' := snd (postBroadcastEffectiveTimeChange w) in
  w_timePrefsHandler w' = w_timePrefsHandler w
  /\ w_subscriptions w' = w_subscriptions w
  /\ w_prefsDb w' = w_prefsDb w.
Proof.
  cbv zeta. rewrite postBroadcastEffectiveTimeChange_run. cbv zeta. cbn [snd].
  pose proof (answerEffectiveBroadcastTime_keeps (JObject [])
                (w_timePrefsHandler w) (m_broadcastTime (w_timePrefsHandler w)) w)
    as (_ & Hs & Hh & Hd).
  destruct (_ && _); [unfold w_emit; cbn|]; auto.
Qed.

(** After a validated request the tracker is what [BroadcastTime::set] made
    of it; nothing else of the handler object changes. *)
Lemma cbSetBroadcastTime_handler (message : LSMessage) (request : JValue)
    (w : World) :
  parser_accepts schemaSetBroadcastTime (msg_payload message) = Some request ->
  w_timePrefsHandler (snd (cbSetBroadcastTime message w)) =
    set_m_broadcastTime
      (snd (BroadcastTime_set (m_broadcastTime (w_timePrefsHandler w))
              (fst (requestedSample request)) (snd (requestedSample request))
              currentStamp))
      (w_timePrefsHandler w).
Proof.
  intros Hparse. rewrite (cbSetBroadcastTime_accepted _ _ _ Hparse). cbv zeta.
  destruct (fst (BroadcastTime_set _ _ _ _)); rewrite reply_out.
  - change (w_timePrefsHandler (w_emit ?es (w_emit ?es' ?x)))
      with (w_timePrefsHandler x).
    destruct (isManualTimeUsed _); [reflexivity|].
    destruct (postBroadcastEffectiveTimeChange_keeps
                (w_set_timePrefsHandler
                   (set_m_broadcastTime
                      (snd (BroadcastTime_set
                              (m_broadcastTime (w_timePrefsHandler w))
                              (fst (requestedSample request))
                              (snd (requestedSample request)) currentStamp))
                      (w_timePrefsHandler w))
                   (w_tick (w_tick w)))) as [-> _].
    reflexivity.
  - reflexivity.
Qed.

(** C3: for a validated setBroadcastTime request whose timestamp is an
    object with numeric sec and nsec, the delay d evaluated from it is added
    to both fields and (utc + d, local + d) is what is stored; for a request
    without a timestamp, (utc, local) is stored as given. *)
Theorem C3_delay_added_to_both_fields (message : LSMessage) (request : JValue)
    (w : World) :
  parser_accepts schemaSetBroadcastTime (msg_payload message) = Some request ->
  let utc := toInteger (jget "utc" request) in
  let local := toInteger (jget "local" request) in
  let timestamp := jget "timestamp" request in
  let d := evaluateDelay
             (mk_timespec (toInteger (jget "sec" timestamp))
                          (toInteger (jget "nsec" timestamp))) in
  let before := m_broadcastTime (w_timePrefsHandler w) in
  let after :=
    m_broadcastTime (w_timePrefsHandler (snd (cbSetBroadcastTime message w))) in
  (isObject timestamp && isNumber (jget "sec" timestamp)
   && isNumber (jget "nsec" timestamp) = true ->
     requestedSample request = (time_add utc d, time_add local d)
     /\ after = snd (BroadcastTime_set before (time_add utc d)
                                       (time_add local d) currentStamp))
  /\ (hasKey "timestamp" request = false ->
        requestedSample request = (utc, local)
        /\ after = snd (BroadcastTime_set before utc local currentStamp)).
Proof.
  intros Hparse utc local timestamp d before after. subst after.
  rewrite (cbSetBroadcastTime_handler _ _ _ Hparse).
  change (m_broadcastTime (set_m_broadcastTime ?b _)) with b.
  split.
  - intros Hts.
    assert (Hs : requestedSample request = (time_add utc d, time_add local d)).
    { unfold requestedSample. fold timestamp. rewrite Hts. reflexivity. }
    rewrite Hs. split; reflexivity.
  - intros Habsent.
    assert (Hs : requestedSample request = (utc, local)).
    { unfold requestedSample. rewrite (jget_absent _ _ Habsent). reflexivity. }
    rewrite Hs. split; reflexivity.
Qed.

(** C4: when [BroadcastTime::set] fails on a validated request, the only
    call the handler adds is the failure reply (returnValue false,
    errorCode -2 and its text), when it serializes: no subscription push is
    sent and no clock-change signal is fired; the subscription lists are as
    before. *)
Theorem C4_store_failure_is_answered_only (message : LSMessage)
    (request : JValue) (w : World) :
  parser_accepts schemaSetBroadcastTime (msg_payload message) = Some request ->
  fst (BroadcastTime_set (m_broadcastTime (w_timePrefsHandler w))
         (fst (requestedSample request)) (snd (requestedSample request))
         currentStamp) = false ->
  let failure :=
    createJsonReply false (-2)
      (Some "Failed to update broadcast time offsets") in
  let w' := snd (cbSetBroadcastTime message w) in
  jget "returnValue" failure = JBool false
  /\ jget "errorCode" failure = JInt (-2)
  /\ jget "errorText" failure
     = JString "Failed to update broadcast time offsets"
  /\ w_out w' =
     w_out w ++ (if JGenerator_toString failure schemaGeneric
                 then [LSMessageReply_call message failure] else [])
  /\ (forall e, e ∈ w_out w' ->
        e ∈ w_out w \/ e = LSMessageReply_call message failure)
  /\ (forall e, e ∈ w_out w' -> is_notification e = true -> e ∈ w_out w)
  /\ w_subscriptions w' = w_subscriptions w.
Proof.
  intros Hparse Hfail failure w'. subst w'.
  rewrite (cbSetBroadcastTime_accepted _ _ _ Hparse). cbv zeta.
  rewrite Hfail, reply_out. fold failure.
  assert (Hout : w_out (w_emit
                   (if JGenerator_toString failure schemaGeneric
                    then [LSMessageReply_call message failure] else [])
                   (w_set_timePrefsHandler
                      (set_m_broadcastTime
                         (snd (BroadcastTime_set
                                 (m_broadcastTime (w_timePrefsHandler w))
                                 (fst (requestedSample request))
                                 (snd (requestedSample request)) currentStamp))
                         (w_timePrefsHandler w))
                      (w_tick (w_tick w))))
                 = w_out w ++ (if JGenerator_toString failure schemaGeneric
                               then [LSMessageReply_call message failure]
                               else [])) by reflexivity.
  assert (Hin : forall e,
             e ∈ w_out w ++ (if JGenerator_toString failure schemaGeneric
                             then [LSMessageReply_call message failure]
                             else []) ->
             e ∈ w_out w \/ e = LSMessageReply_call message failure).
  { intros e He. apply elem_of_app in He as [He|He]; [left; exact He|].
    destruct (JGenerator_toString failure schemaGeneric).
    - apply list_elem_of_singleton in He. right. exact He.
    - apply elem_of_nil in He. contradiction. }
  do 3 (split; [reflexivity|]).
  split; [exact Hout|]. rewrite Hout.
  split; [exact Hin|]. split; [|reflexivity].
  intros e He Hnote.
  destruct (Hin e He) as [Hold| ->]; [exact Hold|discriminate].
Qed.

End SetBroadcastTime.

Section SetBroadcastTimeNotifications.
Context {P : Platform}.

Lemma jget_returnValue_createJsonReply (returnValue : bool) (errorCode : Z)
    (errorText : option string) :
  jget "returnValue" (createJsonReply returnValue errorCode errorText)
  = JBool returnValue.
Proof.
  unfold createJsonReply.
  destruct errorText, (errorCode =? 0); reflexivity.
Qed.

Lemma subscriber_is_delivered (subs : list (string * LSMessage))
    (key : string) (m : LSMessage) (payload : JValue) :
  (key, m) ∈ subs ->
  (m, payload) ∈ deliveries subs (LSSubscriptionReply_call key payload).
Proof.
  intros Hin. unfold deliveries.
  apply list_elem_of_fmap. exists (key, m). split; [reflexivity|].
  apply list_elem_of_filter. split; [|exact Hin].
  simpl. apply String.eqb_refl.
Qed.

(** In manual mode a stored sample is followed by the two signal firings
    and the reply; no push is sent. *)
Lemma cbSetBroadcastTime_manual_out (message : LSMessage) (request : JValue)
    (w : World) :
  parser_accepts schemaSetBroadcastTime (msg_payload message) = Some request ->
  fst (BroadcastTime_set (m_broadcastTime (w_timePrefsHandler w))
         (fst (requestedSample request)) (snd (requestedSample request))
         currentStamp) = true ->
  isManualTimeUsed (w_timePrefsHandler w) = true ->
  w_out (snd (cbSetBroadcastTime message w)) =
    w_out w
    ++ [deprecatedClockChange_fire
          (time_sub (toUtc TZ (snd (requestedSample request)))
                    (clockReading (S (w_clockReadings w))))
          "broadcast-adjusted" (clockReading (w_clockReadings w));
        deprecatedClockChange_fire
          (time_sub (fst (requestedSample request))
                    (clockReading (w_clockReadings w)))
          "broadcast" (clockReading (w_clockReadings w))]
    ++ (if JGenerator_toString (createJsonReply true 0 None) schemaGeneric
        then [LSMessageReply_call message (createJsonReply true 0 None)]
        else []).
Proof.
  intros Hparse Hstored Hman.
  rewrite (cbSetBroadcastTime_accepted _ _ _ Hparse). cbv zeta.
  rewrite Hstored, isManualTimeUsed_set_m_broadcastTime, Hman, reply_out.
  unfold w_emit. cbn [w_out w_set_timePrefsHandler w_tick].
  rewrite app_assoc. reflexivity.
Qed.

(** C5, amended: after a validated setBroadcastTime request whose sample is
    stored while the daemon is not in manual mode, the effective broadcast
    time is recomputed from the new state, and when that answer succeeds and
    serializes, a push carrying it is sent under the key of
    getEffectiveBroadcastTime, before the signals and the reply, and is
    delivered to every subscriber of that key. *)
Theorem C5_push_to_every_subscriber (message : LSMessage) (request : JValue)
    (w : World) :
  parser_accepts schemaSetBroadcastTime (msg_payload message) = Some request ->
  let sample := requestedSample request in
  let s := BroadcastTime_set (m_broadcastTime (w_timePrefsHandler w))
                             (fst sample) (snd sample) currentStamp in
  fst s = true ->
  isManualTimeUsed (w_timePrefsHandler w) = false ->
  let h' := set_m_broadcastTime (snd s) (w_timePrefsHandler w) in
  let w1 := w_set_timePrefsHandler h' (w_tick (w_tick w)) in
  let a := fst (answerEffectiveBroadcastTime (JObject []) h'
                  (m_broadcastTime h') w1) in
  fst a = true ->
  JGenerator_toString (snd a) schemaGeneric = true ->
  let w' := snd (cbSetBroadcastTime message w) in
  let push := LSSubscriptionReply_call effectiveBroadcastKey (snd a) in
  w_out w' =
    w_out w
    ++ [push;
        deprecatedClockChange_fire
          (time_sub (toUtc TZ (snd sample)) (clockReading (S (w_clockReadings w))))
          "broadcast-adjusted" (clockReading (w_clockReadings w));
        deprecatedClockChange_fire
          (time_sub (fst sample) (clockReading (w_clockReadings w)))
          "broadcast" (clockReading (w_clockReadings w))]
    ++ (if JGenerator_toString (createJsonReply true 0 None) schemaGeneric
        then [LSMessageReply_call message (createJsonReply true 0 None)]
        else [])
  /\ w_subscriptions w' = w_subscriptions w
  /\ (forall m, (effectiveBroadcastKey, m) ∈ w_subscriptions w ->
        (m, snd a) ∈ deliveries (w_subscriptions w') push).
Proof.
  intros Hparse sample s Hstored Hauto h' w1 a Hok Hgen w' push.
  assert (Hw' : w' =
    w_emit (if JGenerator_toString (createJsonReply true 0 None) schemaGeneric
            then [LSMessageReply_call message (createJsonReply true 0 None)]
            else [])
      (w_emit
         [deprecatedClockChange_fire
            (time_sub (toUtc TZ (snd sample)) (clockReading (S (w_clockReadings w))))
            "broadcast-adjusted" (clockReading (w_clockReadings w));
          deprecatedClockChange_fire
            (time_sub (fst sample) (clockReading (w_clockReadings w)))
            "broadcast" (clockReading (w_clockReadings w))]
         (w_emit [push]
            (snd (answerEffectiveBroadcastTime (JObject []) h'
                    (m_broadcastTime h') w1))))).
  { subst w'. rewrite (cbSetBroadcastTime_accepted _ _ _ Hparse). cbv zeta.
    fold sample. fold s. rewrite Hstored. fold h'.
    unfold h' at 1. rewrite isManualTimeUsed_set_m_broadcastTime, Hauto.
    fold w1. rewrite reply_out, postBroadcastEffectiveTimeChange_run.
    cbv zeta. cbn [snd].
    change (w_timePrefsHandler w1) with h'. fold a.
    rewrite Hok, Hgen. reflexivity. }
  destruct (answerEffectiveBroadcastTime_keeps (JObject []) h'
              (m_broadcastTime h') w1) as (Hout & Hsubs & _).
  assert (Hsubs' : w_subscriptions w' = w_subscriptions w).
  { rewrite Hw'. unfold w_emit. cbn [w_subscriptions]. exact Hsubs. }
  split; [|split].
  - rewrite Hw'. unfold w_emit. cbn [w_out]. rewrite Hout.
    change (w_out w1) with (w_out w).
    rewrite <- !app_assoc. reflexivity.
  - exact Hsubs'.
  - intros m Hm. rewrite Hsubs'. apply subscriber_is_delivered, Hm.
Qed.

(** C7: a setBroadcastTime payload that does not validate is answered with
    the parser's failure reply (returnValue false, an error code and text)
    and the handler returns at once: the failure reply is the only call
    made; the TimePrefsHandler object with its stored sample, the clock
    readings, the subscription lists and the preferences are as before; no
    push is sent and no signal is fired. *)
Theorem C7_malformed_request_touches_nothing (message : LSMessage) (w : World) :
  parser_accepts schemaSetBroadcastTime (msg_payload message) = None ->
  let failure :=
    createJsonReply false (parseErrorCode (msg_payload message))
                    (Some (parseErrorText (msg_payload message))) in
  let w' := snd (cbSetBroadcastTime message w) in
  jget "returnValue" failure = JBool false
  /\ jget "errorText" failure
     = JString (parseErrorText (msg_payload message))
  /\ cbSetBroadcastTime message w
     = (true, w_emit [LSMessageReply_call message failure] w)
  /\ w_timePrefsHandler w' = w_timePrefsHandler w
  /\ w_clockReadings w' = w_clockReadings w
  /\ w_subscriptions w' = w_subscriptions w
  /\ w_prefsDb w' = w_prefsDb w
  /\ w_out w' = w_out w ++ [LSMessageReply_call message failure]
  /\ (forall e, e ∈ w_out w' -> is_notification e = true -> e ∈ w_out w).
Proof.
  intros Hparse failure w'. subst w'.
  split; [apply jget_returnValue_createJsonReply|].
  split; [unfold failure, createJsonReply;
          destruct (_ =? 0); reflexivity|].
  rewrite (cbSetBroadcastTime_rejected _ _ Hparse). fold failure.
  do 6 (split; [reflexivity|]).
  intros e He Hnote. unfold w_emit in He. cbn [snd w_out] in He.
  apply elem_of_app in He as [He|He]; [exact He|].
  apply list_elem_of_singleton in He. subst e. discriminate.
Qed.

(** The shapes that the schema of /time/setBroadcastTime rejects: a payload
    that is missing or not JSON, a value that is not an object, an object
    without utc or without local, and an object with a member other than
    utc, local and timestamp. *)
Lemma schemaSetBroadcastTime_rejects (p : Payload) :
  p = PayloadNull
  \/ p = PayloadText None
  \/ (exists v, p = PayloadText (Some v)
        /\ (isObject v = false
            \/ hasKey "utc" v = false
            \/ hasKey "local" v = false
            \/ exists members k x,
                 v = JObject members /\ In (k, x) members
                 /\ k <> "utc" /\ k <> "local" /\ k <> "timestamp")) ->
  parser_accepts schemaSetBroadcastTime p = None.
Proof.
  intros [-> | [-> | (v & -> & Hv)]]; [reflexivity|reflexivity|].
  unfold parser_accepts.
  enough (validates (schemaOf schemaSetBroadcastTime) v = false) as ->
    by reflexivity.
  destruct Hv as [Hobj | [Hutc | [Hlocal | (members & k & x & -> & Hin & H1 & H2 & H3)]]].
  - destruct v; try discriminate; reflexivity.
  - destruct v; try reflexivity. cbn [validates schemaOf os_required forallb].
    rewrite Hutc. destruct (forallb _ members); reflexivity.
  - destruct v; try reflexivity. cbn [validates schemaOf os_required forallb].
    rewrite Hlocal.
    destruct (forallb _ members), (hasKey "utc" _); reflexivity.
  - cbn [validates].
    assert (Hmem : forallb (member_ok (schemaOf schemaSetBroadcastTime)) members
                   = false).
    { apply not_true_is_false. intros Hall.
      rewrite forallb_forall in Hall. specialize (Hall _ Hin).
      unfold member_ok in Hall. cbn [fst snd schemaOf os_properties assoc] in Hall.
      destruct (String.eqb_spec "utc" k); [congruence|].
      destruct (String.eqb_spec "local" k); [congruence|].
      destruct (String.eqb_spec "timestamp" k); [congruence|].
      discriminate Hall. }
    rewrite Hmem. reflexivity.
Qed.

End SetBroadcastTimeNotifications.

(** ** cbGetBroadcastTime (claim C10) *)

Section GetBroadcastTime.
Context {P : Platform}.

Lemma cbGetBroadcastTime_accepted (message : LSMessage) (request : JValue)
    (w : World) :
  parser_accepts schemaEmptyObject (msg_payload message) = Some request ->
  cbGetBroadcastTime message w =
    match BroadcastTime_get (m_broadcastTime (w_timePrefsHandler w)) with
    | None =>
        reply message
          (createJsonReply false (-2) (Some "No information available"))
          schemaGeneric w
    | Some (utc, local) =>
        reply message
          (addLocalTime
             (put "timestamp" timestampJson
                (put "local" (JInt local)
                   (put "utc" (JInt utc)
                      (put "returnValue" (JBool true) (JObject [])))))
             local)
          schemaGetBroadcastTimeReply w
    end.
Proof.
  intros Hparse. unfold cbGetBroadcastTime. run_monad.
  rewrite parser_parse_run, Hparse.
  destruct (BroadcastTime_get (m_broadcastTime (w_timePrefsHandler w)))
    as [[utc local]|]; reflexivity.
Qed.

Lemma assoc_In {A} (key : string) (l : list (string * A)) (x : A) :
  assoc key l = Some x -> In (key, x) l.
Proof.
  induction l as [|[k v] rest IH]; cbn [assoc]; [discriminate|].
  destruct (String.eqb_spec k key) as [->|Hne].
  - intros [= ->]. left. reflexivity.
  - intros H. right. apply IH, H.
Qed.



End GetBroadcastTime.

(** ** The handlers on the worked inputs *)

(** The scenario of the spec: {utc = T0, local = T0 + 3600} with an origin
    timestamp and a measured delay of 1 s is stored as
    (T0 + 1, T0 + 3601). *)
Lemma C3_witness :
  @parser_accepts platformA schemaSetBroadcastTime
    (msg_payload requestWithTimestamp)
  = Some (JObject [("utc", JInt T0); ("local", JInt (T0 + 3600));
                   ("timestamp",
                    JObject [("source", JString "monotonic");
                             ("sec", JInt 498); ("nsec", JInt 0)])])
  /\ m_broadcastTime
       (w_timePrefsHandler
          (snd (cbSetBroadcastTime requestWithTimestamp (worldOf automaticA))))
     = sampleOf (T0 + 1) (T0 + 3601)
  /\ m_broadcastTime
       (w_timePrefsHandler
          (snd (cbSetBroadcastTime requestWithoutTimestamp
                  (worldOf automaticA))))
     = sampleOf T0 (T0 + 3600).
Proof.
  split; [reflexivity|]. split.
  - destruct (@C3_delay_added_to_both_fields platformA requestWithTimestamp _
                (worldOf automaticA) eq_refl) as [Hts _].
    destruct (Hts eq_refl) as [_ ->]. vm_compute. reflexivity.
  - destruct (@C3_delay_added_to_both_fields platformA
                requestWithoutTimestamp _ (worldOf automaticA) eq_refl)
      as [_ Hnone].
    destruct (Hnone eq_refl) as [_ ->]. vm_compute. reflexivity.
Defined.

(** A tracker that cannot store: the request is answered with the failure
    and nothing else is sent. *)
Lemma C4_witness :
  @parser_accepts platformStoreFails schemaSetBroadcastTime
    (msg_payload requestWithTimestamp) <> None
  /\ w_out (snd (cbSetBroadcastTime requestWithTimestamp
                   (worldOf automaticStoreFails)))
     = [LSMessageReply_call requestWithTimestamp
          (JObject [("returnValue", JBool false); ("errorCode", JInt (-2));
                    ("errorText",
                     JString "Failed to update broadcast time offsets")])].
Proof.
  split; [discriminate|].
  destruct (@C4_store_failure_is_answered_only platformStoreFails
              requestWithTimestamp _ (worldOf automaticStoreFails)
              eq_refl eq_refl) as (_ & _ & _ & Hout & _).
  rewrite Hout. reflexivity.
Defined.

(** C5, as stated, fails: in manual mode the sample is stored, two
    subscribers of getEffectiveBroadcastTime exist, and the handler fires
    the two signals and replies; no push is sent, and the requester is the
    only one to whom anything is delivered. *)
Lemma C5_counterexample_manual_mode :
  isManualTimeUsed manualA = true
  /\ m_broadcastTime
       (w_timePrefsHandler
          (snd (cbSetBroadcastTime requestWithTimestamp (worldOf manualA))))
     = sampleOf (T0 + 1) (T0 + 3601)
  /\ w_subscriptions (worldOf manualA)
     = [(effectiveBroadcastKey, subscriberA);
        (effectiveBroadcastKey, subscriberB)]
  /\ w_out (snd (cbSetBroadcastTime requestWithTimestamp (worldOf manualA)))
     = [deprecatedClockChange_fire (T0 + 3601 - 7200 - (T0 + 10))
          "broadcast-adjusted" (T0 + 10);
        deprecatedClockChange_fire (T0 + 1 - (T0 + 10)) "broadcast" (T0 + 10);
        LSMessageReply_call requestWithTimestamp
          (JObject [("returnValue", JBool true)])]
  /\ flat_map (deliveries (w_subscriptions (worldOf manualA)))
       (w_out (snd (cbSetBroadcastTime requestWithTimestamp
                      (worldOf manualA))))
     = [(requestWithTimestamp, JObject [("returnValue", JBool true)])].
Proof. repeat split; vm_compute; reflexivity. Qed.

(** Outside manual mode the same request pushes the recomputed effective
    time to both subscribers. *)
Lemma C5_witness :
  isManualTimeUsed automaticA = false
  /\ w_out (snd (cbSetBroadcastTime requestWithTimestamp (worldOf automaticA)))
     = [LSSubscriptionReply_call effectiveBroadcastKey effectiveAfterStore;
        deprecatedClockChange_fire (T0 + 3601 - 7200 - (T0 + 10))
          "broadcast-adjusted" (T0 + 10);
        deprecatedClockChange_fire (T0 + 1 - (T0 + 10)) "broadcast" (T0 + 10);
        LSMessageReply_call requestWithTimestamp
          (JObject [("returnValue", JBool true)])]
  /\ (subscriberA, effectiveAfterStore)
     ∈ deliveries
         (w_subscriptions
            (snd (cbSetBroadcastTime requestWithTimestamp (worldOf automaticA))))
         (LSSubscriptionReply_call effectiveBroadcastKey effectiveAfterStore)
  /\ (subscriberB, effectiveAfterStore)
     ∈ deliveries
         (w_subscriptions
            (snd (cbSetBroadcastTime requestWithTimestamp (worldOf automaticA))))
         (LSSubscriptionReply_call effectiveBroadcastKey effectiveAfterStore).
Proof.
  assert (Hauto : isManualTimeUsed automaticA = false) by reflexivity.
  destruct (@C5_push_to_every_subscriber platformA requestWithTimestamp _
              (worldOf automaticA) eq_refl eq_refl Hauto eq_refl eq_refl)
    as (Hout & _ & Hall).
  split; [exact Hauto|]. split; [rewrite Hout; vm_compute; reflexivity|].
  split.
  - apply (Hall subscriberA). apply list_elem_of_here.
  - apply (Hall subscriberB). apply list_elem_of_further, list_elem_of_here.
Defined.

(** A request without local: the parser answers, the stored sample and
    everything else stay. *)
Lemma C7_witness :
  @parser_accepts platformA schemaSetBroadcastTime
    (msg_payload requestWithoutLocal) = None
  /\ cbSetBroadcastTime requestWithoutLocal (worldOf automaticSample)
     = (true,
        w_emit
          [LSMessageReply_call requestWithoutLocal
             (JObject
                [("returnValue", JBool false); ("errorCode", JInt 1);
                 ("errorText",
                  JString "Could not validate json message against schema")])]
          (worldOf automaticSample)).
Proof.
  split; [reflexivity|].
  destruct (@C7_malformed_request_touches_nothing platformA
              requestWithoutLocal (worldOf automaticSample) eq_refl)
    as (_ & _ & Hrun & _).
  rewrite Hrun. reflexivity.
Defined.



(** ** cbSetPreferences (claim C8) *)

Section SetPreferences.
Context {P : Platform}.

Lemma forEach_emit {A} (l : list A) (f : A -> Event) (w : World) :
  forEach l (fun x => emit (f x)) w = (tt, w_emit (map f l) w).
Proof.
  revert w. induction l as [|x rest IH]; intros w; simpl.
  - unfold ret. rewrite w_emit_nil. reflexivity.
  - unfold bind, emit. rewrite IH, w_emit_emit. reflexivity.
Qed.

Lemma postPrefChangeValueIsCompleteString_run (keyStr : string) (json : JValue)
    (w : World) :
  postPrefChangeValueIsCompleteString keyStr json w =
    (tt,
     w_emit (if LSSubscriptionAcquire keyStr
             then map (fun m => LSMessageReply_call m json)
                      (subscribersOf keyStr (w_subscriptions w))
             else []) w).
Proof.
  unfold postPrefChangeValueIsCompleteString.
  destruct (LSSubscriptionAcquire keyStr).
  - unfold bind, gets. apply forEach_emit.
  - unfold ret. rewrite w_emit_nil. reflexivity.
Qed.

Lemma PrefsDb_setPref_run (key value : string) (w : World) :
  PrefsDb_setPref key value w =
    (PrefsDb_write key value,
     if PrefsDb_write key value
     then w_set_prefsDb (<[key := value]> (w_prefsDb w)) w else w).
Proof.
  unfold PrefsDb_setPref. destruct (PrefsDb_write key value); reflexivity.
Qed.

(** One iteration of the loop. *)
Lemma setOnePreference_run (callerId : string) (pref : string * JValue)
    (l : SetPrefsLocals) (w : World) :
  setOnePreference callerId pref l w =
    (pref_locals (w_handlersMaps w) callerId l pref,
     w_emit (pref_calls (w_handlersMaps w) (w_subscriptions w) callerId pref)
       (w_set_prefsDb
          (pref_db (w_handlersMaps w) callerId (w_prefsDb w) pref) w)).
Proof.
  destruct w as [h n subs db hm out].
  unfold setOnePreference, getPrefsHandler, pref_locals, pref_calls, pref_db,
    pref_saved, pref_posts.
  unfold bind at 1. unfold gets. cbn [w_handlersMaps w_subscriptions w_prefsDb].
  destruct (hm !! fst pref) as [hd|].
  - destruct (validate hd (fst pref) (snd pref) callerId); cbn [andb].
    + unfold bind at 1. rewrite PrefsDb_setPref_run.
      destruct (PrefsDb_write (fst pref) (stringify (snd pref))).
      * unfold bind. rewrite postPrefChangeValueIsCompleteString_run.
        unfold emit, ret. rewrite w_emit_emit. reflexivity.
      * unfold ret, w_emit, w_set_prefsDb. cbn. rewrite app_nil_r.
        reflexivity.
    + unfold bind, ret, w_emit, w_set_prefsDb. cbn. rewrite app_nil_r.
      reflexivity.
  - unfold bind at 1. rewrite PrefsDb_setPref_run.
    destruct (PrefsDb_write (fst pref) (stringify (snd pref))).
    + unfold bind. rewrite postPrefChangeValueIsCompleteString_run.
      unfold ret. rewrite app_nil_r. reflexivity.
    + unfold ret, w_emit, w_set_prefsDb. cbn. rewrite app_nil_r.
      reflexivity.
Qed.

(** The whole loop. *)
Lemma setPreferencesLoop_run (callerId : string)
    (children : list (string * JValue)) :
  forall (l : SetPrefsLocals) (w : World),
  setPreferencesLoop callerId children l w =
    (fold_left (pref_locals (w_handlersMaps w) callerId) children l,
     w_emit
       (flat_map (pref_calls (w_handlersMaps w) (w_subscriptions w) callerId)
                 children)
       (w_set_prefsDb
          (fold_left (pref_db (w_handlersMaps w) callerId) children
                     (w_prefsDb w))
          w)).
Proof.
  induction children as [|pref rest IH]; intros l w.
  - cbn. unfold ret. destruct w. unfold w_emit, w_set_prefsDb. cbn.
    rewrite app_nil_r. reflexivity.
  - cbn [setPreferencesLoop]. unfold bind.
    rewrite setOnePreference_run, IH.
    destruct w as [h n subs db hm out].
    unfold w_emit, w_set_prefsDb. cbn. rewrite <- app_assoc. reflexivity.
Qed.

End SetPreferences.

Section SetPreferencesLoop.
Context {P : Platform}.
Variable handlers : gmap string PrefsHandler.
Variable subs : list (string * LSMessage).
Variable callerId : string.

Lemma wrap32_small (x : Z) : - 2 ^ 31 <= x < 2 ^ 31 -> wrap32 x = x.
Proof.
  intros H. unfold wrap32. rewrite Z.mod_small; lia.
Qed.

(** The database away from the keys of the request. *)
Lemma fold_pref_db_other (children : list (string * JValue)) (key : string) :
  forall db, key ∉ map fst children ->
  fold_left (pref_db handlers callerId) children db !! key = db !! key.
Proof.
  induction children as [|[k v] rest IH]; intros db Hnot; [reflexivity|].
  cbn [fold_left]. rewrite IH.
  - unfold pref_db. cbn [fst snd]. destruct (pref_saved _ _ _); [|reflexivity].
    apply lookup_insert_ne. intros ->. apply Hnot. cbn. apply list_elem_of_here.
  - intros Hin. apply Hnot. cbn. apply list_elem_of_further, Hin.
Qed.

(** The database at a key of the request, the keys being distinct. *)
Lemma fold_pref_db_member (children : list (string * JValue)) (key : string)
    (value : JValue) :
  forall db, NoDup (map fst children) -> (key, value) ∈ children ->
  fold_left (pref_db handlers callerId) children db !! key =
    if pref_saved handlers callerId (key, value)
    then Some (stringify value) else db !! key.
Proof.
  induction children as [|[k v] rest IH]; intros db Hnodup Hin.
  - apply elem_of_nil in Hin. contradiction.
  - cbn [map fst] in Hnodup. apply NoDup_cons in Hnodup as [Hfresh Hrest].
    apply elem_of_cons in Hin as [Heq|Hin].
    + injection Heq as <- <-. cbn [fold_left].
      rewrite fold_pref_db_other by exact Hfresh.
      unfold pref_db. cbn [fst snd].
      destruct (pref_saved handlers callerId (key, value)); [|reflexivity].
      apply lookup_insert_eq.
    + cbn [fold_left]. rewrite (IH _ Hrest Hin).
      destruct (pref_saved handlers callerId (key, value)); [reflexivity|].
      unfold pref_db. cbn [fst snd].
      destruct (pref_saved handlers callerId (k, v)); [|reflexivity].
      apply lookup_insert_ne. intros ->. apply Hfresh.
      apply list_elem_of_fmap. exists (key, value). split; [reflexivity|exact Hin].
Qed.

(** The calls of a member are among the calls of the loop. *)
Lemma pref_calls_member (children : list (string * JValue))
    (pref : string * JValue) (e : Event) :
  pref ∈ children ->
  e ∈ pref_calls handlers subs callerId pref ->
  e ∈ flat_map (pref_calls handlers subs callerId) children.
Proof.
  intros Hpref He. apply list_elem_of_In. apply in_flat_map.
  exists pref. split; apply list_elem_of_In; assumption.
Qed.

(** [errcount] counts up, and does so for every member that is not saved. *)
Lemma fold_pref_locals_errcount (children : list (string * JValue)) :
  forall l, 0 <= errcount l ->
  errcount l + Z.of_nat (length children) < 2 ^ 31 ->
  let l' := fold_left (pref_locals handlers callerId) children l in
  errcount l <= errcount l' <= errcount l + Z.of_nat (length children)
  /\ (forall pref, pref ∈ children ->
        pref_saved handlers callerId pref = false ->
        errcount l < errcount l').
Proof.
  induction children as [|pref rest IH]; intros l Hpos Hbound; cbv zeta.
  - cbn. split; [lia|]. intros pref Hin. apply elem_of_nil in Hin.
    contradiction.
  - cbn [fold_left]. cbn [length] in *.
    assert (Hstep :
      errcount (pref_locals handlers callerId l pref) =
        errcount l + (if pref_saved handlers callerId pref then 0 else 1)).
    { unfold pref_locals. destruct (pref_saved handlers callerId pref);
        cbn [errcount]; [lia|]. apply wrap32_small. lia. }
    assert (Hbit : 0 <= (if pref_saved handlers callerId pref then 0 else 1) <= 1)
      by (destruct (pref_saved handlers callerId pref); lia).
    destruct (IH (pref_locals handlers callerId l pref)) as [Hrange Hfail];
      [lia|lia|].
    split; [lia|].
    intros q Hq Hnot. apply elem_of_cons in Hq as [->|Hq].
    + rewrite Hnot in Hstep. lia.
    + specialize (Hfail q Hq Hnot). lia.
Qed.

End SetPreferencesLoop.

Section SetPreferencesRequest.
Context {P : Platform}.

Lemma cbSetPreferences_object (message : LSMessage)
    (children : list (string * JValue)) (w : World) :
  msg_payload message = PayloadText (Some (JObject children)) ->
  let callerId := default "" (msg_applicationID message) in
  let l' := fold_left (pref_locals (w_handlersMaps w) callerId) children
                      (mk_SetPrefsLocals true 0 0) in
  let succeeded := if truth (errcount l') then false else success l' in
  let errorText :=
    if truth (errcount l') then "Some settings could not be saved" else "" in
  cbSetPreferences message w =
    (true,
     w_emit
       (flat_map (pref_calls (w_handlersMaps w) (w_subscriptions w) callerId)
                 children
        ++ [LSMessageReply_call message
              (setPreferencesResult succeeded errorText)])
       (w_set_prefsDb
          (fold_left (pref_db (w_handlersMaps w) callerId) children
                     (w_prefsDb w))
          w)).
Proof.
  intros Hpayload callerId l' succeeded errorText.
  unfold cbSetPreferences. rewrite Hpayload.
  unfold bind at 1. unfold bind at 1.
  rewrite setPreferencesLoop_run. fold callerId. fold l'.
  subst succeeded errorText.
  destruct (truth (errcount l')); unfold ret, bind, emit;
    rewrite w_emit_emit; reflexivity.
Qed.

Lemma subscribersOf_member (key : string) (m : LSMessage)
    (subs : list (string * LSMessage)) :
  (key, m) ∈ subs -> m ∈ subscribersOf key subs.
Proof.
  intros Hin. unfold subscribersOf.
  apply list_elem_of_fmap. exists (key, m). split; [reflexivity|].
  apply list_elem_of_filter. split; [|exact Hin].
  simpl. apply String.eqb_refl.
Qed.

(** C8: in a setPreferences request (a JSON object, its keys distinct), for
    every key that has a registered handler: the stored value of the key
    changes only if the handler's validate accepted the value; a value that
    fails validation leaves the stored value as it was and makes the reply
    the failure "Some settings could not be saved"; a value that is
    validated and written is stored, is posted to every subscriber of the
    key (when the subscription list can be acquired), and valueChanged is
    called for it. *)
Theorem C8_setPreferences_validates_then_notifies (message : LSMessage)
    (children : list (string * JValue)) (w : World)
    (key : string) (value : JValue) (h : PrefsHandler) :
  msg_payload message = PayloadText (Some (JObject children)) ->
  NoDup (map fst children) ->
  Z.of_nat (length children) < 2 ^ 31 ->
  (key, value) ∈ children ->
  w_handlersMaps w !! key = Some h ->
  let callerId := default "" (msg_applicationID message) in
  let w' := snd (cbSetPreferences message w) in
  exists new result,
    w_out w' = w_out w ++ new ++ [LSMessageReply_call message result]
    /\ (w_prefsDb w' !! key <> w_prefsDb w !! key ->
          validate h key value callerId = true)
    /\ (validate h key value callerId = false ->
          w_prefsDb w' !! key = w_prefsDb w !! key
          /\ (valueChanged_call key value ∉ new)
          /\ result = setPreferencesResult false
                        "Some settings could not be saved"
          /\ jget "returnValue" result = JBool false)
    /\ (validate h key value callerId = true ->
        PrefsDb_write key (stringify value) = true ->
          w_prefsDb w' !! key = Some (stringify value)
          /\ valueChanged_call key value ∈ new
          /\ (LSSubscriptionAcquire key = true ->
              forall m, (key, m) ∈ w_subscriptions w ->
                LSMessageReply_call m (JObject [(key, value)]) ∈ new)).
Proof.
  intros Hpayload Hnodup Hsize Hin Hhandler callerId w'. subst w'.
  rewrite (cbSetPreferences_object _ _ _ Hpayload). cbv zeta. fold callerId.
  set (l' := fold_left (pref_locals (w_handlersMaps w) callerId) children
                       (mk_SetPrefsLocals true 0 0)).
  set (calls := flat_map (pref_calls (w_handlersMaps w) (w_subscriptions w)
                                     callerId) children).
  exists calls. eexists.
  split; [unfold w_emit; cbn [snd w_out]; reflexivity|].
  cbn [snd]. unfold w_emit, w_set_prefsDb. cbn [w_prefsDb].
  rewrite (fold_pref_db_member _ _ _ _ _ _ Hnodup Hin).
  assert (Hsaved : pref_saved (w_handlersMaps w) callerId (key, value) =
                   validate h key value callerId
                   && PrefsDb_write key (stringify value)).
  { unfold pref_saved. cbn [fst snd]. rewrite Hhandler. reflexivity. }
  rewrite Hsaved.
  split; [|split].
  - intros Hchanged. destruct (validate h key value callerId);
      [reflexivity|]. cbn [andb] in Hchanged. congruence.
  - intros Hinvalid. rewrite Hinvalid. cbn [andb].
    split; [reflexivity|].
    destruct (fold_pref_locals_errcount (w_handlersMaps w) callerId children
                (mk_SetPrefsLocals true 0 0)) as [Hrange Hfail];
      [cbn; lia|cbn [errcount]; lia|].
    specialize (Hfail _ Hin). rewrite Hsaved, Hinvalid in Hfail.
    specialize (Hfail eq_refl). cbn [errcount] in Hfail. fold l' in Hfail.
    assert (Htruth : truth (errcount l') = true).
    { unfold truth. apply negb_true_iff, Z.eqb_neq. lia. }
    rewrite Htruth. split; [|split; reflexivity].
    intros Hcall. subst calls.
    apply list_elem_of_In, in_flat_map in Hcall as ([k v] & Hkv & Hev).
    unfold pref_calls in Hev.
    destruct (pref_saved (w_handlersMaps w) callerId (k, v)) eqn:Hkvsaved;
      [|contradiction].
    apply in_app_or in Hev as [Hpost|Hchanged].
    + unfold pref_posts in Hpost. destruct (LSSubscriptionAcquire _);
        [|contradiction].
      apply in_map_iff in Hpost as (m & Hm & _). discriminate Hm.
    + cbn [fst snd] in Hchanged.
      destruct (w_handlersMaps w !! k); [|contradiction].
      destruct Hchanged as [Heq|[]]. injection Heq as -> ->.
      rewrite Hsaved, Hinvalid in Hkvsaved. discriminate.
  - intros Hvalid Hwrite. rewrite Hvalid, Hwrite. cbn [andb].
    assert (Hsaved' : pref_saved (w_handlersMaps w) callerId (key, value) = true)
      by (rewrite Hsaved, Hvalid, Hwrite; reflexivity).
    split; [reflexivity|]. split.
    + apply (pref_calls_member _ _ _ _ (key, value)); [exact Hin|].
      unfold pref_calls. rewrite Hsaved'. cbn [fst snd]. rewrite Hhandler.
      apply elem_of_app. right. apply list_elem_of_here.
    + intros Hacquire m Hm.
      apply (pref_calls_member _ _ _ _ (key, value)); [exact Hin|].
      unfold pref_calls. rewrite Hsaved'.
      apply elem_of_app. left. unfold pref_posts. cbn [fst snd].
      rewrite Hacquire.
      apply list_elem_of_fmap. exists m. split; [reflexivity|].
      apply subscribersOf_member, Hm.
Qed.

End SetPreferencesRequest.

(** The handler of "showClock" rejects the number 3: the stored value stays
    "false".  It accepts true: the value is stored, posted to the
    subscriber and reported to the handler. *)
Lemma C8_witness :
  w_handlersMaps prefsWorld !! "showClock" = Some booleanHandler
  /\ w_prefsDb (snd (cbSetPreferences (setShowClock (JInt 3)) prefsWorld))
       !! "showClock" = Some "false"
  /\ w_prefsDb (snd (cbSetPreferences (setShowClock (JBool true)) prefsWorld))
       !! "showClock" = Some "true"
  /\ valueChanged_call "showClock" (JBool true)
     ∈ w_out (snd (cbSetPreferences (setShowClock (JBool true)) prefsWorld))
  /\ LSMessageReply_call subscriberA (JObject [("showClock", JBool true)])
     ∈ w_out (snd (cbSetPreferences (setShowClock (JBool true)) prefsWorld)).
Proof.
  assert (Hhandler : w_handlersMaps prefsWorld !! "showClock"
                     = Some booleanHandler) by (vm_compute; reflexivity).
  assert (Hsize : Z.of_nat 1 < 2 ^ 31) by (vm_compute; reflexivity).
  destruct (@C8_setPreferences_validates_then_notifies platformA
              (setShowClock (JInt 3)) [("showClock", JInt 3)] prefsWorld
              "showClock" (JInt 3) booleanHandler eq_refl
              (NoDup_singleton "showClock") Hsize
              (list_elem_of_here _ _) Hhandler)
    as (new3 & result3 & _ & _ & Hrejected & _).
  destruct (Hrejected eq_refl) as (Hkept & _).
  destruct (@C8_setPreferences_validates_then_notifies platformA
              (setShowClock (JBool true)) [("showClock", JBool true)]
              prefsWorld "showClock" (JBool true) booleanHandler eq_refl
              (NoDup_singleton "showClock") Hsize
              (list_elem_of_here _ _) Hhandler)
    as (new & result & Hout & _ & _ & Haccepted).
  destruct (Haccepted eq_refl eq_refl) as (Hstored & Hchanged & Hposted).
  split; [exact Hhandler|].
  split; [rewrite Hkept; vm_compute; reflexivity|].
  split; [rewrite Hstored; vm_compute; reflexivity|].
  rewrite Hout. split.
  - apply elem_of_app. right. apply elem_of_app. left. exact Hchanged.
  - apply elem_of_app. right. apply elem_of_app. left.
    apply (Hposted eq_refl). apply list_elem_of_here.
Defined.

(** * Further properties of the code *)

(** ** toLocal and toUtc on every zone *)

(** X1: toLocal gives the instant plus the offset in force at it, which is the
    offset of one of the zone's local time types; it gives (time_t)-1
    exactly when [gmtime_r] refuses that sum or the sum is -1 itself. *)
Theorem toLocal_adds_the_offset_in_force (z : TimeZone) (t : time_t) :
  (toLocal z t <> TIME_INVALID ->
     toLocal z t = t + utc_offset z t
     /\ exists info, info ∈ tz_types z /\ utc_offset z t = tt_gmtoff info)
  /\ (toLocal z t = TIME_INVALID <->
      gmtime_r (t + utc_offset z t) = None \/ t + utc_offset z t = -1).
Proof.
  split.
  - intros Hvalid. destruct (toLocal_valid z t Hvalid) as [Heq _].
    split; [exact Heq|].
    exists (ttinfo_at z t). split; [apply ttinfo_at_type|reflexivity].
  - destruct (gmtime_r (t + utc_offset z t)) as [b|] eqn:Hg.
    + rewrite (toLocal_of_gmtime z t) by (rewrite Hg; eauto).
      unfold TIME_INVALID. split.
      * intros H. right. exact H.
      * intros [H|H]; [discriminate H|exact H].
    + split; [intros _; left; reflexivity|]. intros _.
      unfold toLocal, localtime_r. unfold utc_offset in Hg. rewrite Hg.
      reflexivity.
Qed.

(** X2: A local value that is the reading of some instant is read again at the
    instant toUtc answers with, also where two instants share the reading. *)
Theorem toLocal_toUtc_of_a_reading (z : TimeZone) (t local : time_t) :
  toLocal z t = local ->
  local <> TIME_INVALID ->
  toLocal z (toUtc z local) = local.
Proof.
  intros Hread Hvalid. subst local.
  destruct (toLocal_valid z t Hvalid) as [Heq Hg].
  rewrite Heq in *.
  pose proof (toUtc_reads_back z (t + utc_offset z t) t Hg eq_refl) as Hback.
  rewrite toLocal_of_gmtime; [exact Hback|].
  rewrite Hback. exact Hg.
Qed.

(** 2021-10-31 00:30 UTC, in the hour that central Europe repeats. *)
Lemma toLocal_toUtc_of_a_reading_witness :
  toLocal zoneBerlin 1635640200 = 1635647400
  /\ 1635647400 <> TIME_INVALID
  /\ toLocal zoneBerlin (toUtc zoneBerlin 1635647400) = 1635647400.
Proof.
  assert (Hread : toLocal zoneBerlin 1635640200 = 1635647400)
    by (vm_compute; reflexivity).
  assert (Hvalid : 1635647400 <> TIME_INVALID) by (vm_compute; discriminate).
  split; [exact Hread|]. split; [exact Hvalid|].
  exact (toLocal_toUtc_of_a_reading zoneBerlin 1635640200 1635647400
           Hread Hvalid).
Defined.

(** T0 in the zone two hours east of UTC. *)
Lemma toUtc_toLocal_fixedZone_witness :
  toLocal (fixedZone 7200) T0 <> TIME_INVALID
  /\ toUtc (fixedZone 7200) (toLocal (fixedZone 7200) T0) = T0.
Proof.
  assert (Hvalid : toLocal (fixedZone 7200) T0 <> TIME_INVALID)
    by (vm_compute; discriminate).
  split; [exact Hvalid|].
  exact (toUtc_toLocal_fixedZone 7200 T0 Hvalid).
Defined.

(** ** time_t arithmetic *)

Lemma wrap64_sub_wrap64 (a b : Z) :
  wrap64 (wrap64 a - wrap64 b) = wrap64 (a - b).
Proof.
  unfold wrap64. change (2 ^ 64) with 18446744073709551616.
  change (2 ^ 63) with 9223372036854775808.
  Z.div_mod_to_equations. lia.
Qed.

Section RequestedSample.
Context {P : Platform}.

(** X4: The sample handed to the tracker keeps the distance between local and
    utc of the request, also when the delay makes a value wrap around. *)
Theorem requestedSample_keeps_the_local_shift (request : JValue) :
  time_sub (snd (requestedSample request)) (fst (requestedSample request))
  = time_sub (toInteger (jget "local" request))
             (toInteger (jget "utc" request)).
Proof.
  unfold requestedSample.
  destruct (isObject (jget "timestamp" request)
            && isNumber (jget "sec" (jget "timestamp" request))
            && isNumber (jget "nsec" (jget "timestamp" request)));
    cbn [fst snd]; [|reflexivity].
  unfold time_sub, time_add. rewrite wrap64_sub_wrap64.
  f_equal. lia.
Qed.

End RequestedSample.

(** ** The mode predicates together *)

Section ModePredicates.
Context {P : Platform}.

Lemma testbit_land_3 (s n : Z) :
  0 <= n < 2 -> Z.testbit (Z.land s 3) n = Z.testbit s n.
Proof.
  intros Hn. rewrite Z.land_spec.
  assert (Hcase : n = 0 \/ n = 1) by lia.
  destruct Hcase as [-> | ->]; cbn [Z.testbit]; apply andb_true_r.
Qed.

(** X5: The predicates read the two low bits of the setting and nothing else of
    it; with NITZ disabled, and whenever the daemon is in manual mode, the
    system clock is the effective time source; the broadcast time is the
    effective source only with the time-sync bit set and a sample
    available. *)
Theorem mode_predicates_read_two_bits (h : TimePrefsHandler) :
  let h3 := set_m_nitzSetting (Z.land (m_nitzSetting h) 3) h in
  (isManualTimeUsed h3 = isManualTimeUsed h
   /\ isNITZTimeEnabled h3 = isNITZTimeEnabled h
   /\ isNITZTZEnabled h3 = isNITZTZEnabled h
   /\ isNITZDisabled h3 = isNITZDisabled h
   /\ isSystemTimeBroadcastEffective h3 = isSystemTimeBroadcastEffective h)
  /\ (isNITZDisabled h = true -> isSystemTimeBroadcastEffective h = true)
  /\ (isManualTimeUsed h = true -> isSystemTimeBroadcastEffective h = true)
  /\ (isSystemTimeBroadcastEffective h = false ->
        isNITZTimeEnabled h = true
        /\ BroadcastTime_avail (m_broadcastTime h) = true)
  /\ (m_nitzTimeZoneAvailable h = false -> isNITZTZEnabled h = false).
Proof.
  cbv zeta.
  unfold isSystemTimeBroadcastEffective, isNITZDisabled, isNITZTZEnabled,
    isNITZTimeEnabled, isManualTimeUsed.
  cbn [set_m_nitzSetting m_nitzSetting m_nitzTimeZoneAvailable m_broadcastTime].
  rewrite !truth_land_TimeEnable, !truth_land_TZEnable.
  rewrite !testbit_land_3 by lia.
  set (time_bit := Z.testbit (m_nitzSetting h) 0).
  set (zone_bit := Z.testbit (m_nitzSetting h) 1).
  split; [repeat split|].
  split; [destruct time_bit, zone_bit; cbn; congruence|].
  split; [destruct time_bit; cbn; congruence|].
  split.
  - destruct time_bit; cbn; [|discriminate].
    intros H. apply negb_false_iff in H. split; [reflexivity|exact H].
  - intros ->. apply andb_false_r.
Qed.

End ModePredicates.

(** ** answerEffectiveBroadcastTime: what it reads and what it answers *)

Section EffectiveAnswer.
Context {P : Platform}.

Lemma answer_uses_broadcast_sample (h : TimePrefsHandler) (bt : BroadcastTime)
    (answer : JValue) (w : World) (utc local : time_t) :
  isSystemTimeBroadcastEffective h = false ->
  BroadcastTime_get bt = Some (utc, local) ->
  fst (answerEffectiveBroadcastTime answer h bt w) =
    if local =? TIME_INVALID then
      (false, put "errorText" (JString "Failed to get localtime")
                  (put "errorCode" (JInt (-1)) answer))
    else
      (true, addLocalTime
               (put "timestamp" timestampJson
                  (put "local" (JInt local)
                     (put "adjustedUtc" (JInt (toUtc TZ local)) answer)))
               local).
Proof.
  intros Heff Hget. unfold answerEffectiveBroadcastTime. run_monad.
  rewrite Heff, Hget. cbn. destruct (local =? TIME_INVALID); reflexivity.
Qed.

Lemma answerEffectiveBroadcastTime_object (h : TimePrefsHandler)
    (bt : BroadcastTime) (answer : JValue) (w : World) :
  isObject answer = true ->
  isObject (snd (fst (answerEffectiveBroadcastTime answer h bt w))) = true.
Proof.
  intros Hobj.
  destruct (isSystemTimeBroadcastEffective h) eqn:Heff;
    [|destruct (BroadcastTime_get bt) as [[utc local]|] eqn:Hget].
  - rewrite answer_uses_system_clock.
    + cbv zeta. destruct (_ =? TIME_INVALID); cbn [snd];
        repeat (apply put_object || apply addLocalTime_object); exact Hobj.
    + unfold isSystemTimeBroadcastEffective in Heff.
      apply orb_true_iff in Heff as [H|H]; [left; exact H|].
      right. left. apply negb_true_iff, H.
  - rewrite (answer_uses_broadcast_sample _ _ _ _ _ _ Heff Hget).
    destruct (_ =? TIME_INVALID); cbn [snd];
      repeat (apply put_object || apply addLocalTime_object); exact Hobj.
  - rewrite answer_uses_system_clock by (right; right; exact Hget).
    cbv zeta. destruct (_ =? TIME_INVALID); cbn [snd];
      repeat (apply put_object || apply addLocalTime_object); exact Hobj.
Qed.

(** X6: answerEffectiveBroadcastTime makes no call and changes nothing of the
    daemon's state; it reads the system clock once when the system time is
    the answer, and not at all when the broadcast sample is. *)
Theorem answerEffectiveBroadcastTime_only_reads (answer : JValue)
    (h : TimePrefsHandler) (bt : BroadcastTime) (w : World) :
  let systemTimeUsed :=
    isSystemTimeBroadcastEffective h
    || match BroadcastTime_get bt with None => true | Some _ => false end in
  snd (answerEffectiveBroadcastTime answer h bt w) =
    (if systemTimeUsed then w_tick w else w).
Proof.
  cbv zeta. unfold answerEffectiveBroadcastTime. run_monad.
  destruct (isSystemTimeBroadcastEffective h); cbn [orb].
  - cbn. destruct (_ =? TIME_INVALID); reflexivity.
  - destruct (BroadcastTime_get bt) as [[utc local]|].
    + cbn. destruct (local =? TIME_INVALID); reflexivity.
    + cbn. destruct (_ =? TIME_INVALID); reflexivity.
Qed.

(** X7: In every successful answer local is not (time_t)-1, and, when
    [gmtime_r] accepts it, local is adjustedUtc plus the offset of one of
    the local time types of the configured zone. *)
Theorem effective_answer_is_a_zone_offset_apart
    (members : list (string * JValue)) (h : TimePrefsHandler)
    (bt : BroadcastTime) (w : World) :
  let r := fst (answerEffectiveBroadcastTime (JObject members) h bt w) in
  fst r = true ->
  exists adjustedUtc local,
    jget "adjustedUtc" (snd r) = JInt adjustedUtc
    /\ jget "local" (snd r) = JInt local
    /\ local <> TIME_INVALID
    /\ (is_Some (gmtime_r local) ->
        exists info, info ∈ tz_types TZ
                     /\ local = adjustedUtc + tt_gmtoff info).
Proof.
  cbv zeta.
  assert (Hsystem :
    isManualTimeUsed h = true
    \/ BroadcastTime_avail (m_broadcastTime h) = false
    \/ BroadcastTime_get bt = None ->
    fst (fst (answerEffectiveBroadcastTime (JObject members) h bt w)) = true ->
    exists adjustedUtc local,
      jget "adjustedUtc"
        (snd (fst (answerEffectiveBroadcastTime (JObject members) h bt w)))
      = JInt adjustedUtc
      /\ jget "local"
           (snd (fst (answerEffectiveBroadcastTime (JObject members) h bt w)))
         = JInt local
      /\ local <> TIME_INVALID
      /\ (is_Some (gmtime_r local) ->
          exists info, info ∈ tz_types TZ
                       /\ local = adjustedUtc + tt_gmtoff info)).
  { intros Hcase. rewrite (answer_uses_system_clock _ _ _ _ Hcase). cbv zeta.
    set (s := clockReading (w_clockReadings w)).
    destruct (toLocal TZ s =? TIME_INVALID) eqn:Hlocal; cbn [fst snd];
      [discriminate|]. intros _.
    apply Z.eqb_neq in Hlocal.
    exists s, (toLocal TZ s).
    split; [|split; [|split; [exact Hlocal|]]].
    - rewrite jget_put_ne, jget_addLocalTime, !jget_put_ne by discriminate.
      apply jget_put_eq. reflexivity.
    - rewrite jget_put_ne, jget_addLocalTime, jget_put_ne by discriminate.
      apply jget_put_eq. reflexivity.
    - intros _. destruct (toLocal_valid TZ s Hlocal) as [Heq _].
      exists (ttinfo_at TZ s). split; [apply ttinfo_at_type|exact Heq]. }
  destruct (isSystemTimeBroadcastEffective h) eqn:Heff;
    [|destruct (BroadcastTime_get bt) as [[utc local]|] eqn:Hget].
  - apply Hsystem. unfold isSystemTimeBroadcastEffective in Heff.
    apply orb_true_iff in Heff as [H|H]; [left; exact H|].
    right. left. apply negb_true_iff, H.
  - rewrite (answer_uses_broadcast_sample _ _ _ _ _ _ Heff Hget).
    destruct (local =? TIME_INVALID) eqn:Hlocal; cbn [fst snd];
      [discriminate|]. intros _.
    apply Z.eqb_neq in Hlocal.
    exists (toUtc TZ local), local.
    split; [|split; [|split; [exact Hlocal|]]].
    + rewrite jget_addLocalTime, !jget_put_ne by discriminate.
      apply jget_put_eq. reflexivity.
    + rewrite jget_addLocalTime, jget_put_ne by discriminate.
      apply jget_put_eq. reflexivity.
    + intros Hg. rewrite (toUtc_valid TZ local Hg).
      destruct (filter (fun i => reads_as TZ local i = true) (tz_types TZ))
        as [|info rest] eqn:Hf.
      * exists (tz_first TZ). split; [apply list_elem_of_here|lia].
      * exists info. split; [|lia].
        assert (Hin : info ∈ filter (fun i => reads_as TZ local i = true)
                                    (tz_types TZ))
          by (rewrite Hf; apply list_elem_of_here).
        apply list_elem_of_filter in Hin as [_ Hin]. exact Hin.
  - apply Hsystem. right. right. reflexivity.
Qed.

End EffectiveAnswer.

(** The sample (T0 + 1, T0 + 3601) under the zone two hours east. *)
Lemma effective_answer_is_a_zone_offset_apart_witness :
  fst (fst (answerEffectiveBroadcastTime (JObject []) automaticSample
              (m_broadcastTime automaticSample) (worldOf automaticSample)))
  = true
  /\ exists adjustedUtc local,
       jget "adjustedUtc"
         (snd (fst (answerEffectiveBroadcastTime (JObject []) automaticSample
                      (m_broadcastTime automaticSample)
                      (worldOf automaticSample))))
       = JInt adjustedUtc
       /\ jget "local"
            (snd (fst (answerEffectiveBroadcastTime (JObject []) automaticSample
                         (m_broadcastTime automaticSample)
                         (worldOf automaticSample))))
          = JInt local
       /\ local <> TIME_INVALID
       /\ (is_Some (gmtime_r local) ->
           exists info, info ∈ tz_types zonePlus2
                        /\ local = adjustedUtc + tt_gmtoff info).
Proof.
  assert (Hok :
    fst (fst (answerEffectiveBroadcastTime (JObject []) automaticSample
                (m_broadcastTime automaticSample) (worldOf automaticSample)))
    = true) by (vm_compute; reflexivity).
  split; [exact Hok|].
  exact (@effective_answer_is_a_zone_offset_apart platformA [] automaticSample
           (m_broadcastTime automaticSample) (worldOf automaticSample) Hok).
Defined.

(** ** cbGetEffectiveBroadcastTime *)

Section GetEffectiveBroadcastTime.
Context {P : Platform}.

Lemma cbGetEffectiveBroadcastTime_accepted (message : LSMessage)
    (request : JValue) (w : World) :
  parser_accepts schemaSubscribeRequest (msg_payload message) = Some request ->
  cbGetEffectiveBroadcastTime message w =
    let h := w_timePrefsHandler w in
    let r := answerEffectiveBroadcastTime (JObject []) h (m_broadcastTime h) w in
    if fst (fst r) then
      let answer :=
        put "timestamp" timestampJson
            (put "returnValue" (JBool true) (snd (fst r))) in
      if asBool (jget "subscribe" request) then
        let subscribed := LSSubscriptionAdd effectiveBroadcastKey message in
        reply message (put "subscribed" (JBool subscribed) answer)
              schemaGetBroadcastTimeReply
              (if subscribed
               then w_subscribe effectiveBroadcastKey message (snd r)
               else snd r)
      else reply message answer schemaGetBroadcastTimeReply (snd r)
    else
      reply message (put "returnValue" (JBool false) (snd (fst r)))
            schemaGeneric (snd r).
Proof.
  intros Hparse. unfold cbGetEffectiveBroadcastTime.
  unfold bind at 1. unfold gets at 1. unfold bind at 1.
  rewrite parser_parse_run, Hparse. cbv zeta. unfold bind at 1.
  destruct (answerEffectiveBroadcastTime (JObject []) (w_timePrefsHandler w)
              (m_broadcastTime (w_timePrefsHandler w)) w) as [[ok answer] w1].
  cbn [fst snd]. destruct ok; cbn [negb]; [|reflexivity].
  destruct (asBool (jget "subscribe" request)); [|reflexivity].
  destruct (LSSubscriptionAdd effectiveBroadcastKey message); reflexivity.
Qed.

(** X8: On a valid getEffectiveBroadcastTime request the requester is added
    to the subscribers of the effective time exactly when the answer
    succeeded, the request asked for it with subscribe = true and the bus
    accepted the subscription; nobody else is added and nobody is removed,
    and this is done before, and whether or not, a reply is sent.  The
    handler builds one answer, with returnValue true exactly when the answer
    succeeded and with the bus's verdict as subscribed when a subscription
    was asked for.  If the serializer accepts the answer (against the
    schema of the reply after success, the generic schema otherwise) the
    reply carrying it is sent; if it refuses it, no reply is sent and the
    handler returns false, the requester staying subscribed. *)
Theorem cbGetEffectiveBroadcastTime_subscribes_the_requester
    (message : LSMessage) (request : JValue) (w : World) :
  parser_accepts schemaSubscribeRequest (msg_payload message) = Some request ->
  let h := w_timePrefsHandler w in
  let r := answerEffectiveBroadcastTime (JObject []) h (m_broadcastTime h) w in
  let ok := fst (fst r) in
  let wanted := asBool (jget "subscribe" request) in
  let subscribed := LSSubscriptionAdd effectiveBroadcastKey message in
  let w1 := if ok && wanted && subscribed
            then w_subscribe effectiveBroadcastKey message (snd r)
            else snd r in
  let answer :=
    if ok then
      let a := put "timestamp" timestampJson
                   (put "returnValue" (JBool true) (snd (fst r))) in
      if wanted then put "subscribed" (JBool subscribed) a else a
    else put "returnValue" (JBool false) (snd (fst r)) in
  let schema := if ok then schemaGetBroadcastTimeReply else schemaGeneric in
  w_subscriptions w1 =
    (if ok && wanted && subscribed
     then w_subscriptions w ++ [(effectiveBroadcastKey, message)]
     else w_subscriptions w)
  /\ w_timePrefsHandler w1 = w_timePrefsHandler w
  /\ w_prefsDb w1 = w_prefsDb w
  /\ w_out w1 = w_out w
  /\ jget "returnValue" answer = JBool ok
  /\ (ok = true -> wanted = true ->
      jget "subscribed" answer = JBool subscribed)
  /\ (JGenerator_toString answer schema = true ->
      cbGetEffectiveBroadcastTime message w
      = (LSMessageReply message answer,
         w_emit [LSMessageReply_call message answer] w1))
  /\ (JGenerator_toString answer schema = false ->
      cbGetEffectiveBroadcastTime message w = (false, w1)).
Proof.
  intros Hparse h r ok wanted subscribed w1 answer schema.
  rewrite (cbGetEffectiveBroadcastTime_accepted _ _ _ Hparse). cbv zeta.
  fold h. fold r. fold ok. fold wanted. fold subscribed.
  pose proof (answerEffectiveBroadcastTime_keeps (JObject []) h
                (m_broadcastTime h) w) as (Hout & Hsubs & Hh & Hdb).
  cbv zeta in Hout, Hsubs, Hh, Hdb. fold r in Hout, Hsubs, Hh, Hdb.
  pose proof (answerEffectiveBroadcastTime_object h (m_broadcastTime h)
                (JObject []) w eq_refl) as Hobj.
  fold r in Hobj.
  subst w1 answer schema. rewrite !reply_run.
  destruct ok; cbn [andb].
  - destruct wanted; cbn [andb].
    + destruct subscribed; unfold w_subscribe;
        cbn [w_subscriptions w_timePrefsHandler w_prefsDb w_out];
        rewrite ?Hsubs;
        (do 4 (split; [first [reflexivity | assumption]|]));
        (split; [rewrite !jget_put_ne by discriminate;
                 apply jget_put_eq; exact Hobj|]);
        (split; [intros _ _; apply jget_put_eq;
                 repeat apply put_object; exact Hobj|]);
        (split; intros ->; reflexivity).
    + do 4 (split; [first [reflexivity | assumption]|]).
      split; [rewrite jget_put_ne by discriminate;
              apply jget_put_eq; exact Hobj|].
      split; [intros _ H; discriminate H|].
      split; intros ->; reflexivity.
  - do 4 (split; [first [reflexivity | assumption]|]).
    split; [apply jget_put_eq; exact Hobj|].
    split; [intros H; discriminate H|].
    split; intros ->; reflexivity.
Qed.

(** X9: Every message to getBroadcastTime, valid or not, is answered with at
    most one reply to its sender, and nothing of the daemon's state, the
    clock readings included, changes. *)
Theorem cbGetBroadcastTime_only_replies (message : LSMessage) (w : World) :
  exists new,
    snd (cbGetBroadcastTime message w) = w_emit new w
    /\ (new = [] \/ exists payload, new = [LSMessageReply_call message payload]).
Proof.
  destruct (parser_accepts schemaEmptyObject (msg_payload message))
    as [request|] eqn:Hparse.
  - rewrite (cbGetBroadcastTime_accepted _ _ _ Hparse).
    destruct (BroadcastTime_get (m_broadcastTime (w_timePrefsHandler w)))
      as [[utc local]|]; rewrite reply_out; eexists; (split; [reflexivity|]);
      destruct (JGenerator_toString _ _); eauto.
  - unfold cbGetBroadcastTime. run_monad.
    rewrite parser_parse_run, Hparse. eexists. split; [reflexivity|].
    right. eauto.
Qed.

End GetEffectiveBroadcastTime.

(** A request with subscribe = true, answered from the sample
    (T0 + 1, T0 + 3601): the requester is subscribed and answered.  With
    the sample (T0, LAST_SECOND_OF_1899) under a serializer that enforces
    the schema: the requester is subscribed and gets no reply. *)
Lemma cbGetEffectiveBroadcastTime_subscribes_the_requester_witness :
  (exists answer,
     cbGetEffectiveBroadcastTime subscriberA
       (mk_World automaticSample 0 [] ∅ ∅ [])
     = (true,
        mk_World automaticSample 0 [(effectiveBroadcastKey, subscriberA)] ∅ ∅
                 [LSMessageReply_call subscriberA answer])
     /\ jget "returnValue" answer = JBool true
     /\ jget "subscribed" answer = JBool true)
  /\ cbGetEffectiveBroadcastTime subscriberA
       (mk_World strictSample1899 0 [] ∅ ∅ [])
     = (false,
        mk_World strictSample1899 0 [(effectiveBroadcastKey, subscriberA)]
                 ∅ ∅ []).
Proof.
  split.
  - destruct (@cbGetEffectiveBroadcastTime_subscribes_the_requester platformA
                subscriberA (JObject [("subscribe", JBool true)])
                (mk_World automaticSample 0 [] ∅ ∅ []) eq_refl)
      as (_ & _ & _ & _ & Hreturn & Hsubscribed & Hsent & _).
    eexists. split; [|split; [exact Hreturn|]].
    + rewrite (Hsent ltac:(vm_compute; reflexivity)). vm_compute. reflexivity.
    + apply Hsubscribed; vm_compute; reflexivity.
  - destruct (@cbGetEffectiveBroadcastTime_subscribes_the_requester
                platformStrict subscriberA (JObject [("subscribe", JBool true)])
                (mk_World strictSample1899 0 [] ∅ ∅ []) eq_refl)
      as (_ & _ & _ & _ & _ & _ & _ & Hrefused).
    rewrite (Hrefused ltac:(vm_compute; reflexivity)). vm_compute. reflexivity.
Defined.

(** ** A subscriber and the next setBroadcastTime *)

Section SubscriberAndSetBroadcastTime.
Context {P : Platform}.

(** cbSetBroadcastTime outside manual mode, when the sample is stored. *)
Lemma cbSetBroadcastTime_automatic_run (message : LSMessage) (request : JValue)
    (w : World) :
  parser_accepts schemaSetBroadcastTime (msg_payload message) = Some request ->
  let sample := requestedSample request in
  let s := BroadcastTime_set (m_broadcastTime (w_timePrefsHandler w))
                             (fst sample) (snd sample) currentStamp in
  fst s = true ->
  isManualTimeUsed (w_timePrefsHandler w) = false ->
  let h' := set_m_broadcastTime (snd s) (w_timePrefsHandler w) in
  let w1 := w_set_timePrefsHandler h' (w_tick (w_tick w)) in
  let r := answerEffectiveBroadcastTime (JObject []) h' (m_broadcastTime h') w1 in
  snd (cbSetBroadcastTime message w) =
    w_emit (if JGenerator_toString (createJsonReply true 0 None) schemaGeneric
            then [LSMessageReply_call message (createJsonReply true 0 None)]
            else [])
      (w_emit
         [deprecatedClockChange_fire
            (time_sub (toUtc TZ (snd sample)) (clockReading (S (w_clockReadings w))))
            "broadcast-adjusted" (clockReading (w_clockReadings w));
          deprecatedClockChange_fire
            (time_sub (fst sample) (clockReading (w_clockReadings w)))
            "broadcast" (clockReading (w_clockReadings w))]
         (w_emit
            (if fst (fst r) && JGenerator_toString (snd (fst r)) schemaGeneric
             then [LSSubscriptionReply_call effectiveBroadcastKey (snd (fst r))]
             else [])
            (snd r))).
Proof.
  intros Hparse sample s Hstored Hauto h' w1 r.
  rewrite (cbSetBroadcastTime_accepted _ _ _ Hparse). cbv zeta.
  fold sample. fold s. rewrite Hstored. fold h'.
  unfold h' at 1. rewrite isManualTimeUsed_set_m_broadcastTime, Hauto.
  fold w1. rewrite reply_out, postBroadcastEffectiveTimeChange_run.
  cbv zeta. cbn [snd].
  change (w_timePrefsHandler w1) with h'. fold r.
  destruct (fst (fst r) && JGenerator_toString (snd (fst r)) schemaGeneric);
    [reflexivity|].
  rewrite (w_emit_nil (snd r)). reflexivity.
Qed.

(** X11: A requester whom getEffectiveBroadcastTime subscribed is on the
    subscription list of the effective time when a following
    setBroadcastTime comes in.  When that request is stored outside manual
    mode, the handler sends one push under that key, carrying the effective
    time recomputed from the new sample, exactly when the recomputed answer
    succeeds (its local value is not (time_t)-1) and serializes; otherwise
    it sends no push.  The push comes before the two firings of the
    clock-change signal and the reply. *)
Theorem subscriber_receives_the_next_broadcast_change
    (subscriber setter : LSMessage) (asked request : JValue) (w : World) :
  parser_accepts schemaSubscribeRequest (msg_payload subscriber) = Some asked ->
  asBool (jget "subscribe" asked) = true ->
  LSSubscriptionAdd effectiveBroadcastKey subscriber = true ->
  fst (fst (answerEffectiveBroadcastTime (JObject []) (w_timePrefsHandler w)
              (m_broadcastTime (w_timePrefsHandler w)) w)) = true ->
  let w1 := snd (cbGetEffectiveBroadcastTime subscriber w) in
  parser_accepts schemaSetBroadcastTime (msg_payload setter) = Some request ->
  let sample := requestedSample request in
  let s := BroadcastTime_set (m_broadcastTime (w_timePrefsHandler w1))
                             (fst sample) (snd sample) currentStamp in
  fst s = true ->
  isManualTimeUsed (w_timePrefsHandler w1) = false ->
  let h' := set_m_broadcastTime (snd s) (w_timePrefsHandler w1) in
  let a := fst (answerEffectiveBroadcastTime (JObject []) h'
                  (m_broadcastTime h')
                  (w_set_timePrefsHandler h' (w_tick (w_tick w1)))) in
  let w2 := snd (cbSetBroadcastTime setter w1) in
  (effectiveBroadcastKey, subscriber) ∈ w_subscriptions w1
  /\ w_out w2 =
       w_out w1
       ++ (if fst a && JGenerator_toString (snd a) schemaGeneric
           then [LSSubscriptionReply_call effectiveBroadcastKey (snd a)]
           else [])
       ++ [deprecatedClockChange_fire
             (time_sub (toUtc TZ (snd sample))
                       (clockReading (S (w_clockReadings w1))))
             "broadcast-adjusted" (clockReading (w_clockReadings w1));
           deprecatedClockChange_fire
             (time_sub (fst sample) (clockReading (w_clockReadings w1)))
             "broadcast" (clockReading (w_clockReadings w1))]
       ++ (if JGenerator_toString (createJsonReply true 0 None) schemaGeneric
           then [LSMessageReply_call setter (createJsonReply true 0 None)]
           else []).
Proof.
  intros Hasked Hwanted Hadd Hok w1 Hparse sample s Hstored Hauto h' a w2.
  split.
  - subst w1. rewrite (cbGetEffectiveBroadcastTime_accepted _ _ _ Hasked).
    cbv zeta. rewrite Hok, Hwanted, Hadd, reply_out.
    unfold w_emit, w_subscribe. cbn [w_subscriptions].
    apply elem_of_app. right. apply list_elem_of_here.
  - pose proof (cbSetBroadcastTime_automatic_run setter request w1 Hparse
                  Hstored Hauto) as Hrun.
    cbv zeta in Hrun. fold sample s h' in Hrun. fold a in Hrun.
    fold w2 in Hrun.
    destruct (answerEffectiveBroadcastTime_keeps (JObject []) h'
                (m_broadcastTime h')
                (w_set_timePrefsHandler h' (w_tick (w_tick w1))))
      as (Hout & _).
    cbv zeta in Hout.
    rewrite Hrun. unfold w_emit. cbn [w_out]. rewrite Hout.
    cbn [w_out w_set_timePrefsHandler w_tick].
    rewrite <- !app_assoc. reflexivity.
Qed.

End SubscriberAndSetBroadcastTime.

(** subscriberA subscribes while no sample is held; the request with
    utc = T0, local = T0 + 3600 and a timestamp is then followed by a push
    of the effective time computed from the stored sample, while the
    request with local = -1 is followed by none. *)
Lemma subscriber_receives_the_next_broadcast_change_witness :
  let w1 := snd (cbGetEffectiveBroadcastTime subscriberA
                   (mk_World automaticA 0 [] ∅ ∅ [])) in
  (effectiveBroadcastKey, subscriberA) ∈ w_subscriptions w1
  /\ (exists answer,
        w_out w1 = [LSMessageReply_call subscriberA answer]
        /\ w_out (snd (cbSetBroadcastTime requestWithTimestamp w1))
           = [LSMessageReply_call subscriberA answer;
              LSSubscriptionReply_call effectiveBroadcastKey
                                       effectiveAfterStore;
              deprecatedClockChange_fire (T0 + 3601 - 7200 - (T0 + 10))
                "broadcast-adjusted" (T0 + 10);
              deprecatedClockChange_fire (T0 + 1 - (T0 + 10)) "broadcast"
                (T0 + 10);
              LSMessageReply_call requestWithTimestamp
                (JObject [("returnValue", JBool true)])]
        /\ w_out (snd (cbSetBroadcastTime
                         (request [("utc", JInt T0); ("local", JInt (-1))])
                         w1))
           = [LSMessageReply_call subscriberA answer;
              deprecatedClockChange_fire (-1 - 7200 - (T0 + 10))
                "broadcast-adjusted" (T0 + 10);
              deprecatedClockChange_fire (T0 - (T0 + 10)) "broadcast"
                (T0 + 10);
              LSMessageReply_call
                (request [("utc", JInt T0); ("local", JInt (-1))])
                (JObject [("returnValue", JBool true)])]).
Proof.
  cbv zeta.
  pose proof (@subscriber_receives_the_next_broadcast_change platformA
                subscriberA requestWithTimestamp
                (JObject [("subscribe", JBool true)])
                (JObject [("utc", JInt T0); ("local", JInt (T0 + 3600));
                          ("timestamp",
                           JObject [("source", JString "monotonic");
                                    ("sec", JInt 498); ("nsec", JInt 0)])])
                (mk_World automaticA 0 [] ∅ ∅ [])) as H.
  cbv zeta in H.
  specialize (H ltac:(vm_compute; reflexivity) ltac:(vm_compute; reflexivity)
                ltac:(vm_compute; reflexivity) ltac:(vm_compute; reflexivity)
                ltac:(vm_compute; reflexivity) ltac:(vm_compute; reflexivity)
                ltac:(vm_compute; reflexivity)).
  destruct H as (Hsubscribed & Hpushed).
  pose proof (@subscriber_receives_the_next_broadcast_change platformA
                subscriberA (request [("utc", JInt T0); ("local", JInt (-1))])
                (JObject [("subscribe", JBool true)])
                (JObject [("utc", JInt T0); ("local", JInt (-1))])
                (mk_World automaticA 0 [] ∅ ∅ [])) as H.
  cbv zeta in H.
  specialize (H ltac:(vm_compute; reflexivity) ltac:(vm_compute; reflexivity)
                ltac:(vm_compute; reflexivity) ltac:(vm_compute; reflexivity)
                ltac:(vm_compute; reflexivity) ltac:(vm_compute; reflexivity)
                ltac:(vm_compute; reflexivity)).
  destruct H as (_ & Hsilent).
  split; [exact Hsubscribed|].
  eexists. split; [vm_compute; reflexivity|].
  split.
  - rewrite Hpushed. vm_compute. reflexivity.
  - rewrite Hsilent. vm_compute. reflexivity.
Defined.

(** ** The schema of /time/setBroadcastTime *)

Section SetBroadcastTimeSchema.
Context {P : Platform}.

(** X12: The requests that cbSetBroadcastTime goes on with are exactly the JSON
    objects that have utc and local, both integers, and beside them at most
    a timestamp that fits the timestamp schema; every other payload (none,
    no JSON, no object, a missing or non-integer utc or local, any other
    member) is left to the parser's failure reply. *)
Theorem schemaSetBroadcastTime_accepts_exactly (p : Payload) (request : JValue) :
  parser_accepts schemaSetBroadcastTime p = Some request <->
  exists members,
    p = PayloadText (Some (JObject members))
    /\ request = JObject members
    /\ (forall k x, (k, x) ∈ members ->
          (k = "utc" /\ isInteger x = true)
          \/ (k = "local" /\ isInteger x = true)
          \/ (k = "timestamp" /\ SCHEMA_TIMESTAMP x = true))
    /\ hasKey "utc" request = true
    /\ hasKey "local" request = true.
Proof.
  assert (Hmember : forall k x,
            member_ok (schemaOf schemaSetBroadcastTime) (k, x) = true <->
            (k = "utc" /\ isInteger x = true)
            \/ (k = "local" /\ isInteger x = true)
            \/ (k = "timestamp" /\ SCHEMA_TIMESTAMP x = true)).
  { intros k x. unfold member_ok.
    cbn [fst snd schemaOf os_properties os_additionalProperties assoc].
    destruct (String.eqb_spec "utc" k) as [<-|H1].
    - split; [auto|]. intros [[_ H]|[[H _]|[H _]]]; [exact H|discriminate H..].
    - destruct (String.eqb_spec "local" k) as [<-|H2].
      + split; [auto|].
        intros [[H _]|[[_ H]|[H _]]]; [discriminate H|exact H|discriminate H].
      + destruct (String.eqb_spec "timestamp" k) as [<-|H3].
        * split; [auto|].
          intros [[H _]|[[H _]|[_ H]]]; [discriminate H..|exact H].
        * split; [discriminate|].
          intros [[H _]|[[H _]|[H _]]]; congruence. }
  split.
  - destruct p as [|[v|]]; cbn [parser_accepts]; try discriminate.
    destruct (validates (schemaOf schemaSetBroadcastTime) v) eqn:Hv;
      [|discriminate].
    intros [= <-]. destruct v as [| | | | | |members]; try discriminate Hv.
    cbn [validates] in Hv. apply andb_true_iff in Hv as [Hall Hreq].
    cbn [schemaOf os_required forallb] in Hreq.
    apply andb_true_iff in Hreq as [Hutc Hreq].
    apply andb_true_iff in Hreq as [Hlocal _].
    exists members. do 2 (split; [reflexivity|]).
    split; [|split; assumption].
    intros k x Hin. apply Hmember.
    rewrite forallb_forall in Hall. apply Hall, list_elem_of_In, Hin.
  - intros (members & -> & -> & Hall & Hutc & Hlocal).
    cbn [parser_accepts].
    enough (validates (schemaOf schemaSetBroadcastTime) (JObject members) = true)
      as -> by reflexivity.
    cbn [validates]. apply andb_true_iff. split.
    + apply forallb_forall. intros [k x] Hin. apply Hmember, Hall.
      apply list_elem_of_In, Hin.
    + cbn [schemaOf os_required forallb]. rewrite Hutc, Hlocal. reflexivity.
Qed.

End SetBroadcastTimeSchema.

(** ** PrefsFactory: registration and lookup of the handlers *)

Section RegisterPrefHandler.
Context {P : Platform}.

Lemma registerPrefHandler_run (handler : PrefsHandler) (keys : list string) :
  forall w : World,
  registerPrefHandler handler keys w =
    (tt, w_set_handlersMaps
           (fold_left (fun hm key => <[key := handler]> hm) keys
                      (w_handlersMaps w)) w).
Proof.
  unfold registerPrefHandler.
  induction keys as [|key rest IH]; intros w.
  - destruct w. reflexivity.
  - cbn [forEach fold_left]. unfold bind, modify_handlersMaps at 1.
    rewrite IH. destruct w. reflexivity.
Qed.

Lemma fold_insert_lookup (handler : PrefsHandler) (keys : list string)
    (key : string) :
  forall hm : gmap string PrefsHandler,
  fold_left (fun hm key => <[key := handler]> hm) keys hm !! key =
    if bool_decide (key ∈ keys) then Some handler else hm !! key.
Proof.
  induction keys as [|k rest IH]; intros hm.
  - reflexivity.
  - cbn [fold_left]. rewrite IH.
    destruct (decide (key ∈ rest)) as [Hin|Hnot].
    + rewrite !bool_decide_eq_true_2; [reflexivity| |exact Hin].
      apply list_elem_of_further, Hin.
    + rewrite (bool_decide_eq_false_2 _ Hnot).
      destruct (decide (key = k)) as [->|Hne].
      * rewrite bool_decide_eq_true_2 by apply list_elem_of_here.
        apply lookup_insert_eq.
      * rewrite bool_decide_eq_false_2.
        -- apply lookup_insert_ne. congruence.
        -- intros Hin. apply elem_of_cons in Hin as [H|H]; contradiction.
Qed.

(** X13: After registerPrefHandler, getPrefsHandler finds the handler under each
    of its keys, a handler registered before under one of these keys being
    replaced, and finds what it found before under every other key; nothing
    but the table of handlers changes. *)
Theorem getPrefsHandler_after_registerPrefHandler (handler : PrefsHandler)
    (keys : list string) (key : string) (w : World) :
  let w' := snd (registerPrefHandler handler keys w) in
  fst (getPrefsHandler key w') =
    (if bool_decide (key ∈ keys) then Some handler
     else fst (getPrefsHandler key w))
  /\ w_timePrefsHandler w' = w_timePrefsHandler w
  /\ w_clockReadings w' = w_clockReadings w
  /\ w_subscriptions w' = w_subscriptions w
  /\ w_prefsDb w' = w_prefsDb w
  /\ w_out w' = w_out w.
Proof.
  cbv zeta. rewrite registerPrefHandler_run. cbn [snd].
  split; [|repeat split].
  unfold getPrefsHandler, gets. cbn [fst w_set_handlersMaps w_handlersMaps].
  apply fold_insert_lookup.
Qed.

(** ** postPrefChangeValueIsCompleteString *)

(** X14: The change of a key is sent to the messages subscribed under this key
    and to no other, each of them once per subscription, with the text it
    was given; when the subscription list cannot be acquired nothing is
    sent.  Nothing of the state changes. *)
Theorem postPrefChangeValueIsCompleteString_reaches_the_subscribers
    (keyStr : string) (json : JValue) (w : World) :
  exists new,
    snd (postPrefChangeValueIsCompleteString keyStr json w) = w_emit new w
    /\ (forall e, e ∈ new ->
          exists m, e = LSMessageReply_call m json
                    /\ (keyStr, m) ∈ w_subscriptions w)
    /\ (LSSubscriptionAcquire keyStr = true ->
          length new = length (subscribersOf keyStr (w_subscriptions w))
          /\ forall m, (keyStr, m) ∈ w_subscriptions w ->
               LSMessageReply_call m json ∈ new)
    /\ (LSSubscriptionAcquire keyStr = false -> new = []).
Proof.
  rewrite postPrefChangeValueIsCompleteString_run. cbn [snd].
  eexists. split; [reflexivity|].
  destruct (LSSubscriptionAcquire keyStr).
  - split; [|split; [|discriminate]].
    + intros e He. apply list_elem_of_fmap in He as (m & -> & Hm).
      exists m. split; [reflexivity|].
      unfold subscribersOf in Hm.
      apply list_elem_of_fmap in Hm as ([k m'] & -> & Hkm).
      apply list_elem_of_filter in Hkm as [Hk Hin]. cbn [fst snd] in *.
      apply String.eqb_eq in Hk. subst k. exact Hin.
    + intros _. split; [apply length_map|].
      intros m Hm. apply list_elem_of_fmap. exists m.
      split; [reflexivity|]. apply subscribersOf_member, Hm.
  - split; [|split; [discriminate|reflexivity]].
    intros e He. apply elem_of_nil in He. contradiction.
Qed.

End RegisterPrefHandler.

(** ** cbSetPreferences: the payloads it refuses and the keys it leaves *)

Section SetPreferencesEdges.
Context {P : Platform}.

Lemma fold_pref_locals_all_saved (handlers : gmap string PrefsHandler)
    (callerId : string) (children : list (string * JValue)) :
  forall l,
  forallb (pref_saved handlers callerId) children = true ->
  let l' := fold_left (pref_locals handlers callerId) children l in
  errcount l' = errcount l /\ (success l = true -> success l' = true).
Proof.
  induction children as [|pref rest IH]; intros l Hall; cbv zeta.
  - split; [reflexivity|auto].
  - cbn [forallb] in Hall. apply andb_true_iff in Hall as [Hpref Hrest].
    cbn [fold_left]. destruct (IH (pref_locals handlers callerId l pref) Hrest)
      as [Herr Hsucc].
    unfold pref_locals in Herr, Hsucc |- *. rewrite Hpref in *.
    cbn [errcount success] in *. split; [exact Herr|].
    intros _. apply Hsucc. reflexivity.
Qed.

Lemma fold_pref_db_unsaved (handlers : gmap string PrefsHandler)
    (callerId : string) (children : list (string * JValue)) (key : string) :
  forall db,
  (forall value, (key, value) ∈ children ->
     pref_saved handlers callerId (key, value) = false) ->
  fold_left (pref_db handlers callerId) children db !! key = db !! key.
Proof.
  induction children as [|[k v] rest IH]; intros db Hunsaved; [reflexivity|].
  cbn [fold_left]. rewrite IH.
  - unfold pref_db. cbn [fst snd].
    destruct (pref_saved handlers callerId (k, v)) eqn:Hsaved; [|reflexivity].
    apply lookup_insert_ne. intros ->.
    rewrite Hunsaved in Hsaved by apply list_elem_of_here. discriminate.
  - intros value Hin. apply Hunsaved, list_elem_of_further, Hin.
Qed.

(** X15: A payload that is missing, is not JSON or is not a JSON object is
    answered with returnValue false and the text for its case; nothing is
    stored, nobody is notified, no handler is called. *)
Theorem cbSetPreferences_refuses_what_is_no_object (message : LSMessage)
    (w : World) :
  (forall children,
     msg_payload message <> PayloadText (Some (JObject children))) ->
  cbSetPreferences message w =
    (true,
     w_emit
       [LSMessageReply_call message
          (JObject
             [("returnValue", JBool false);
              ("errorText",
               JString
                 match msg_payload message with
                 | PayloadNull => "Payload get failed, null payload"
                 | PayloadText _ => "invalid payload (should be an object)"
                 end)])]
       w).
Proof.
  intros Hno. unfold cbSetPreferences.
  destruct (msg_payload message) as [|[v|]]; [reflexivity| |reflexivity].
  destruct v; try reflexivity.
  exfalso. apply (Hno members). reflexivity.
Qed.

(** X16: The writes that cbSetPreferences itself makes to the stored
    preferences go to no key that the request does not name (what a handler
    does inside its valueChanged is not part of this statement).  Before its
    final reply it calls valueChanged only for members of the request whose
    key has a registered handler, and it sends to a subscriber only a
    member of the request under whose key the subscriber is listed. *)
Theorem cbSetPreferences_touches_only_the_named_keys (message : LSMessage)
    (children : list (string * JValue)) (w : World) :
  msg_payload message = PayloadText (Some (JObject children)) ->
  let w' := snd (cbSetPreferences message w) in
  (forall key, key ∉ map fst children ->
     w_prefsDb w' !! key = w_prefsDb w !! key)
  /\ exists new result,
       w_out w' = w_out w ++ new ++ [LSMessageReply_call message result]
       /\ forall e, e ∈ new ->
            (exists key value,
               e = valueChanged_call key value
               /\ (key, value) ∈ children
               /\ is_Some (w_handlersMaps w !! key))
            \/ (exists key value m,
                  e = LSMessageReply_call m (JObject [(key, value)])
                  /\ (key, value) ∈ children
                  /\ (key, m) ∈ w_subscriptions w).
Proof.
  intros Hpayload w'. subst w'.
  rewrite (cbSetPreferences_object _ _ _ Hpayload). cbv zeta. cbn [snd].
  unfold w_emit, w_set_prefsDb. cbn [w_prefsDb w_out].
  split; [intros key Hkey; apply fold_pref_db_other, Hkey|].
  eexists. eexists. split; [reflexivity|].
  intros e He.
  apply list_elem_of_In, in_flat_map in He as ([k v] & Hkv & Hev).
  apply list_elem_of_In in Hkv.
  unfold pref_calls in Hev.
  destruct (pref_saved _ _ (k, v)); [|contradiction].
  apply in_app_or in Hev as [Hpost|Hchanged].
  - right. unfold pref_posts in Hpost. cbn [fst snd] in Hpost.
    destruct (LSSubscriptionAcquire k); [|contradiction].
    apply in_map_iff in Hpost as (m & <- & Hm).
    exists k, v, m. split; [reflexivity|]. split; [exact Hkv|].
    apply list_elem_of_In in Hm. unfold subscribersOf in Hm.
    apply list_elem_of_fmap in Hm as ([k' m'] & -> & Hkm).
    apply list_elem_of_filter in Hkm as [Hk Hin]. cbn [fst snd] in *.
    apply String.eqb_eq in Hk. subst k'. exact Hin.
  - left. cbn [fst snd] in Hchanged.
    destruct (w_handlersMaps w !! k) eqn:Hh; [|contradiction].
    destruct Hchanged as [<-|[]].
    exists k, v. split; [reflexivity|]. split; [exact Hkv|]. eauto.
Qed.

(** X17: A key without a registered handler is stored without any validation,
    whatever the value and whoever the caller, as soon as the write
    succeeds; its subscribers are sent the change, and valueChanged is
    called for it on no handler. *)
Theorem cbSetPreferences_stores_unhandled_keys_unchecked
    (message : LSMessage) (children : list (string * JValue)) (w : World)
    (key : string) (value : JValue) :
  msg_payload message = PayloadText (Some (JObject children)) ->
  NoDup (map fst children) ->
  (key, value) ∈ children ->
  w_handlersMaps w !! key = None ->
  let w' := snd (cbSetPreferences message w) in
  exists new result,
    w_out w' = w_out w ++ new ++ [LSMessageReply_call message result]
    /\ w_prefsDb w' !! key =
         (if PrefsDb_write key (stringify value) then Some (stringify value)
          else w_prefsDb w !! key)
    /\ (forall v, valueChanged_call key v ∉ new)
    /\ (PrefsDb_write key (stringify value) = true ->
        LSSubscriptionAcquire key = true ->
        forall m, (key, m) ∈ w_subscriptions w ->
          LSMessageReply_call m (JObject [(key, value)]) ∈ new).
Proof.
  intros Hpayload Hnodup Hin Hnone w'. subst w'.
  rewrite (cbSetPreferences_object _ _ _ Hpayload). cbv zeta. cbn [snd].
  unfold w_emit, w_set_prefsDb. cbn [w_prefsDb w_out].
  set (callerId := default "" (msg_applicationID message)).
  assert (Hsaved : pref_saved (w_handlersMaps w) callerId (key, value)
                   = PrefsDb_write key (stringify value)).
  { unfold pref_saved. cbn [fst snd]. rewrite Hnone. reflexivity. }
  eexists. eexists. split; [reflexivity|].
  split; [|split].
  - rewrite (fold_pref_db_member _ _ _ _ _ _ Hnodup Hin), Hsaved. reflexivity.
  - intros v Hcall.
    apply list_elem_of_In, in_flat_map in Hcall as ([k x] & _ & Hev).
    unfold pref_calls in Hev.
    destruct (pref_saved _ _ (k, x)); [|contradiction].
    apply in_app_or in Hev as [Hpost|Hchanged].
    + unfold pref_posts in Hpost. destruct (LSSubscriptionAcquire _);
        [|contradiction].
      apply in_map_iff in Hpost as (m & Hm & _). discriminate Hm.
    + cbn [fst snd] in Hchanged.
      destruct (w_handlersMaps w !! k) eqn:Hk; [|contradiction].
      destruct Hchanged as [Heq|[]]. injection Heq as -> _. congruence.
  - intros Hwrite Hacquire m Hm.
    apply (pref_calls_member _ _ _ _ (key, value)); [exact Hin|].
    unfold pref_calls. rewrite Hsaved, Hwrite.
    apply elem_of_app. left. unfold pref_posts. cbn [fst snd].
    rewrite Hacquire.
    apply list_elem_of_fmap. exists m. split; [reflexivity|].
    apply subscribersOf_member, Hm.
Qed.

(** X18: The reply of a setPreferences request says returnValue true exactly
    when every member was saved (so for the empty object), and otherwise
    "Some settings could not be saved"; it is the last call made.  Nothing
    is rolled back: whatever the reply, each key of the request holds its
    new value if its member was saved and its old value if not. *)
Theorem cbSetPreferences_reply_counts_every_member (message : LSMessage)
    (children : list (string * JValue)) (w : World) :
  msg_payload message = PayloadText (Some (JObject children)) ->
  Z.of_nat (length children) < 2 ^ 31 ->
  let callerId := default "" (msg_applicationID message) in
  let saved := pref_saved (w_handlersMaps w) callerId in
  let w' := snd (cbSetPreferences message w) in
  (exists new,
     w_out w' =
       w_out w ++ new
       ++ [LSMessageReply_call message
             (setPreferencesResult (forallb saved children)
                                   "Some settings could not be saved")])
  /\ (NoDup (map fst children) ->
      forall key value, (key, value) ∈ children ->
        w_prefsDb w' !! key =
          if saved (key, value) then Some (stringify value)
          else w_prefsDb w !! key).
Proof.
  intros Hpayload Hsize callerId saved w'. subst w'.
  rewrite (cbSetPreferences_object _ _ _ Hpayload). cbv zeta. cbn [snd].
  fold callerId. unfold w_emit, w_set_prefsDb. cbn [w_prefsDb w_out].
  split.
  - eexists. f_equal. f_equal. f_equal. f_equal.
    set (l' := fold_left (pref_locals (w_handlersMaps w) callerId) children
                         (mk_SetPrefsLocals true 0 0)).
    destruct (forallb saved children) eqn:Hall.
    + destruct (fold_pref_locals_all_saved (w_handlersMaps w) callerId
                  children (mk_SetPrefsLocals true 0 0) Hall) as [Herr Hsucc].
      cbv zeta in Herr, Hsucc. fold l' in Herr, Hsucc.
      cbn [errcount success] in Herr, Hsucc.
      rewrite Herr. cbn. rewrite Hsucc by reflexivity. reflexivity.
    + assert (Hsome : exists pref, pref ∈ children /\ saved pref = false).
      { clear -Hall. induction children as [|pref rest IH];
          [discriminate|].
        cbn [forallb] in Hall. apply andb_false_iff in Hall as [H|H].
        - exists pref. split; [apply list_elem_of_here|exact H].
        - destruct (IH H) as (q & Hq & Hf). exists q.
          split; [apply list_elem_of_further, Hq|exact Hf]. }
      destruct Hsome as (pref & Hpref & Hunsaved).
      destruct (fold_pref_locals_errcount (w_handlersMaps w) callerId children
                  (mk_SetPrefsLocals true 0 0)) as [_ Hfail];
        [cbn; lia|cbn [errcount]; lia|].
      specialize (Hfail pref Hpref Hunsaved). cbn [errcount] in Hfail.
      fold l' in Hfail.
      assert (Htruth : truth (errcount l') = true).
      { unfold truth. apply negb_true_iff, Z.eqb_neq. lia. }
      rewrite Htruth. reflexivity.
  - intros Hnodup key value Hin.
    apply (fold_pref_db_member _ _ _ _ _ _ Hnodup Hin).
Qed.

End SetPreferencesEdges.

(** A request without payload. *)
Lemma cbSetPreferences_refuses_what_is_no_object_witness :
  cbSetPreferences (mk_LSMessage 1 PayloadNull None) prefsWorld
  = (true,
     w_emit
       [LSMessageReply_call (mk_LSMessage 1 PayloadNull None)
          (JObject
             [("returnValue", JBool false);
              ("errorText", JString "Payload get failed, null payload")])]
       prefsWorld).
Proof.
  apply (@cbSetPreferences_refuses_what_is_no_object platformA
           (mk_LSMessage 1 PayloadNull None) prefsWorld).
  intros children H. discriminate H.
Defined.

(** Setting "showClock" writes nothing under "ringtone". *)
Lemma cbSetPreferences_touches_only_the_named_keys_witness :
  w_prefsDb (snd (cbSetPreferences (setShowClock (JBool true)) prefsWorld))
    !! "ringtone" = None.
Proof.
  destruct (@cbSetPreferences_touches_only_the_named_keys platformA
              (setShowClock (JBool true)) [("showClock", JBool true)]
              prefsWorld eq_refl) as (Hdb & _).
  rewrite Hdb; [vm_compute; reflexivity|].
  intros Hin. apply list_elem_of_singleton in Hin. discriminate Hin.
Defined.

(** "ringtone" has no handler in the world of "showClock": any value is
    stored. *)
Lemma cbSetPreferences_stores_unhandled_keys_unchecked_witness :
  w_handlersMaps prefsWorld !! "ringtone" = None
  /\ w_prefsDb
       (snd (cbSetPreferences (request [("ringtone", JInt (-7))]) prefsWorld))
     !! "ringtone" = Some "-7".
Proof.
  assert (Hnone : w_handlersMaps prefsWorld !! "ringtone" = None)
    by (vm_compute; reflexivity).
  destruct (@cbSetPreferences_stores_unhandled_keys_unchecked platformA
              (request [("ringtone", JInt (-7))]) [("ringtone", JInt (-7))]
              prefsWorld "ringtone" (JInt (-7)) eq_refl
              (NoDup_singleton "ringtone") (list_elem_of_here _ _) Hnone)
    as (new & result & _ & Hdb & _).
  split; [exact Hnone|]. rewrite Hdb. vm_compute. reflexivity.
Defined.

(** "showClock" is given a number and refused, "ringtone" is saved: the
    reply is the failure, and "ringtone" stays stored. *)
Lemma cbSetPreferences_reply_counts_every_member_witness :
  (exists new,
     w_out (snd (cbSetPreferences
                   (request [("showClock", JInt 3); ("ringtone", JInt 1)])
                   prefsWorld))
     = new
       ++ [LSMessageReply_call
             (request [("showClock", JInt 3); ("ringtone", JInt 1)])
             (JObject [("returnValue", JBool false);
                       ("errorText",
                        JString "Some settings could not be saved")])])
  /\ w_prefsDb (snd (cbSetPreferences
                      (request [("showClock", JInt 3); ("ringtone", JInt 1)])
                      prefsWorld))
     !! "ringtone" = Some "1".
Proof.
  assert (Hsize : Z.of_nat 2 < 2 ^ 31) by (vm_compute; reflexivity).
  assert (Hnodup : NoDup ["showClock"; "ringtone"]).
  { apply NoDup_cons. split; [|apply NoDup_singleton].
    intros H. apply list_elem_of_singleton in H. discriminate H. }
  destruct (@cbSetPreferences_reply_counts_every_member platformA
              (request [("showClock", JInt 3); ("ringtone", JInt 1)])
              [("showClock", JInt 3); ("ringtone", JInt 1)] prefsWorld
              eq_refl Hsize) as [[new Hout] Hdb].
  split.
  - exists new. rewrite Hout. reflexivity.
  - rewrite (Hdb Hnodup "ringtone" (JInt 1)
               ltac:(apply list_elem_of_further, list_elem_of_here)).
    vm_compute. reflexivity.
Defined.

(** ** The wallpaper handler *)

Lemma existsb_eqb_elem_of (name : string) (l : list string) :
  existsb (String.eqb name) l = true <-> name ∈ l.
Proof.
  rewrite existsb_exists. split.
  - intros (x & Hin & Heq). apply String.eqb_eq in Heq. subst x.
    apply list_elem_of_In, Hin.
  - intros Hin. exists name. split; [apply list_elem_of_In, Hin|].
    apply String.eqb_refl.
Qed.

Section ScreenSize.
Context {P : Platform}.

(** X19: With the wallpaper handler registered for a key that begins with
    "screenSize", a setPreferences request that carries an application id
    never changes the stored value of the key, whatever value it gives;
    from a caller without application id every value is accepted, and is
    stored when the write succeeds. *)
Theorem screenSize_is_refused_from_applications (message : LSMessage)
    (children : list (string * JValue)) (w : World) (key : string)
    (outcome : ScanOutcome) (h : WallpaperPrefsHandler) :
  msg_payload message = PayloadText (Some (JObject children)) ->
  String.prefix "screenSize" key = true ->
  w_handlersMaps w !! key = Some (wallpaperPrefsHandler outcome h) ->
  let w' := snd (cbSetPreferences message w) in
  (forall id, msg_applicationID message = Some id -> id <> "" ->
     w_prefsDb w' !! key = w_prefsDb w !! key)
  /\ (msg_applicationID message = None
      \/ msg_applicationID message = Some "" ->
      NoDup (map fst children) ->
      forall value, (key, value) ∈ children ->
        w_prefsDb w' !! key =
          if PrefsDb_write key (stringify value) then Some (stringify value)
          else w_prefsDb w !! key).
Proof.
  intros Hpayload Hprefix Hhandler w'. subst w'.
  rewrite (cbSetPreferences_object _ _ _ Hpayload). cbv zeta. cbn [snd].
  unfold w_emit, w_set_prefsDb. cbn [w_prefsDb].
  assert (Hvalidate : forall value originId,
            validate (wallpaperPrefsHandler outcome h) key value originId
            = String.eqb originId "").
  { intros value originId. cbn [validate wallpaperPrefsHandler].
    unfold WallpaperPrefsHandler_validate. rewrite Hprefix. cbn [negb].
    destruct (String.eqb originId ""); reflexivity. }
  split.
  - intros id Hid Hne. apply fold_pref_db_unsaved. intros value _.
    unfold pref_saved. cbn [fst snd]. rewrite Hhandler, Hvalidate, Hid.
    change (default "" (Some id)) with id.
    destruct (String.eqb_spec id ""); [contradiction|]. reflexivity.
  - intros Hid Hnodup value Hin.
    rewrite (fold_pref_db_member _ _ _ _ _ _ Hnodup Hin).
    unfold pref_saved. cbn [fst snd]. rewrite Hhandler, Hvalidate.
    destruct Hid as [-> | ->]; reflexivity.
Qed.

End ScreenSize.

(** The wallpaper handler registered under its keys; an application asks
    for a screen width of 320. *)
Lemma screenSize_is_refused_from_applications_witness :
  let w := snd (registerPrefHandler
                  (wallpaperPrefsHandler (ScanPushes [])
                     (mk_WallpaperPrefsHandler [] [] ""))
                  WallpaperPrefsHandler_keys prefsWorld) in
  let message :=
    mk_LSMessage 1 (PayloadText (Some (JObject [("screenSize.width", JInt 320)])))
                 (Some "com.example.app") in
  w_prefsDb (snd (cbSetPreferences message w)) !! "screenSize.width" = None.
Proof.
  cbv zeta.
  destruct (@screenSize_is_refused_from_applications platformA
              (mk_LSMessage 1
                 (PayloadText (Some (JObject [("screenSize.width", JInt 320)])))
                 (Some "com.example.app"))
              [("screenSize.width", JInt 320)]
              (snd (registerPrefHandler
                      (wallpaperPrefsHandler (ScanPushes [])
                         (mk_WallpaperPrefsHandler [] [] ""))
                      WallpaperPrefsHandler_keys prefsWorld))
              "screenSize.width" (ScanPushes [])
              (mk_WallpaperPrefsHandler [] [] "")
              eq_refl eq_refl ltac:(vm_compute; reflexivity)) as [Hrefused _].
  rewrite (Hrefused "com.example.app" eq_refl ltac:(discriminate)).
  vm_compute. reflexivity.
Defined.

Section WallpaperIndex.
Variable s_wallpaperDir : string.
Variable s_wallpaperThumbsDir : string.
Variable removable : string -> bool.

Lemma jget_wallpaperName_wallpaperElement (name : string) :
  jget "wallpaperName"
       (wallpaperElement s_wallpaperDir s_wallpaperThumbsDir name)
  = JString name.
Proof. reflexivity. Qed.

(** X20: When the scan could read the thumbnail directory, every value that
    valuesForKey offers for "wallpaper" is accepted by validate afterwards,
    whoever the caller and whatever a later scan finds; the files it names
    are those that getWallpaperSpecFromName gives for its name, unless the
    name is empty. *)
Theorem values_offered_for_wallpaper_are_accepted (key : string)
    (names : list string) (h : WallpaperPrefsHandler) (element : JValue) :
  let offered :=
    WallpaperPrefsHandler_valuesForKey s_wallpaperDir s_wallpaperThumbsDir
      key (ScanPushes names) h in
  let h1 := snd offered in
  (exists items, jget "wallpaper" (fst offered) = JArray items
                 /\ element ∈ items) ->
  (forall outcome originId,
     fst (WallpaperPrefsHandler_validate outcome h1 "wallpaper" element
                                         originId) = true)
  /\ exists name,
       jget "wallpaperName" element = JString name
       /\ (name <> "" ->
           exists file thumb,
             getWallpaperSpecFromName s_wallpaperDir s_wallpaperThumbsDir
                                      h1 name = Some (file, thumb)
             /\ jget "wallpaperFile" element = JString file
             /\ jget "wallpaperThumbFile" element = JString thumb).
Proof.
  cbv zeta. intros (items & Hitems & Helement).
  cbn in Hitems. injection Hitems as <-.
  apply list_elem_of_fmap in Helement as (name & -> & Hname).
  assert (Hindexed : existsb (String.eqb name) (m_wallpapers h ++ names) = true)
    by (apply existsb_eqb_elem_of, Hname).
  split.
  - intros outcome originId. unfold WallpaperPrefsHandler_validate.
    change (String.prefix "screenSize" "wallpaper") with false. cbn [negb].
    unfold WallpaperPrefsHandler_validate2.
    change (isObject (wallpaperElement s_wallpaperDir s_wallpaperThumbsDir name))
      with true.
    rewrite jget_wallpaperName_wallpaperElement.
    cbn [negb String.eqb Ascii.eqb Bool.eqb andb isString asString fst].
    apply existsb_eqb_elem_of.
    destruct outcome as [|later];
      cbn [scanForWallpapers snd fst m_wallpapers WallpaperPrefsHandler_valuesForKey].
    + exact Hname.
    + apply elem_of_app. left. exact Hname.
  - exists name. split; [reflexivity|]. intros Hne.
    unfold getWallpaperSpecFromName.
    cbn [WallpaperPrefsHandler_valuesForKey scanForWallpapers snd m_wallpapers].
    rewrite Hindexed. unfold makeLocalPathnamesFromWallpaperName.
    destruct name as [|c rest]; [contradiction|].
    cbn [String.length Nat.ltb Nat.leb].
    eexists. eexists. split; [reflexivity|]. split; reflexivity.
Qed.

Lemma filter_other_names (name : string) (l : list string) (n : string) :
  n ∈ filter (fun x => String.eqb x name = false) l <-> n <> name /\ n ∈ l.
Proof.
  rewrite list_elem_of_filter. rewrite String.eqb_neq. reflexivity.
Qed.



(** X22: A wallpaper that was deleted can be selected again only after a scan
    that pushes its name: a validate that accepts it ran such a scan. *)
Theorem deleted_wallpaper_is_refused_until_rescanned (wallpaperName : string)
    (h : WallpaperPrefsHandler) (files : gset string) (outcome : ScanOutcome)
    (value : JValue) (originId : string) :
  wallpaperName <> m_currentWallpaperName h ->
  jget "wallpaperName" value = JString wallpaperName ->
  let h' := snd (fst (deleteWallpaper s_wallpaperDir s_wallpaperThumbsDir
                        removable wallpaperName h files)) in
  fst (WallpaperPrefsHandler_validate outcome h' "wallpaper" value originId)
  = true ->
  exists names, outcome = ScanPushes names /\ wallpaperName ∈ names.
Proof.
  intros Hother Hname h'.
  unfold WallpaperPrefsHandler_validate.
  change (String.prefix "screenSize" "wallpaper") with false. cbn [negb].
  unfold WallpaperPrefsHandler_validate2.
  destruct (isObject value); cbn [negb]; [|discriminate].
  cbn [String.eqb Ascii.eqb Bool.eqb andb negb].
  rewrite Hname. cbn [isString asString negb fst].
  intros Hok. apply existsb_eqb_elem_of in Hok.
  assert (Hgone : wallpaperName ∉ m_wallpapers h').
  { subst h'. unfold deleteWallpaper.
    destruct (String.eqb_spec wallpaperName (m_currentWallpaperName h));
      [contradiction|].
    destruct (unlink _ _ files) as [rc1 files1].
    destruct (unlink _ _ files1) as [rc2 files2]. cbn [fst snd m_wallpapers].
    rewrite filter_other_names. tauto. }
  destruct outcome as [|names]; cbn [scanForWallpapers snd m_wallpapers] in Hok.
  - contradiction.
  - exists names. split; [reflexivity|].
    apply elem_of_app in Hok as [Hold|Hnew]; [contradiction|exact Hnew].
Qed.

(** X23: The wallpaper that valueChanged was last told of is the one
    deleteWallpaper spares: asked to delete it, it reports false and leaves
    the index and the files as they are.  valueChanged does not look at the
    key: told of a value without a string wallpaperName, it makes the empty
    name the one in use. *)
Theorem the_wallpaper_in_use_is_not_deleted (key : string) (value : JValue)
    (h : WallpaperPrefsHandler) (files : gset string) :
  let h1 := WallpaperPrefsHandler_valueChanged key value h in
  deleteWallpaper s_wallpaperDir s_wallpaperThumbsDir removable
                  (asString (jget "wallpaperName" value)) h1 files
  = (false, h1, files)
  /\ m_wallpapers h1 = m_wallpapers h
  /\ (isString (jget "wallpaperName" value) = false ->
      m_currentWallpaperName h1 = "").
Proof.
  cbv zeta. split; [|split].
  - unfold deleteWallpaper, WallpaperPrefsHandler_valueChanged.
    cbn [m_currentWallpaperName]. rewrite String.eqb_refl. reflexivity.
  - reflexivity.
  - cbn [WallpaperPrefsHandler_valueChanged m_currentWallpaperName].
    destruct (jget "wallpaperName" value); cbn; congruence.
Qed.

End WallpaperIndex.

(** An index with a.png and b.png, b.png being the wallpaper in use, after a
    scan that found c.png. *)
Lemma values_offered_for_wallpaper_are_accepted_witness :
  fst (WallpaperPrefsHandler_validate ScanThumbsUnreadable
         (snd (WallpaperPrefsHandler_valuesForKey "/wp" "/thumbs" "wallpaper"
                 (ScanPushes ["c.png"])
                 (mk_WallpaperPrefsHandler ["a.png"; "b.png"] [] "b.png")))
         "wallpaper" (wallpaperElement "/wp" "/thumbs" "c.png")
         "com.example.app")
  = true.
Proof.
  destruct (values_offered_for_wallpaper_are_accepted "/wp" "/thumbs"
              "wallpaper" ["c.png"]
              (mk_WallpaperPrefsHandler ["a.png"; "b.png"] [] "b.png")
              (wallpaperElement "/wp" "/thumbs" "c.png")) as [Haccepted _].
  - eexists. split; [reflexivity|].
    apply list_elem_of_further, list_elem_of_further, list_elem_of_here.
  - apply Haccepted.
Defined.


(** a.png is deleted and then asked for while a scan finds it again. *)
Lemma deleted_wallpaper_is_refused_until_rescanned_witness :
  exists names, ScanPushes ["a.png"] = ScanPushes names /\ "a.png" ∈ names.
Proof.
  apply (deleted_wallpaper_is_refused_until_rescanned "/wp" "/thumbs"
           (fun _ => true) "a.png"
           (mk_WallpaperPrefsHandler ["a.png"; "b.png"] [] "b.png") ∅
           (ScanPushes ["a.png"])
           (JObject [("wallpaperName", JString "a.png")]) "").
  - discriminate.
  - reflexivity.
  - vm_compute. reflexivity.
Defined.

(** One second before the epoch is reached from an instant an hour earlier
    in a zone one hour east: toLocal answers -1 for a valid reading. *)
Lemma toLocal_adds_the_offset_in_force_witness :
  toLocal (fixedZone 7200) T0 = T0 + 7200
  /\ toLocal (fixedZone 3600) (-3601) = TIME_INVALID.
Proof.
  destruct (toLocal_adds_the_offset_in_force (fixedZone 7200) T0)
    as [Hvalid _].
  destruct (toLocal_adds_the_offset_in_force (fixedZone 3600) (-3601))
    as [_ Hinvalid].
  split.
  - destruct Hvalid as [Heq _]; [vm_compute; discriminate|exact Heq].
  - apply Hinvalid. right. reflexivity.
Defined.

(** Automatic mode with a sample held: the broadcast time is effective. *)
Lemma mode_predicates_read_two_bits_witness :
  isSystemTimeBroadcastEffective automaticSample = false
  /\ isNITZTimeEnabled automaticSample = true
  /\ BroadcastTime_avail (m_broadcastTime automaticSample) = true.
Proof.
  assert (Heff : isSystemTimeBroadcastEffective automaticSample = false)
    by reflexivity.
  destruct (@mode_predicates_read_two_bits platformA automaticSample)
    as (_ & _ & _ & Hbroadcast & _).
  split; [exact Heff|]. exact (Hbroadcast Heff).
Defined.

(** The request with utc and local only is accepted. *)
Lemma schemaSetBroadcastTime_accepts_exactly_witness :
  @parser_accepts platformA schemaSetBroadcastTime
    (msg_payload requestWithoutTimestamp)
  = Some (JObject [("utc", JInt T0); ("local", JInt (T0 + 3600))]).
Proof.
  apply (@schemaSetBroadcastTime_accepts_exactly platformA).
  exists [("utc", JInt T0); ("local", JInt (T0 + 3600))].
  do 2 (split; [reflexivity|]). split; [|split; reflexivity].
  intros k x Hin. apply elem_of_cons in Hin as [Heq|Hin].
  - injection Heq as -> ->. left. split; reflexivity.
  - apply list_elem_of_singleton in Hin. injection Hin as -> ->.
    right. left. split; reflexivity.
Defined.

(** The subscriber of "showClock" is sent the change of "showClock". *)
Lemma postPrefChangeValueIsCompleteString_reaches_the_subscribers_witness :
  exists new,
    snd (postPrefChangeValueIsCompleteString "showClock"
           (JObject [("showClock", JBool true)]) prefsWorld)
    = w_emit new prefsWorld
    /\ LSMessageReply_call subscriberA (JObject [("showClock", JBool true)])
       ∈ new.
Proof.
  destruct (@postPrefChangeValueIsCompleteString_reaches_the_subscribers
              platformA "showClock" (JObject [("showClock", JBool true)])
              prefsWorld) as (new & Hrun & _ & Hsent & _).
  exists new. split; [exact Hrun|].
  destruct (Hsent eq_refl) as [_ Hall].
  apply Hall. apply list_elem_of_here.
Defined.
